(** * count_score.py: the foosball score detector

    A shallow embedding of the geometric and counting core of
    [count_score.py] (Python 2): corner classification, table ends, score
    boxes, cropping, and the dot counter, together with the properties of
    the written specification that concern them, and further properties
    of the same functions: their errors on short inputs, their invariance
    under reordering and translation, and what they return on
    axis-aligned tables.

    Conventions of the embedding.
    - Python integers are [Z]; [/] between integers is Python 2 floor
      division ([Z.div]). The corners that OpenCV returns are 64-bit
      NumPy integers; pixel coordinates stay far from their wrap-around,
      and they are integers of [Z] as well.
    - Python floats are IEEE 754 binary64 values, modelled by [spec_float]
      with the operations of [SpecFloat] at precision 53 and [emax] 1024
      (round to nearest, ties to even), which is what [math.sqrt], [+], [*]
      and [/] compute on floats. An integer is converted to the nearest
      float; beyond [2 ^ 1024], where CPython raises [OverflowError], the
      conversion yields an infinity.
    - Exceptions are values of [exception]; a function that may raise
      returns a [result].
    - Tuples are ordered lexicographically, as Python orders them.
    - Image segmentation (OpenCV, SciPy) is outside the embedding: the dot
      counter starts from the bounding slices that [ndimage.find_objects]
      returns. *)

From Stdlib Require Import ZArith List Bool Lia String Ascii DecimalString.
From Stdlib Require Import Permutation Sorted.
From Stdlib Require Import SpecFloat.
Import ListNotations.
Local Open Scope Z_scope.

(** ** Exceptions and results *)

Inductive exception : Type :=
| ValueError (msg : string)
| IndexError (msg : string)
| ZeroDivisionError (msg : string)
| OverflowError (msg : string).

Inductive result (A : Type) : Type :=
| Ok (a : A)
| Raise (e : exception).

Arguments Ok {A} a.
Arguments Raise {A} e.

Definition bind {A B : Type} (r : result A) (k : A -> result B) : result B :=
  match r with
  | Ok a => k a
  | Raise e => Raise e
  end.

Notation "x <- r ;; k" := (bind r (fun x => k))
  (at level 61, r at next level, right associativity).
Notation "' p <- r ;; k" := (bind r (fun x => let 'p := x in k))
  (at level 61, p pattern, r at next level, right associativity).

Fixpoint mapM {A B : Type} (f : A -> result B) (l : list A) : result (list B) :=
  match l with
  | [] => Ok []
  | a :: l' => b <- f a ;; bs <- mapM f l' ;; Ok (b :: bs)
  end.

(** ** Python floats *)

Module PyFloat.

Definition prec : Z := 53.
Definition emax : Z := 1024.

Definition float : Type := spec_float.

(** [float(n)] for an integer [n]: the nearest binary64 value. *)
Definition of_int (n : Z) : float := binary_normalize prec emax n 0 false.

Definition add : float -> float -> float := SFadd prec emax.
Definition mul : float -> float -> float := SFmul prec emax.
Definition div : float -> float -> float := SFdiv prec emax.
Definition sqrt : float -> float := SFsqrt prec emax.

Definition ltb : float -> float -> bool := SFltb.
(** [x > y] *)
Definition gtb (x y : float) : bool := SFltb y x.

(** [x <= y] *)
Definition leb : float -> float -> bool := SFleb.

Definition is_zero (x : float) : bool :=
  match x with
  | S754_zero _ => true
  | _ => false
  end.

Definition is_nan (x : float) : bool :=
  match x with
  | S754_nan => true
  | _ => false
  end.

(** A decimal literal [n / 10^k] denotes the binary64 value nearest to
    it; the correctly rounded quotient of two exactly representable
    integers is that value. *)
Definition literal (n : Z) (pow10 : Z) : float := div (of_int n) (of_int pow10).

(** Number of binary digits of an integer. *)
Definition digits (n : Z) : Z := Zdigits2 n.

(** The binary64 value of a positive integer below [2 ^ 53]: the integer
    itself, with its mantissa shifted to 53 digits. *)
Definition exact_int (n : Z) : float :=
  S754_finite false (Z.to_pos (n * 2 ^ (53 - digits n))) (digits n - 53).

(** [int(x)]: truncation toward zero. *)
Definition to_int (x : float) : result Z :=
  match x with
  | S754_zero _ => Ok 0
  | S754_finite s m e =>
      let a := match e with
               | Zneg p => Z.shiftr (Zpos m) (Zpos p)
               | _ => Z.shiftl (Zpos m) e
               end in
      Ok (if s then - a else a)
  | S754_infinity _ =>
      Raise (OverflowError "cannot convert float infinity to integer")
  | S754_nan => Raise (ValueError "cannot convert float NaN to integer")
  end.

End PyFloat.

(** ** Points and tuple ordering *)

Definition point : Type := (Z * Z)%type.

(** [a < b] on 2-tuples of integers. *)
Definition point_ltb (a b : point) : bool :=
  (fst a <? fst b) || ((fst a =? fst b) && (snd a <? snd b)).

Definition point_eqb (a b : point) : bool :=
  (fst a =? fst b) && (snd a =? snd b).

(** [a < b] on pairs of points, e.g. the table ends. *)
Definition pair_ltb (a b : point * point) : bool :=
  point_ltb (fst a) (fst b) || (point_eqb (fst a) (fst b) && point_ltb (snd a) (snd b)).

(** ** Sorting

    [sorted] and [list.sort] are stable and only use [<]. *)

Section Sorting.
Context {A : Type}.
Variable lt : A -> A -> bool.

Fixpoint insert (x : A) (l : list A) : list A :=
  match l with
  | [] => [x]
  | y :: l' => if lt y x then y :: insert x l' else x :: y :: l'
  end.

(** Insert from the right end, so that equal elements keep their order. *)
Fixpoint sorted (l : list A) : list A :=
  match l with
  | [] => []
  | x :: l' => insert x (sorted l')
  end.

(** [a] does not come after [b]. *)
Definition not_after (a b : A) : Prop := lt b a = false.

(** [min(l)] and [max(l)] return the first minimal, resp. maximal,
    element. *)
Fixpoint py_min_from (m : A) (l : list A) : A :=
  match l with
  | [] => m
  | x :: l' => py_min_from (if lt x m then x else m) l'
  end.

Fixpoint py_max_from (m : A) (l : list A) : A :=
  match l with
  | [] => m
  | x :: l' => py_max_from (if lt m x then x else m) l'
  end.

Definition py_min (l : list A) : result A :=
  match l with
  | [] => Raise (ValueError "min() arg is an empty sequence")
  | x :: l' => Ok (py_min_from x l')
  end.

Definition py_max (l : list A) : result A :=
  match l with
  | [] => Raise (ValueError "max() arg is an empty sequence")
  | x :: l' => Ok (py_max_from x l')
  end.
End Sorting.

(** [l[i]] with Python's negative indices. *)
Definition py_index {A : Type} (l : list A) (i : Z) : result A :=
  let n := Z.of_nat (List.length l) in
  let j := if i <? 0 then i + n else i in
  if (j <? 0) || (n <=? j) then Raise (IndexError "list index out of range")
  else match nth_error l (Z.to_nat j) with
       | Some a => Ok a
       | None => Raise (IndexError "list index out of range")
       end.

(** [l[a:b]] with Python's clamping of slice bounds. *)
Definition slice_bound (n i : Z) : Z :=
  if i <? 0 then Z.max 0 (i + n) else Z.min i n.

Definition py_slice {A : Type} (l : list A) (a b : Z) : list A :=
  let n := Z.of_nat (List.length l) in
  let lo := slice_bound n a in
  let hi := slice_bound n b in
  firstn (Z.to_nat (hi - lo)) (skipn (Z.to_nat lo) l).

(** ** Generic math functions *)

Definition flip (coord : point) : point := (snd coord, fst coord).

(** [math.sqrt((p[1][0] - p[0][0])**2 + (p[1][1] - p[0][1])**2)]: the
    integer under the root is exact, it is converted to a float and
    rooted. *)
Definition distance_between_points (p : point * point) : PyFloat.float :=
  PyFloat.sqrt
    (PyFloat.of_int ((fst (snd p) - fst (fst p)) ^ 2 + (snd (snd p) - snd (fst p)) ^ 2)).

Definition middle_point (p1 p2 : point) : point :=
  ((fst p1 + fst p2) / 2, (snd p1 + snd p2) / 2).

(** ** Configuration constants *)

Definition SCORE_BLOCK_LENGTH : PyFloat.float := PyFloat.literal 45 1000.
Definition SCORE_INNER_MARGIN : PyFloat.float := PyFloat.literal 15 1000.
Definition SCORE_TO_MIDDLE_MARGIN : PyFloat.float := PyFloat.literal 17 100.

Definition MIN_SCORE_AREA : Z := 15.
Definition MAX_SCORE_AREA : Z := 120.

(** ** Table geometry *)

(** [sorted([(y, x) for x, y in corners])], then the last element against
    the elements of index 1 and 2. *)
Definition find_lower_long_side (corners : list point) : result (point * point) :=
  let sorted_by_y := sorted point_ltb (map flip corners) in
  lowest <- py_index sorted_by_y (-1) ;;
  s1 <- py_index sorted_by_y 1 ;;
  let distance_a := distance_between_points (lowest, s1) in
  s2 <- py_index sorted_by_y 2 ;;
  let distance_b := distance_between_points (lowest, s2) in
  let point_a := lowest in
  let point_b := if PyFloat.gtb distance_a distance_b then s1 else s2 in
  Ok (flip point_a, flip point_b).

Definition find_crop_corners (box : list point) : result (point * point) :=
  let sorted_by_x := sorted point_ltb box in
  let left_coords := firstn 2 sorted_by_x in
  let right_coords := skipn 2 sorted_by_x in
  tl <- py_min point_ltb (map flip left_coords) ;;
  br <- py_max point_ltb (map flip right_coords) ;;
  Ok (flip tl, flip br).

(** [itertools.combinations(points, 2)] *)
Fixpoint combinations (points : list point) : list (point * point) :=
  match points with
  | [] => []
  | p :: rest => map (fun q => (p, q)) rest ++ combinations rest
  end.

(** Comparison of the decorated entries of [heapq.nsmallest]; as the
    entries are taken in order of their index, a stable sort on the key
    orders them by (key, index). *)
Definition key_ltb {A : Type} (a b : PyFloat.float * A) : bool :=
  PyFloat.ltb (fst a) (fst b).

Definition nsmallest {A : Type} (n : nat) (l : list A) (key : A -> PyFloat.float)
  : list A :=
  map snd (firstn n (sorted key_ltb (map (fun a => (key a, a)) l))).

Definition find_table_ends (points : list point) : list (point * point) :=
  let ends := nsmallest 2 (combinations points) distance_between_points in
  sorted pair_ltb ends.

Definition calculate_coordinate_addition (middle1 middle2 : point)
  (percent : PyFloat.float) : result point :=
  x_diff <- PyFloat.to_int
              (PyFloat.mul (PyFloat.of_int (fst middle2 - fst middle1)) percent) ;;
  y_diff <- PyFloat.to_int
              (PyFloat.mul (PyFloat.of_int (snd middle2 - snd middle1)) percent) ;;
  Ok (x_diff, y_diff).

Definition add_point (p d : point) : point := (fst p + fst d, snd p + snd d).

Definition table_end_middles (e : point * point) : result (point * point * point) :=
  let middle := middle_point (fst e) (snd e) in
  let middle_a := middle_point (fst e) middle in
  let middle_b := middle_point (snd e) middle in
  add1 <- calculate_coordinate_addition middle_a middle SCORE_TO_MIDDLE_MARGIN ;;
  add2 <- calculate_coordinate_addition middle_b middle SCORE_TO_MIDDLE_MARGIN ;;
  Ok (middle, add_point middle_a add1, add_point middle_b add2).

(** A score box: four corner points, as the 4-tuple the code builds. *)
Definition box : Type := list point.

Definition calculate_score_box (middle_a middle_b addition : point) : box :=
  let box_a := add_point middle_a addition in
  let box_b := add_point middle_b addition in
  [middle_b; middle_a; box_a; box_b].

Definition find_score_boxes (corners : list point) : result (box * box) :=
  match find_table_ends corners with
  | [end1; end2] =>
      '(middle1, middle1_a, middle1_b) <- table_end_middles end1 ;;
      '(middle2, middle2_a, middle2_b) <- table_end_middles end2 ;;
      add1 <- calculate_coordinate_addition middle1 middle2 SCORE_INNER_MARGIN ;;
      add2 <- calculate_coordinate_addition middle2 middle1 SCORE_INNER_MARGIN ;;
      let middle1_a := add_point middle1_a add1 in
      let middle1_b := add_point middle1_b add1 in
      let middle2_a := add_point middle2_a add2 in
      let middle2_b := add_point middle2_b add2 in
      addition1 <- calculate_coordinate_addition middle1 middle2 SCORE_BLOCK_LENGTH ;;
      addition2 <- calculate_coordinate_addition middle2 middle1 SCORE_BLOCK_LENGTH ;;
      let end1_box := calculate_score_box middle1_a middle1_b addition1 in
      let end2_box := calculate_score_box middle2_a middle2_b addition2 in
      Ok (end1_box, end2_box)
  | [] => Raise (ValueError "need more than 0 values to unpack")
  | [_] => Raise (ValueError "need more than 1 value to unpack")
  | _ => Raise (ValueError "too many values to unpack")
  end.

(** ** Cropping *)

Section Images.
Context {pixel : Type}.

(** An image is a list of rows of pixels. *)
Definition image : Type := list (list pixel).

(** [image[y1:y2, x1:x2]] *)
Definition crop_slice (img : image) (y1 y2 x1 x2 : Z) : image :=
  map (fun row => py_slice row x1 x2) (py_slice img y1 y2).

Fixpoint cons_column (col : list pixel) (m : image) : image :=
  match col with
  | [] => []
  | x :: col' =>
      match m with
      | [] => [x] :: cons_column col' []
      | r :: m' => (x :: r) :: cons_column col' m'
      end
  end.

(** [cv2.transpose]: rows become columns. *)
Fixpoint transpose (img : image) : image :=
  match img with
  | [] => []
  | row :: img' => cons_column row (transpose img')
  end.

(** [cv2.flip(img, 0)]: the rows in reverse order. *)
Definition flip_vertical (img : image) : image := rev img.

Definition crop_boxes (img : image) (boxes : list box) : result (list image) :=
  mapM (fun b =>
          '(tl, br) <- find_crop_corners b ;;
          let x1 := fst tl in
          let y1 := snd tl in
          let x2 := fst br in
          let y2 := snd br in
          let cropped := crop_slice img y1 y2 x1 x2 in
          let cropped := transpose cropped in
          let cropped := flip_vertical cropped in
          Ok cropped)
       boxes.

Definition pixel_count (img : image) : nat :=
  fold_right (fun row n => (List.length row + n)%nat) 0%nat img.
End Images.

(** ** The dot counter *)

(** A Python [slice(start, stop)], as [ndimage.find_objects] returns one
    per axis for each labelled component. *)
Record pyslice : Type := { start : Z; stop : Z }.

(** The consecutive pairs [(points[i], points[i + 1])] that a loop over
    [enumerate(points[:-1])] visits. *)
Fixpoint consecutive (points : list point) : list (point * point) :=
  match points with
  | p :: (q :: _) as rest => (p, q) :: consecutive rest
  | _ => []
  end.

Definition average_distance_between_score_dots (points : list point)
  : result PyFloat.float :=
  let distances := map distance_between_points (consecutive points) in
  match distances with
  | [] => Raise (ZeroDivisionError "float division by zero")
  | _ =>
      Ok (PyFloat.div (fold_left PyFloat.add distances (PyFloat.of_int 0))
                      (PyFloat.of_int (Z.of_nat (List.length distances))))
  end.

(** The counting loop of [find_score]: [score] is incremented for each
    pair until the first gap above [middle_distance]. *)
Fixpoint walk (middle_distance : PyFloat.float) (pairs : list (point * point))
  (score : Z) : Z :=
  match pairs with
  | [] => score
  | pq :: rest =>
      if PyFloat.gtb (distance_between_points pq) middle_distance then score
      else walk middle_distance rest (score + 1)
  end.

Definition find_score (points : list point) : result Z :=
  let points := sorted point_ltb points in
  middle_distance <- average_distance_between_score_dots points ;;
  Ok (walk middle_distance (consecutive points) 0).

Definition slice_area (dy dx : pyslice) : Z :=
  Z.abs ((stop dx - start dx) * (stop dy - start dy)).

(** The loop over the slices: [objects] collects the centres of the
    components whose area passes. *)
Fixpoint collect_objects (slices : list (pyslice * pyslice)) (objects : list point)
  : list point :=
  match slices with
  | [] => objects
  | (dy, dx) :: rest =>
      let area := slice_area dy dx in
      if (area <? MIN_SCORE_AREA) || (area >? MAX_SCORE_AREA)
      then collect_objects rest objects
      else
        let x_center := (start dx + stop dx - 1) / 2 in
        let y_center := (start dy + stop dy - 1) / 2 in
        collect_objects rest (objects ++ [(x_center, y_center)])
  end.

(** ['%s' % n] for a length [n]. *)
Definition str_of_len (n : nat) : string :=
  NilZero.string_of_uint (Nat.to_uint n).

Definition find_score_from_image (slices : list (pyslice * pyslice)) : result Z :=
  let objects := collect_objects slices [] in
  if negb (Nat.eqb (List.length objects) 12) then
    let err := "Cannot find correct amount of score blocks. "%string in
    let err := (err ++ "Expected 12, but found " ++ str_of_len (List.length objects))%string in
    Raise (ValueError err)
  else find_score objects.

(** ** The pipeline *)

Record score_data : Type := { leftScore : Z; rightScore : Z }.

Section Pipeline.
Variable photo : Type.
Variable pixel : Type.

(** Padding onto the larger canvas and [straighten_table]. *)
Variable straighten : photo -> @image pixel.
(** [find_blue], [cv2.findNonZero], [cv2.minAreaRect], [BoxPoints] and
    rounding: the four table corners. *)
Variable table_corners : @image pixel -> list point.
(** [find_orange], then [ndimage.label] and [ndimage.find_objects]. *)
Variable orange_objects : @image pixel -> list (pyslice * pyslice).
(** Grey levels above 160, then [ndimage.label] and
    [ndimage.find_objects]. *)
Variable bright_objects : @image pixel -> list (pyslice * pyslice).

(** [l.remove(x)]: drops the first occurrence. *)
Fixpoint list_remove (x : point) (l : list point) : result (list point) :=
  match l with
  | [] => Raise (ValueError "list.remove(x): x not in list")
  | y :: l' =>
      if point_eqb y x then Ok l'
      else l'' <- list_remove x l' ;; Ok (y :: l'')
  end.

Definition get_score (img : photo) : result score_data :=
  let rotated_image := straighten img in
  let corners := table_corners rotated_image in
  let sorted_corners := corners in
  '(tl, br) <- find_crop_corners sorted_corners ;;
  sorted_corners <- list_remove tl sorted_corners ;;
  sorted_corners <- list_remove br sorted_corners ;;
  bl <- py_min point_ltb sorted_corners ;;
  tr <- py_max point_ltb sorted_corners ;;
  '(box1, box2) <- find_score_boxes [tl; bl; br; tr] ;;
  crops <- crop_boxes rotated_image [box1; box2] ;;
  match crops with
  | [score1_crop; score2_crop] =>
      left <- find_score_from_image (orange_objects score1_crop) ;;
      let left_score := 10 - left in
      right <- find_score_from_image (bright_objects score2_crop) ;;
      Ok {| leftScore := left_score; rightScore := right |}
  | [] => Raise (ValueError "need more than 0 values to unpack")
  | [_] => Raise (ValueError "need more than 1 value to unpack")
  | _ => Raise (ValueError "too many values to unpack")
  end.
End Pipeline.

(** ** Notions of the written specification *)

Definition is_ok {A : Type} (r : result A) : bool :=
  match r with
  | Ok _ => true
  | Raise _ => false
  end.

(** *** Dot counter *)

(** Width and height of a component's bounding box, and its area as
    width times height. *)
Definition bbox_width (s : pyslice * pyslice) : Z := Z.abs (stop (snd s) - start (snd s)).
Definition bbox_height (s : pyslice * pyslice) : Z := Z.abs (stop (fst s) - start (fst s)).
Definition bbox_area (s : pyslice * pyslice) : Z := bbox_width s * bbox_height s.

(** The area lies inclusively between the two bounds. *)
Definition area_in_bounds (s : pyslice * pyslice) : bool :=
  (MIN_SCORE_AREA <=? bbox_area s) && (bbox_area s <=? MAX_SCORE_AREA).

(** Centre of a bounding box, with the integer division of the code. *)
Definition bbox_center (s : pyslice * pyslice) : point :=
  ((start (snd s) + stop (snd s) - 1) / 2, (start (fst s) + stop (fst s) - 1) / 2).

(** The text of the error for [found] surviving components where
    [expected] are required. *)
Definition invalid_dot_count (found expected : nat) : exception :=
  ValueError ("Cannot find correct amount of score blocks. Expected "
              ++ str_of_len expected ++ ", but found " ++ str_of_len found)%string.

(** The gaps between neighbours of a sequence of points, by position:
    the gap of index [i] separates the points of index [i] and [i + 1]. *)
Definition gap_at (points : list point) (i : nat) : PyFloat.float :=
  distance_between_points (nth i points (0, 0), nth (S i) points (0, 0)).

Definition gaps (points : list point) : list PyFloat.float :=
  map (gap_at points) (seq 0 (List.length points - 1)).

(** Left-to-right sum, starting from the integer 0 as [sum] does. *)
Definition float_sum (l : list PyFloat.float) : PyFloat.float :=
  fold_left PyFloat.add l (PyFloat.of_int 0).

(** Number of steps taken while the gap does not exceed [avg]. *)
Fixpoint leading_steps (avg : PyFloat.float) (gs : list PyFloat.float) : Z :=
  match gs with
  | [] => 0
  | g :: gs' => if PyFloat.gtb g avg then 0 else 1 + leading_steps avg gs'
  end.

(** Tuple order on points, as a proposition. *)
Definition point_le (a b : point) : Prop :=
  fst a < fst b \/ (fst a = fst b /\ snd a <= snd b).

(** Order by [y], then by [x]. *)
Definition yx_le (a b : point) : Prop := point_le (flip a) (flip b).

Definition point_lt (a b : point) : Prop :=
  fst a < fst b \/ (fst a = fst b /\ snd a < snd b).

(** Tuple order on pairs of points. *)
Definition pair_le (a b : point * point) : Prop :=
  point_lt (fst a) (fst b) \/ (fst a = fst b /\ point_le (snd a) (snd b)).

(** Twelve points in a row at height [y]: neighbours are [d] apart,
    except the points of index [k] and [k + 1], which are [D] apart. *)
Definition row_with_gap (x0 y d D : Z) (k : Z) : list point :=
  map (fun i => (x0 + i * d + (if k <? i then D - d else 0), y))
      [0; 1; 2; 3; 4; 5; 6; 7; 8; 9; 10; 11].

(** The eleven gaps of such a row, as integers. *)
Definition gap_values (d D : Z) (k : Z) : list Z :=
  map (fun i => if i =? k then D else d) [0; 1; 2; 3; 4; 5; 6; 7; 8; 9; 10].

Definition sum_Z (l : list Z) : Z := fold_right Z.add 0 l.

(** Twelve points in a row, all neighbours [d] apart. *)
Definition even_row (x0 y d : Z) : list point :=
  map (fun i => (x0 + i * d, y)) [0; 1; 2; 3; 4; 5; 6; 7; 8; 9; 10; 11].

(** *** Geometry *)

Definition scale_point (k : Z) (p : point) : point := (k * fst p, k * snd p).

(** The integer under the root of a distance. *)
Definition squared_distance (p : point * point) : Z :=
  (fst (snd p) - fst (fst p)) ^ 2 + (snd (snd p) - snd (fst p)) ^ 2.

Definition scale_pair (k : Z) (pq : point * point) : point * point :=
  (scale_point k (fst pq), scale_point k (snd pq)).

(** [c] is the binary64 value nearest to [num / den], a fraction between
    [2 ^ -8] and [1 / 2]. *)
Definition nearest_fraction (c : PyFloat.float) (num den : Z) : Prop :=
  exists (mc : positive) (ec : Z),
    c = S754_finite false mc ec
    /\ 2 ^ 52 <= Zpos mc < 2 ^ 53
    /\ -60 <= ec <= -54
    /\ 0 < num /\ 0 < den <= 1000
    /\ - den <= 2 * den * Zpos mc - 2 * num * 2 ^ (- ec) <= den.

(** [t] is [num / den * n] up to less than one. *)
Definition trunc_near (num den n t : Z) : Prop :=
  - den <= den * t - num * n <= den.

(** [p'] is [k * p] up to [tol] in each coordinate. *)
Definition point_near (tol k : Z) (p p' : point) : Prop :=
  (- tol <= fst p' - k * fst p <= tol) /\ (- tol <= snd p' - k * snd p <= tol).

Definition box_near (tol k : Z) (b b' : box) : Prop :=
  Forall2 (point_near tol k) b b'.

(** Both coordinates of a point lie within [bound]. *)
Definition point_within (bound : Z) (p : point) : Prop :=
  (- bound <= fst p <= bound) /\ (- bound <= snd p <= bound).

(** A square blob of side 4 whose bounding box starts at column [x]. *)
Definition blob (x : Z) : pyslice * pyslice :=
  ({| start := 0; stop := 4 |}, {| start := x; stop := x + 4 |}).

(** Twelve blobs, evenly spaced by 10 pixels. *)
Definition even_blobs : list (pyslice * pyslice) :=
  map (fun i => blob (10 * i)) [0; 1; 2; 3; 4; 5; 6; 7; 8; 9; 10; 11].


(** *** Notions of the further properties *)

(** A pair of points moved by the vector [t]. *)
Definition shift_pair (t : point) (pq : point * point) : point * point :=
  (add_point (fst pq) t, add_point (snd pq) t).

(** The two slices of a component moved by the vector [t]: the first
    slice is the one of the rows. *)
Definition shift_slice (t : point) (s : pyslice * pyslice) : pyslice * pyslice :=
  ({| start := start (fst s) + snd t; stop := stop (fst s) + snd t |},
   {| start := start (snd s) + fst t; stop := stop (snd s) + fst t |}).

(** The corners of an axis-aligned rectangle, in the order top left,
    bottom left, bottom right, top right ([y] grows downwards). *)
Definition rectangle (x1 y1 x2 y2 : Z) : list point :=
  [(x1, y1); (x1, y2); (x2, y2); (x2, y1)].

(** The opposite vector. *)
Definition neg_point (p : point) : point := (- fst p, - snd p).

(** [t] is [num / den * n] truncated toward zero, or one step nearer to
    zero. *)
Definition truncated (num den n t : Z) : Prop :=
  (0 <= n -> 0 <= t /\ num * n - den <= den * t <= num * n)
  /\ (n <= 0 -> t <= 0 /\ num * n <= den * t <= num * n + den).

(** [x] lies between [a] and [b], in either order. *)
Definition between (a b x : Z) : Prop := Z.min a b <= x <= Z.max a b.

(** Each coordinate of [x] lies between those of [p] and [q]. *)
Definition point_between (p q x : point) : Prop :=
  between (fst p) (fst q) (fst x) /\ between (snd p) (snd q) (snd x).

(** The corner classification of [get_score]: top left and bottom right
    by [find_crop_corners], the two that remain by [min] and [max]. The
    result is the list [[tl, bl, br, tr]] given to [find_score_boxes]. *)
Definition classify_corners (corners : list point) : result (list point) :=
  let sorted_corners := corners in
  '(tl, br) <- find_crop_corners sorted_corners ;;
  sorted_corners <- list_remove tl sorted_corners ;;
  sorted_corners <- list_remove br sorted_corners ;;
  bl <- py_min point_ltb sorted_corners ;;
  tr <- py_max point_ltb sorted_corners ;;
  Ok [tl; bl; br; tr].

(** The pixel of row [r] and column [c], if the image has one. *)
Definition pixel_at {pixel : Type} (img : @image pixel) (r c : nat) : option pixel :=
  match nth_error img r with
  | Some row => nth_error row c
  | None => None
  end.

(** * Properties *)

(** ** Results *)

Lemma bind_ok {A B : Type} (r : result A) (k : A -> result B) (b : B) :
  bind r k = Ok b -> exists a, r = Ok a /\ k a = Ok b.
Proof.
  destruct r as [a | e]; simpl; intros H.
  - exists a. split; [reflexivity | exact H].
  - discriminate H.
Qed.

(** ** The area filter and the count of survivors *)

Lemma area_test_spec (dy dx : pyslice) :
  (slice_area dy dx <? MIN_SCORE_AREA) || (slice_area dy dx >? MAX_SCORE_AREA)
  = negb (area_in_bounds (dy, dx)).
Proof.
  unfold area_in_bounds, bbox_area, bbox_width, bbox_height, slice_area. simpl.
  rewrite <- Z.abs_mul.
  set (a := Z.abs _).
  rewrite negb_andb, Z.gtb_ltb, !Z.leb_antisym, !negb_involutive. reflexivity.
Qed.

Lemma collect_objects_filter (slices : list (pyslice * pyslice)) :
  forall objects,
    collect_objects slices objects
    = objects ++ map bbox_center (filter area_in_bounds slices).
Proof.
  induction slices as [| [dy dx] rest IH]; intros objects; simpl.
  - now rewrite app_nil_r.
  - rewrite area_test_spec.
    destruct (area_in_bounds (dy, dx)); simpl.
    + rewrite IH, <- app_assoc. reflexivity.
    + apply IH.
Qed.

(** ** Sorting *)

Section SortingFacts.
Context {A : Type}.
Variable lt : A -> A -> bool.

Lemma insert_perm (x : A) (l : list A) : Permutation (insert lt x l) (x :: l).
Proof.
  induction l as [| y l IH]; simpl.
  - apply Permutation_refl.
  - destruct (lt y x).
    + apply perm_trans with (y :: x :: l).
      * apply perm_skip, IH.
      * apply perm_swap.
    + apply Permutation_refl.
Qed.

Lemma sorted_perm (l : list A) : Permutation (sorted lt l) l.
Proof.
  induction l as [| x l IH]; simpl.
  - apply perm_nil.
  - apply perm_trans with (x :: sorted lt l).
    + apply insert_perm.
    + apply perm_skip, IH.
Qed.

Lemma sorted_length (l : list A) : List.length (sorted lt l) = List.length l.
Proof. apply Permutation_length, sorted_perm. Qed.

Lemma sorted_in (l : list A) (x : A) : In x (sorted lt l) <-> In x l.
Proof.
  split; apply Permutation_in; [| apply Permutation_sym]; apply sorted_perm.
Qed.

(** The order properties, required on the elements that satisfy [P]. *)
Variable P : A -> Prop.
Hypothesis lt_asym : forall a b, P a -> P b -> lt a b = true -> lt b a = false.
Hypothesis not_after_trans :
  forall a b c, P a -> P b -> P c -> not_after lt a b -> not_after lt b c -> not_after lt a c.

Lemma insert_sorted (x : A) (l : list A) :
  P x -> Forall P l ->
  StronglySorted (not_after lt) l -> StronglySorted (not_after lt) (insert lt x l).
Proof.
  intros Px HP Hs. induction Hs as [| y l Hs IH Hy]; simpl.
  - constructor; constructor.
  - apply Forall_cons_iff in HP as [Py HP].
    destruct (lt y x) eqn:E.
    + constructor.
      * apply IH, HP.
      * apply (Permutation_Forall (Permutation_sym (insert_perm x l))).
        constructor; [| exact Hy].
        apply lt_asym; assumption.
    + constructor.
      * constructor; assumption.
      * constructor; [exact E |].
        rewrite Forall_forall in Hy, HP |- *. intros z Hz.
        apply (not_after_trans x y z); auto.
Qed.

Lemma sorted_sorted (l : list A) :
  Forall P l -> StronglySorted (not_after lt) (sorted lt l).
Proof.
  induction l as [| x l IH]; simpl; intros HP.
  - constructor.
  - apply Forall_cons_iff in HP as [Px HP].
    apply insert_sorted; auto.
    apply (Permutation_Forall (Permutation_sym (sorted_perm l))), HP.
Qed.

(** A list in order is left as it is. *)
Lemma sorted_id (l : list A) :
  StronglySorted (not_after lt) l -> sorted lt l = l.
Proof.
  induction 1 as [| x l Hs IH Hx]; simpl.
  - reflexivity.
  - rewrite IH. destruct l as [| y l']; simpl.
    + reflexivity.
    + apply Forall_cons_iff in Hx as [Hxy _]. unfold not_after in Hxy.
      now rewrite Hxy.
Qed.
End SortingFacts.

Lemma point_ltb_asym (a b : point) : point_ltb a b = true -> point_ltb b a = false.
Proof.
  destruct a as [ax ay], b as [bx by_]. unfold point_ltb. simpl. lia.
Qed.

Lemma point_not_after_trans (a b c : point) :
  not_after point_ltb a b -> not_after point_ltb b c -> not_after point_ltb a c.
Proof.
  destruct a as [ax ay], b as [bx by_], c as [cx cy].
  unfold not_after, point_ltb. simpl. lia.
Qed.

Lemma point_not_after_le (a b : point) : not_after point_ltb a b <-> point_le a b.
Proof.
  destruct a as [ax ay], b as [bx by_].
  unfold not_after, point_ltb, point_le. simpl. lia.
Qed.

Lemma sorted_points_sorted (l : list point) :
  StronglySorted point_le (sorted point_ltb l).
Proof.
  assert (H : StronglySorted (not_after point_ltb) (sorted point_ltb l)).
  { apply sorted_sorted with (P := fun _ => True).
    - intros a b _ _. apply point_ltb_asym.
    - intros a b c _ _ _. apply point_not_after_trans.
    - apply Forall_forall. intros; exact I. }
  induction H as [| x s Hs IH Hx]; constructor.
  - exact IH.
  - eapply Forall_impl; [| exact Hx]. intros b. apply point_not_after_le.
Qed.

(** ** The dot counter *)

Lemma consecutive_length (points : list point) :
  List.length (consecutive points) = (List.length points - 1)%nat.
Proof.
  induction points as [| p rest IH]; [reflexivity |].
  destruct rest as [| q rest']; [reflexivity |].
  change (consecutive (p :: q :: rest')) with ((p, q) :: consecutive (q :: rest')).
  simpl List.length in *. rewrite IH. clear IH. lia.
Qed.

(** The pairs visited by the loops are the neighbours by position. *)
Lemma consecutive_gaps (points : list point) :
  map distance_between_points (consecutive points) = gaps points.
Proof.
  unfold gaps.
  induction points as [| p rest IH]; [reflexivity |].
  destruct rest as [| q rest]; [reflexivity |].
  change (consecutive (p :: q :: rest)) with ((p, q) :: consecutive (q :: rest)).
  replace (List.length (p :: q :: rest) - 1)%nat
    with (S (List.length (q :: rest) - 1)) by (simpl; lia).
  rewrite <- cons_seq, <- seq_shift, map_cons, map_cons, map_map, IH.
  reflexivity.
Qed.

Lemma walk_leading_steps (avg : PyFloat.float) (pairs : list (point * point)) :
  forall score,
    walk avg pairs score
    = score + leading_steps avg (map distance_between_points pairs).
Proof.
  induction pairs as [| pq rest IH]; intros score; cbn [walk leading_steps map].
  - lia.
  - destruct (PyFloat.gtb (distance_between_points pq) avg).
    + lia.
    + rewrite IH. lia.
Qed.

Lemma leading_steps_bounds (avg : PyFloat.float) (gs : list PyFloat.float) :
  0 <= leading_steps avg gs <= Z.of_nat (List.length gs).
Proof.
  induction gs as [| g gs IH]; cbn [leading_steps].
  - simpl. lia.
  - change (List.length (g :: gs)) with (S (List.length gs)).
    destruct (PyFloat.gtb g avg); lia.
Qed.

Lemma leading_steps_all (avg : PyFloat.float) (gs : list PyFloat.float) :
  forallb (fun g => negb (PyFloat.gtb g avg)) gs = true ->
  leading_steps avg gs = Z.of_nat (List.length gs).
Proof.
  induction gs as [| g gs IH]; cbn [forallb leading_steps]; intros H.
  - reflexivity.
  - apply andb_true_iff in H as [Hg H].
    change (List.length (g :: gs)) with (S (List.length gs)).
    apply negb_true_iff in Hg. rewrite Hg, (IH H). lia.
Qed.

(** With at least two points there is a gap, hence an average. *)
Lemma average_defined (points : list point) :
  (2 <= List.length points)%nat ->
  average_distance_between_score_dots points
  = Ok (PyFloat.div (float_sum (gaps points))
          (PyFloat.of_int (Z.of_nat (List.length points) - 1))).
Proof.
  intros Hlen. unfold average_distance_between_score_dots.
  rewrite consecutive_gaps.
  assert (Hg : List.length (gaps points) = (List.length points - 1)%nat).
  { rewrite <- consecutive_gaps, length_map. apply consecutive_length. }
  destruct (gaps points) as [| g gs] eqn:E.
  - simpl in Hg. lia.
  - rewrite Hg. unfold float_sum.
    replace (Z.of_nat (List.length points - 1)) with (Z.of_nat (List.length points) - 1) by lia.
    reflexivity.
Qed.

Lemma find_score_defined (points : list point) :
  (2 <= List.length points)%nat ->
  let ordered := sorted point_ltb points in
  let avg := PyFloat.div (float_sum (gaps ordered))
               (PyFloat.of_int (Z.of_nat (List.length points) - 1)) in
  find_score points = Ok (leading_steps avg (gaps ordered)).
Proof.
  intros Hlen ordered avg. unfold find_score. fold ordered.
  rewrite average_defined by (unfold ordered; rewrite sorted_length; exact Hlen).
  unfold ordered at 2. rewrite sorted_length. fold ordered. fold avg.
  simpl bind. rewrite walk_leading_steps, consecutive_gaps. reflexivity.
Qed.

(** C4. The dot counter keeps exactly the components whose bounding-box
    area (width times height) lies inclusively between 15 and 120; it
    returns the score of their centres if and only if exactly 12 of them
    survive, and otherwise raises the error that reports the number found
    and the 12 expected. *)
Theorem find_score_from_image_filter_count (slices : list (pyslice * pyslice)) :
  let survivors := filter area_in_bounds slices in
  find_score_from_image slices
  = (if Nat.eqb (List.length survivors) 12
     then find_score (map bbox_center survivors)
     else Raise (invalid_dot_count (List.length survivors) 12))
  /\ is_ok (find_score_from_image slices) = Nat.eqb (List.length survivors) 12.
Proof.
  intros survivors.
  assert (E : find_score_from_image slices
              = if Nat.eqb (List.length survivors) 12
                then find_score (map bbox_center survivors)
                else Raise (invalid_dot_count (List.length survivors) 12)).
  { unfold find_score_from_image.
    rewrite collect_objects_filter. cbn [app]. fold survivors.
    rewrite length_map.
    destruct (Nat.eqb (List.length survivors) 12); reflexivity. }
  split; [exact E |].
  rewrite E. destruct (Nat.eqb (List.length survivors) 12) eqn:H12.
  - apply Nat.eqb_eq in H12.
    rewrite find_score_defined by (rewrite length_map; lia). reflexivity.
  - reflexivity.
Qed.

(** C3, as the code has it. For every sequence of 12 dot centres, the
    average distance equals the sum of the 11 consecutive gaps divided by
    11, the number of gaps. *)
Theorem average_distance_of_twelve (points : list point) :
  List.length points = 12%nat ->
  average_distance_between_score_dots points
  = Ok (PyFloat.div (float_sum (gaps points)) (PyFloat.of_int 11))
  /\ List.length (gaps points) = 11%nat.
Proof.
  intros Hlen. split.
  - rewrite average_defined by lia. rewrite Hlen. reflexivity.
  - unfold gaps. rewrite length_map, length_seq, Hlen. reflexivity.
Qed.

Lemma average_distance_of_twelve_witness :
  List.length (even_row 0 0 10) = 12%nat
  /\ (average_distance_between_score_dots (even_row 0 0 10)
      = Ok (PyFloat.div (float_sum (gaps (even_row 0 0 10))) (PyFloat.of_int 11))
      /\ List.length (gaps (even_row 0 0 10)) = 11%nat).
Proof.
  split; [reflexivity | apply (average_distance_of_twelve (even_row 0 0 10)); reflexivity].
Defined.

(** C3, as written, fails: for twelve centres in a row, 10 pixels apart,
    the average is 110 / 11 = 10 and not 110 / 10. *)
Lemma average_distance_not_over_ten :
  ~ (forall points : list point,
       List.length points = 12%nat ->
       StronglySorted point_le points ->
       average_distance_between_score_dots points
       = Ok (PyFloat.div (float_sum (gaps points)) (PyFloat.of_int 10))).
Proof.
  intros H.
  specialize (H (even_row 0 0 10) eq_refl).
  assert (Hs : StronglySorted point_le (even_row 0 0 10)).
  { rewrite <- (sorted_id point_ltb (even_row 0 0 10)).
    - apply sorted_points_sorted.
    - repeat constructor. }
  specialize (H Hs). vm_compute in H. discriminate H.
Qed.

(** ** The assembled result *)

Section PipelineFacts.
Variable photo : Type.
Variable pixel : Type.
Variable straighten : photo -> @image pixel.
Variable table_corners : @image pixel -> list point.
Variable orange_objects : @image pixel -> list (pyslice * pyslice).
Variable bright_objects : @image pixel -> list (pyslice * pyslice).

(** What a successful run went through: the two boxes and their crops,
    and the two raw counts. *)
Lemma get_score_inversion (img : photo) (data : score_data) :
  get_score photo pixel straighten table_corners orange_objects bright_objects img
  = Ok data ->
  exists box1 box2 score1_crop score2_crop left right,
    crop_boxes (straighten img) [box1; box2] = Ok [score1_crop; score2_crop]
    /\ find_score_from_image (orange_objects score1_crop) = Ok left
    /\ find_score_from_image (bright_objects score2_crop) = Ok right
    /\ data = {| leftScore := 10 - left; rightScore := right |}.
Proof.
  unfold get_score. intros H.
  apply bind_ok in H as [[tl br] [_ H]].
  apply bind_ok in H as [sc1 [_ H]].
  apply bind_ok in H as [sc2 [_ H]].
  apply bind_ok in H as [bl [_ H]].
  apply bind_ok in H as [tr [_ H]].
  apply bind_ok in H as [[box1 box2] [_ H]].
  apply bind_ok in H as [crops [Hc H]].
  destruct crops as [| c1 [| c2 [| c3 crops]]]; try discriminate H.
  apply bind_ok in H as [left [Hl H]].
  apply bind_ok in H as [right [Hr H]].
  injection H as <-.
  exists box1, box2, c1, c2, left, right. auto.
Qed.
End PipelineFacts.



(** C1 at the failing input. When both regions show twelve evenly spaced
    dots, no gap exceeds the average, the raw count is 11, and the result
    is left score -1 and right score 11, outside [0, 10]. *)
Theorem get_score_evenly_spaced
  (photo pixel : Type) (straighten : photo -> @image pixel)
  (table_corners : @image pixel -> list point) (img : photo) (data : score_data) :
  get_score photo pixel straighten table_corners
    (fun _ => even_blobs) (fun _ => even_blobs) img = Ok data ->
  find_score_from_image even_blobs = Ok 11
  /\ leftScore data = -1
  /\ rightScore data = 11.
Proof.
  intros H.
  apply get_score_inversion in H
    as (box1 & box2 & c1 & c2 & left & right & Hc & Hl & Hr & ->).
  assert (E : find_score_from_image even_blobs = Ok 11) by (vm_compute; reflexivity).
  rewrite E in Hl, Hr. injection Hl as <-. injection Hr as <-.
  split; [exact E |]. split; reflexivity.
Qed.

Lemma get_score_evenly_spaced_witness :
  let straighten := fun _ : unit => [[0; 0]; [0; 0]] in
  let table_corners := fun _ : @image Z => [(0, 0); (0, 40); (100, 40); (100, 0)] in
  let data := {| leftScore := -1; rightScore := 11 |} in
  get_score unit Z straighten table_corners
    (fun _ => even_blobs) (fun _ => even_blobs) tt = Ok data
  /\ (find_score_from_image even_blobs = Ok 11
      /\ leftScore data = -1
      /\ rightScore data = 11).
Proof.
  intros straighten table_corners data.
  split; [vm_compute; reflexivity |].
  apply (get_score_evenly_spaced unit Z straighten table_corners tt data).
  vm_compute. reflexivity.
Defined.

(** ** Cropping *)

Lemma py_slice_empty {A : Type} (l : list A) (a : Z) : py_slice l a a = [].
Proof. unfold py_slice. rewrite Z.sub_diag. reflexivity. Qed.

Lemma transpose_empty_rows {pixel : Type} (img : @image pixel) :
  Forall (fun row => row = []) img -> transpose img = [].
Proof.
  induction 1 as [| row img Hrow _ IH]; simpl.
  - reflexivity.
  - rewrite Hrow. reflexivity.
Qed.

Lemma crop_slice_no_height {pixel : Type} (img : @image pixel) (y x1 x2 : Z) :
  crop_slice img y y x1 x2 = [].
Proof. unfold crop_slice. rewrite py_slice_empty. reflexivity. Qed.

Lemma crop_slice_no_width {pixel : Type} (img : @image pixel) (y1 y2 x : Z) :
  Forall (fun row => row = []) (crop_slice img y1 y2 x x).
Proof.
  unfold crop_slice. apply Forall_forall. intros row Hrow.
  apply in_map_iff in Hrow as [r [<- _]]. apply py_slice_empty.
Qed.

Lemma find_crop_corners_four (a b c d : point) :
  exists tl br, find_crop_corners [a; b; c; d] = Ok (tl, br).
Proof.
  unfold find_crop_corners.
  pose proof (sorted_length point_ltb [a; b; c; d]) as Hlen.
  destruct (sorted point_ltb [a; b; c; d]) as [| s0 [| s1 [| s2 [| s3 [| s4 l]]]]];
    try discriminate Hlen.
  simpl. eexists. eexists. reflexivity.
Qed.

(** C2, as the code has it. [crop_boxes] has no check for a degenerate
    rectangle and raises no error for one: for every box of four points
    whose derived rectangle has zero width or zero height, it returns a
    crop, and that crop has no pixel. *)
Theorem crop_boxes_degenerate {pixel : Type} (img : @image pixel) (a b c d : point) :
  exists tl br,
    find_crop_corners [a; b; c; d] = Ok (tl, br)
    /\ (fst br - fst tl = 0 \/ snd br - snd tl = 0 ->
        exists cropped,
          crop_boxes img [[a; b; c; d]] = Ok [cropped] /\ pixel_count cropped = 0%nat).
Proof.
  destruct (find_crop_corners_four a b c d) as (tl & br & E).
  exists tl, br. split; [exact E |].
  intros Hdeg. unfold crop_boxes. cbn [mapM]. rewrite E. cbn [bind].
  eexists. split; [reflexivity |].
  destruct Hdeg as [Hw | Hh].
  - replace (fst br) with (fst tl) by lia.
    rewrite (transpose_empty_rows _ (crop_slice_no_width img _ _ _)). reflexivity.
  - replace (snd br) with (snd tl) by lia.
    rewrite crop_slice_no_height. reflexivity.
Qed.

Lemma crop_boxes_degenerate_witness :
  let img := [[1; 2; 3]; [4; 5; 6]; [7; 8; 9]] in
  exists tl br,
    find_crop_corners [(1, 0); (1, 2); (1, 0); (1, 2)] = Ok (tl, br)
    /\ (fst br - fst tl = 0 \/ snd br - snd tl = 0)
    /\ exists cropped,
        crop_boxes img [[(1, 0); (1, 2); (1, 0); (1, 2)]] = Ok [cropped]
        /\ pixel_count cropped = 0%nat.
Proof.
  intros img.
  destruct (crop_boxes_degenerate img (1, 0) (1, 2) (1, 0) (1, 2))
    as (tl & br & E & H).
  exists tl, br. split; [exact E |].
  vm_compute in E. injection E as <- <-.
  split; [left; reflexivity |].
  apply H. left; reflexivity.
Defined.

(** C2, as written, fails: the box with corners (1,0), (1,2), (1,0), (1,2)
    has a rectangle of zero width, and [crop_boxes] returns a crop for it
    instead of raising. *)
Lemma crop_boxes_raises_no_empty_crop :
  ~ (forall (img : @image Z) (b : box) (tl br : point),
       find_crop_corners b = Ok (tl, br) ->
       fst br - fst tl = 0 \/ snd br - snd tl = 0 ->
       exists e, crop_boxes img [b] = Raise e).
Proof.
  intros H.
  destruct (H [[1; 2; 3]; [4; 5; 6]; [7; 8; 9]] [(1, 0); (1, 2); (1, 0); (1, 2)]
              (1, 0) (1, 2) eq_refl (or_introl eq_refl)) as [e He].
  vm_compute in He. discriminate He.
Qed.

(** ** The order of floats *)

Module FloatOrder.

Ltac split_floats :=
  repeat match goal with
         | x : PyFloat.float |- _ => destruct x as [[|] | [|] | | [|] ? ?]
         | x : spec_float |- _ => destruct x as [[|] | [|] | | [|] ? ?]
         end.

Ltac compare_cases :=
  change (Pos.compare_cont Eq) with Pos.compare in *;
  repeat match goal with
         | H : context [Z.compare ?a ?b] |- _ =>
             destruct (Z.compare_spec a b); try subst
         | |- context [Z.compare ?a ?b] =>
             destruct (Z.compare_spec a b); try subst
         | H : context [Pos.compare ?a ?b] |- _ =>
             destruct (Pos.compare_spec a b); try subst
         | |- context [Pos.compare ?a ?b] =>
             destruct (Pos.compare_spec a b); try subst
         end;
  simpl in *; try reflexivity; try discriminate; try lia.

Lemma ltb_irrefl (x : PyFloat.float) : PyFloat.ltb x x = false.
Proof.
  unfold PyFloat.ltb, SFltb. split_floats; simpl; try reflexivity;
    rewrite Z.compare_refl; change (Pos.compare_cont Eq) with Pos.compare;
    rewrite Pos.compare_refl; reflexivity.
Qed.

Lemma ltb_asym (x y : PyFloat.float) :
  PyFloat.ltb x y = true -> PyFloat.ltb y x = false.
Proof.
  unfold PyFloat.ltb, SFltb. split_floats; simpl; intros H;
    try reflexivity; try discriminate H; compare_cases.
Qed.

(** Without a NaN in the middle, "not after" is transitive. *)
Lemma not_after_trans (x y z : PyFloat.float) :
  PyFloat.is_nan y = false ->
  PyFloat.ltb y x = false -> PyFloat.ltb z y = false -> PyFloat.ltb z x = false.
Proof.
  unfold PyFloat.ltb, SFltb. split_floats; simpl; intros Hy H1 H2;
    try reflexivity; try discriminate; compare_cases.
Qed.

(** On numbers, "not after" is "at most". *)
Lemma not_after_leb (x y : PyFloat.float) :
  PyFloat.is_nan x = false -> PyFloat.is_nan y = false ->
  PyFloat.ltb y x = false -> PyFloat.leb x y = true.
Proof.
  unfold PyFloat.ltb, PyFloat.leb, SFltb, SFleb.
  split_floats; simpl; intros Hx Hy H;
    try reflexivity; try discriminate; compare_cases.
Qed.

Lemma leb_not_ltb (x y : PyFloat.float) :
  PyFloat.leb x y = true -> PyFloat.ltb y x = false.
Proof.
  unfold PyFloat.ltb, PyFloat.leb, SFltb, SFleb.
  split_floats; simpl; intros H; try reflexivity; try discriminate; compare_cases.
Qed.

End FloatOrder.

(** ** Rounding to binary64 *)

Module Rounding.

Lemma iter_pos_invariant {A : Type} (Q : A -> Prop) (f : A -> A) :
  (forall x, Q x -> Q (f x)) ->
  forall p x, Q x -> Q (iter_pos f p x).
Proof.
  intros Hf. induction p as [p IH | p IH |]; intros x Hx; simpl; auto.
Qed.

Lemma shr_1_nonneg (mrs : shr_record) : 0 <= shr_m mrs -> 0 <= shr_m (shr_1 mrs).
Proof.
  destruct mrs as [m r s]. simpl.
  destruct m as [| [p | p |] | p]; simpl; lia.
Qed.

Lemma shr_nonneg (mrs : shr_record) (e n : Z) :
  0 <= shr_m mrs -> 0 <= shr_m (fst (shr mrs e n)).
Proof.
  intros H. destruct n as [| p | p]; simpl; auto.
  apply (iter_pos_invariant (fun r => 0 <= shr_m r)); auto using shr_1_nonneg.
Qed.

Lemma shr_record_of_loc_m (m : Z) (l : location) : shr_m (shr_record_of_loc m l) = m.
Proof. destruct l as [| []]; reflexivity. Qed.

Lemma shr_fexp_nonneg (m e : Z) (l : location) :
  0 <= m -> 0 <= shr_m (fst (shr_fexp PyFloat.prec PyFloat.emax m e l)).
Proof.
  intros H. unfold shr_fexp. apply shr_nonneg. now rewrite shr_record_of_loc_m.
Qed.

Lemma round_nearest_even_nonneg (m : Z) (l : location) :
  0 <= m -> 0 <= round_nearest_even m l.
Proof.
  intros H. destruct l as [| []]; simpl; try lia.
  destruct (Z.even m); lia.
Qed.

(** Rounding a magnitude never yields a NaN, and keeps the sign. *)
Lemma binary_round_aux_number (s : bool) (m e : Z) (l : location) :
  0 <= m ->
  match binary_round_aux PyFloat.prec PyFloat.emax s m e l with
  | S754_nan => False
  | S754_zero s' | S754_infinity s' | S754_finite s' _ _ => s' = s
  end.
Proof.
  intros Hm. unfold binary_round_aux.
  pose proof (shr_fexp_nonneg m e l Hm) as H1.
  destruct (shr_fexp PyFloat.prec PyFloat.emax m e l) as [mrs' e'].
  simpl in H1.
  pose proof (shr_fexp_nonneg
                (round_nearest_even (shr_m mrs') (loc_of_shr_record mrs')) e' loc_Exact
                (round_nearest_even_nonneg _ _ H1)) as H2.
  destruct (shr_fexp PyFloat.prec PyFloat.emax _ e' loc_Exact) as [mrs'' e''].
  simpl in H2.
  destruct (shr_m mrs'') as [| p | p].
  - reflexivity.
  - destruct (e'' <=? PyFloat.emax - PyFloat.prec); reflexivity.
  - lia.
Qed.

Lemma of_int_number (n : Z) :
  0 <= n ->
  match PyFloat.of_int n with
  | S754_nan => False
  | S754_zero s | S754_infinity s | S754_finite s _ _ => s = false
  end.
Proof.
  intros Hn. unfold PyFloat.of_int, binary_normalize.
  destruct n as [| p | p]; [reflexivity | | lia].
  unfold binary_round.
  destruct (shl_align p 0 _) as [mz ez].
  apply binary_round_aux_number. lia.
Qed.

Lemma sqrt_number (x : PyFloat.float) :
  match x with
  | S754_nan => False
  | S754_zero s | S754_infinity s | S754_finite s _ _ => s = false
  end ->
  PyFloat.is_nan (PyFloat.sqrt x) = false.
Proof.
  destruct x as [s | s | | s m e]; simpl; intros H; try subst s; try reflexivity.
  - contradiction.
  - unfold PyFloat.sqrt, SFsqrt.
    destruct (SFsqrt_core_binary PyFloat.prec PyFloat.emax (Z.pos m) e)
      as [[mz ez] lz] eqn:E.
    assert (Hmz : 0 <= mz).
    { unfold SFsqrt_core_binary in E.
      match type of E with
      | context [Z.sqrtrem ?a] =>
          pose proof (Z.sqrtrem_sqrt a) as Hq; destruct (Z.sqrtrem a) as [q r]
      end.
      injection E as <- _ _. simpl in Hq. subst q. apply Z.sqrt_nonneg. }
    pose proof (binary_round_aux_number false mz ez lz Hmz) as Hb.
    destruct (binary_round_aux _ _ false mz ez lz); simpl; try reflexivity.
    contradiction.
Qed.

End Rounding.

(** ** Integers in binary64

    Integers below [2 ^ 53] are binary64 values; on them the square root
    of a square and the sum are exact, and the quotient by 11 lies where
    the rational quotient does. *)

Module Exact.
Import PyFloat.

Lemma digits2_pos_bounds (p : positive) :
  2 ^ (Zpos (digits2_pos p) - 1) <= Zpos p < 2 ^ Zpos (digits2_pos p).
Proof.
  induction p as [p IH | p IH |]; cbn [digits2_pos].
  - rewrite Pos2Z.inj_succ.
    replace (Z.succ (Zpos (digits2_pos p)) - 1) with (Z.succ (Zpos (digits2_pos p) - 1)) by lia.
    rewrite !Z.pow_succ_r by lia. lia.
  - rewrite Pos2Z.inj_succ.
    replace (Z.succ (Zpos (digits2_pos p)) - 1) with (Z.succ (Zpos (digits2_pos p) - 1)) by lia.
    rewrite !Z.pow_succ_r by lia. lia.
  - simpl. lia.
Qed.

Lemma digits_bounds (n : Z) : 0 < n -> 1 <= digits n /\ 2 ^ (digits n - 1) <= n < 2 ^ digits n.
Proof.
  destruct n as [| p | p]; try lia. intros _. unfold digits. simpl Zdigits2.
  split; [lia | apply digits2_pos_bounds].
Qed.

Lemma digits_unique (n k : Z) : 2 ^ (k - 1) <= n < 2 ^ k -> 0 < n -> digits n = k.
Proof.
  intros Hk Hn. destruct (digits_bounds n Hn) as [H1 Hd].
  assert (Hk0 : 0 <= k).
  { destruct (Z.ltb_spec k 0) as [Hneg |]; [| lia].
    rewrite (Z.pow_neg_r 2 k Hneg) in Hk. lia. }
  destruct (Z.lt_trichotomy (digits n) k) as [Hlt | [Heq | Hgt]]; [| exact Heq |].
  - assert (2 ^ digits n <= 2 ^ (k - 1)) by (apply Z.pow_le_mono_r; lia). lia.
  - assert (2 ^ k <= 2 ^ (digits n - 1)) by (apply Z.pow_le_mono_r; lia). lia.
Qed.

Lemma digits_mul_pow (n j : Z) : 0 < n -> 0 <= j -> digits (n * 2 ^ j) = digits n + j.
Proof.
  intros Hn Hj. destruct (digits_bounds n Hn) as [H1 Hd].
  assert (Hp : 0 < 2 ^ j) by (apply Z.pow_pos_nonneg; lia).
  apply digits_unique; [| nia].
  replace (digits n + j - 1) with (digits n - 1 + j) by lia.
  rewrite !Z.pow_add_r by lia. nia.
Qed.

Lemma digits_le (n k : Z) : 0 < n -> n < 2 ^ k -> digits n <= k.
Proof.
  intros Hn Hk. destruct (digits_bounds n Hn) as [H1 Hd].
  destruct (Z.leb_spec (digits n) k) as [| Hgt]; [lia |].
  assert (0 <= k).
  { destruct (Z.ltb_spec k 0) as [Hneg |]; [| lia].
    rewrite (Z.pow_neg_r 2 k Hneg) in Hk. lia. }
  assert (2 ^ k <= 2 ^ (digits n - 1)) by (apply Z.pow_le_mono_r; lia). lia.
Qed.

Lemma pos_iter_xO (m d : positive) : Zpos (Pos.iter xO m d) = Zpos m * 2 ^ Zpos d.
Proof.
  induction d as [| d IH] using Pos.peano_ind.
  - simpl. lia.
  - rewrite Pos.iter_succ, Pos2Z.inj_succ, Z.pow_succ_r by lia.
    rewrite Pos2Z.inj_xO, IH. lia.
Qed.

Lemma shl_align_value (mx : positive) (ex ez : Z) :
  ez <= ex ->
  Zpos (fst (shl_align mx ex ez)) = Zpos mx * 2 ^ (ex - ez)
  /\ snd (shl_align mx ex ez) = ez.
Proof.
  intros H. unfold shl_align.
  destruct (ez - ex) as [| d | d] eqn:E; try lia; cbn [fst snd].
  - replace (ex - ez) with 0 by lia. rewrite Z.pow_0_r. lia.
  - rewrite pos_iter_xO. replace (ex - ez) with (Zpos d) by lia. lia.
Qed.

Lemma shr_exact (p : positive) :
  forall m, 0 <= m ->
    iter_pos shr_1 p {| shr_m := m * 2 ^ Zpos p; shr_r := false; shr_s := false |}
    = {| shr_m := m; shr_r := false; shr_s := false |}.
Proof.
  assert (H1 : forall m, 0 <= m ->
                 shr_1 {| shr_m := m * 2; shr_r := false; shr_s := false |}
                 = {| shr_m := m; shr_r := false; shr_s := false |}).
  { intros [| q | q] Hm; try lia; [reflexivity |].
    replace (Zpos q * 2) with (Zpos (xO q)) by lia. reflexivity. }
  induction p as [p IH | p IH |]; intros m Hm; cbn [iter_pos].
  - change (Zpos p~1) with (2 * Zpos p + 1).
    replace (m * 2 ^ (2 * Zpos p + 1)) with (m * 2 ^ Zpos p * 2 ^ Zpos p * 2)
      by (rewrite Z.pow_add_r by lia; replace (2 * Zpos p) with (Zpos p + Zpos p) by lia;
          rewrite Z.pow_add_r by lia; lia).
    assert (0 < 2 ^ Zpos p) by (apply Z.pow_pos_nonneg; lia).
    rewrite H1 by nia. rewrite IH by nia. apply IH, Hm.
  - change (Zpos p~0) with (2 * Zpos p).
    replace (m * 2 ^ (2 * Zpos p)) with (m * 2 ^ Zpos p * 2 ^ Zpos p)
      by (replace (2 * Zpos p) with (Zpos p + Zpos p) by lia;
          rewrite Z.pow_add_r by lia; lia).
    assert (0 < 2 ^ Zpos p) by (apply Z.pow_pos_nonneg; lia).
    rewrite IH by nia. apply IH, Hm.
  - replace (m * 2 ^ 1) with (m * 2) by lia. apply H1, Hm.
Qed.

Lemma shr_1_floor (mrs : shr_record) : 0 <= shr_m mrs -> shr_m (shr_1 mrs) = shr_m mrs / 2.
Proof.
  destruct mrs as [m r s]. simpl. intros Hm.
  destruct m as [| [q | q |] | q]; try lia; simpl shr_m.
  - reflexivity.
  - apply Z.div_unique with 1; lia.
  - apply Z.div_unique with 0; lia.
  - reflexivity.
Qed.

Lemma shr_floor (p : positive) :
  forall mrs, 0 <= shr_m mrs ->
    shr_m (iter_pos shr_1 p mrs) = shr_m mrs / 2 ^ Zpos p.
Proof.
  assert (Hnn : forall q x, 0 <= shr_m x -> 0 <= shr_m (iter_pos shr_1 q x)).
  { intros q. apply (Rounding.iter_pos_invariant (fun r => 0 <= shr_m r)).
    apply Rounding.shr_1_nonneg. }
  induction p as [p IH | p IH |]; intros mrs Hm; cbn [iter_pos].
  - rewrite IH, IH, shr_1_floor; auto using Rounding.shr_1_nonneg.
    rewrite !Z.div_div by (try apply Z.pow_pos_nonneg; lia).
    f_equal. change (Zpos p~1) with (2 * Zpos p + 1). rewrite Z.pow_add_r by lia.
    replace (2 * Zpos p) with (Zpos p + Zpos p) by lia.
    rewrite Z.pow_add_r by lia. lia.
  - rewrite IH, IH; auto.
    rewrite !Z.div_div by (try apply Z.pow_pos_nonneg; lia).
    f_equal. change (Zpos p~0) with (2 * Zpos p).
    replace (2 * Zpos p) with (Zpos p + Zpos p) by lia.
    rewrite Z.pow_add_r by lia. lia.
  - rewrite shr_1_floor by exact Hm. reflexivity.
Qed.

Lemma fexp_small (k : Z) : -1021 <= k -> fexp PyFloat.prec PyFloat.emax k = k - 53.
Proof. intros H. unfold fexp, emin, PyFloat.prec, PyFloat.emax. lia. Qed.

Lemma shr_fexp_exact (n j : Z) :
  0 < n < 2 ^ 53 -> 53 - digits n <= j ->
  shr_fexp PyFloat.prec PyFloat.emax (n * 2 ^ j) (- j) loc_Exact
  = ({| shr_m := n * 2 ^ (53 - digits n); shr_r := false; shr_s := false |},
     digits n - 53).
Proof.
  intros Hn Hj.
  destruct (digits_bounds n) as [Hd1 Hd]; [lia |].
  assert (Hd53 : digits n <= 53) by (apply digits_le; lia).
  unfold shr_fexp. fold (digits (n * 2 ^ j)).
  rewrite digits_mul_pow by lia.
  rewrite fexp_small by lia.
  cbn [shr_record_of_loc]. unfold shr.
  destruct (digits n + j + - j - 53 - - j) as [| p | p] eqn:E; try lia.
  - replace j with (53 - digits n) by lia. f_equal. lia.
  - replace (n * 2 ^ j) with (n * 2 ^ (53 - digits n) * 2 ^ Zpos p).
    + rewrite shr_exact.
      * f_equal. lia.
      * assert (0 < 2 ^ (53 - digits n)) by (apply Z.pow_pos_nonneg; lia). nia.
    + rewrite <- Z.mul_assoc, <- Z.pow_add_r by lia. do 2 f_equal. lia.
Qed.

(** A magnitude [n * 2^j] with enough trailing zeros rounds to [n]. *)
Lemma binary_round_aux_exact (n j : Z) :
  0 < n < 2 ^ 53 -> 53 - digits n <= j ->
  binary_round_aux PyFloat.prec PyFloat.emax false (n * 2 ^ j) (- j) loc_Exact
  = exact_int n.
Proof.
  intros Hn Hj.
  destruct (digits_bounds n) as [Hd1 Hd]; [lia |].
  assert (Hd53 : digits n <= 53) by (apply digits_le; lia).
  unfold binary_round_aux.
  rewrite shr_fexp_exact by assumption.
  cbn [shr_m loc_of_shr_record round_nearest_even].
  replace (digits n - 53) with (- (53 - digits n)) at 1 by lia.
  rewrite shr_fexp_exact by (try assumption; lia).
  cbn [shr_m]. unfold exact_int.
  assert (Hpos : 0 < n * 2 ^ (53 - digits n)).
  { assert (0 < 2 ^ (53 - digits n)) by (apply Z.pow_pos_nonneg; lia). nia. }
  destruct (n * 2 ^ (53 - digits n)) as [| m | m]; try lia.
  replace (digits n - 53 <=? PyFloat.emax - PyFloat.prec) with true
    by (symmetry; apply Z.leb_le; unfold PyFloat.emax, PyFloat.prec; lia).
  reflexivity.
Qed.

Lemma binary_normalize_exact (n s : Z) :
  0 < n < 2 ^ 53 -> 0 <= s ->
  binary_normalize PyFloat.prec PyFloat.emax (n * 2 ^ s) (- s) false = exact_int n.
Proof.
  intros Hn Hs.
  destruct (digits_bounds n) as [Hd1 Hd]; [lia |].
  assert (Hd53 : digits n <= 53) by (apply digits_le; lia).
  assert (Hpos : 0 < n * 2 ^ s).
  { assert (0 < 2 ^ s) by (apply Z.pow_pos_nonneg; lia). nia. }
  unfold binary_normalize.
  destruct (n * 2 ^ s) as [| P | P] eqn:EP; try lia.
  unfold binary_round.
  change (Zpos (digits2_pos P)) with (digits (Zpos P)).
  rewrite <- EP, digits_mul_pow by lia.
  rewrite fexp_small by lia.
  destruct (Z.leb_spec (digits n - 53) (- s)) as [Hle | Hgt].
  - destruct (shl_align_value P (- s) (digits n + s + - s - 53)) as [Hm He]; [lia |].
    destruct (shl_align P (- s) (digits n + s + - s - 53)) as [mz ez].
    cbn [fst snd] in Hm, He. subst ez. rewrite Hm, <- EP.
    replace (n * 2 ^ s * 2 ^ (- s - (digits n + s + - s - 53)))
      with (n * 2 ^ (53 - digits n))
      by (rewrite <- Z.mul_assoc, <- Z.pow_add_r by lia; do 2 f_equal; lia).
    replace (digits n + s + - s - 53) with (- (53 - digits n)) by lia.
    apply binary_round_aux_exact; [assumption | lia].
  - unfold shl_align.
    destruct (digits n + s + - s - 53 - - s) as [| d | d] eqn:E; try lia.
    rewrite <- EP. apply binary_round_aux_exact; [assumption | lia].
Qed.

Lemma of_int_exact (n : Z) : 0 < n < 2 ^ 53 -> PyFloat.of_int n = exact_int n.
Proof.
  intros Hn. unfold PyFloat.of_int.
  rewrite <- (binary_normalize_exact n 0) by lia.
  rewrite Z.pow_0_r, Z.mul_1_r. reflexivity.
Qed.

Lemma exact_int_mantissa (n : Z) :
  0 < n < 2 ^ 53 ->
  Zpos (Z.to_pos (n * 2 ^ (53 - digits n))) = n * 2 ^ (53 - digits n)
  /\ 2 ^ 52 <= n * 2 ^ (53 - digits n) < 2 ^ 53.
Proof.
  intros Hn.
  destruct (digits_bounds n) as [Hd1 Hd]; [lia |].
  assert (Hd53 : digits n <= 53) by (apply digits_le; lia).
  assert (Hp : 0 < 2 ^ (53 - digits n)) by (apply Z.pow_pos_nonneg; lia).
  split; [apply Z2Pos.id; nia |].
  assert (E52 : 2 ^ 52 = 2 ^ (digits n - 1) * 2 ^ (53 - digits n)).
  { rewrite <- Z.pow_add_r by lia. f_equal. lia. }
  assert (E53 : 2 ^ 53 = 2 ^ digits n * 2 ^ (53 - digits n)).
  { rewrite <- Z.pow_add_r by lia. f_equal. lia. }
  rewrite E52, E53. nia.
Qed.

Lemma add_exact (a b : Z) :
  0 < a -> 0 < b -> a + b < 2 ^ 53 ->
  PyFloat.add (PyFloat.of_int a) (PyFloat.of_int b) = PyFloat.of_int (a + b).
Proof.
  intros Ha Hb Hab.
  rewrite !of_int_exact by lia.
  destruct (digits_bounds a Ha) as [Ha1 Hda].
  destruct (digits_bounds b Hb) as [Hb1 Hdb].
  assert (Hda53 : digits a <= 53) by (apply digits_le; lia).
  assert (Hdb53 : digits b <= 53) by (apply digits_le; lia).
  destruct (exact_int_mantissa a) as [Hma _]; [lia |].
  destruct (exact_int_mantissa b) as [Hmb _]; [lia |].
  unfold exact_int at 1 2. unfold PyFloat.add, SFadd.
  set (ez := Z.min (digits a - 53) (digits b - 53)).
  destruct (shl_align_value (Z.to_pos (a * 2 ^ (53 - digits a))) (digits a - 53) ez)
    as [Hsa _]; [lia |].
  destruct (shl_align_value (Z.to_pos (b * 2 ^ (53 - digits b))) (digits b - 53) ez)
    as [Hsb _]; [lia |].
  cbn [cond_Zopp]. rewrite Hsa, Hsb, Hma, Hmb.
  replace (a * 2 ^ (53 - digits a) * 2 ^ (digits a - 53 - ez)
           + b * 2 ^ (53 - digits b) * 2 ^ (digits b - 53 - ez))
    with ((a + b) * 2 ^ (- ez)).
  - replace ez with (- - ez) at 2 by lia.
    apply binary_normalize_exact; lia.
  - rewrite <- !Z.mul_assoc, <- !Z.pow_add_r by lia.
    replace (53 - digits a + (digits a - 53 - ez)) with (- ez) by lia.
    replace (53 - digits b + (digits b - 53 - ez)) with (- ez) by lia.
    lia.
Qed.

Lemma sqrt_exact (d : Z) :
  0 < d -> d * d < 2 ^ 53 ->
  PyFloat.sqrt (PyFloat.of_int (d * d)) = PyFloat.of_int d.
Proof.
  intros Hd Hdd.
  assert (Hd53 : d < 2 ^ 53) by nia.
  rewrite (of_int_exact (d * d)), (of_int_exact d) by nia.
  destruct (digits_bounds d Hd) as [Hd1 Hdb].
  destruct (digits_bounds (d * d)) as [Hn1 Hnb]; [nia |].
  assert (Hdd53 : digits d <= 53) by (apply digits_le; lia).
  assert (Hn53 : digits (d * d) <= 53) by (apply digits_le; nia).
  assert (Hn2 : digits (d * d) <= 2 * digits d).
  { apply digits_le; [nia |].
    replace (2 * digits d) with (digits d + digits d) by lia.
    rewrite Z.pow_add_r by lia. nia. }
  destruct (exact_int_mantissa (d * d)) as [Hm Hmb]; [nia |].
  unfold exact_int at 1. unfold PyFloat.sqrt, SFsqrt, SFsqrt_core_binary.
  set (n := d * d) in *. set (e := digits n - 53).
  change (Zdigits2 (Zpos (Z.to_pos (n * 2 ^ (53 - digits n)))))
    with (digits (Zpos (Z.to_pos (n * 2 ^ (53 - digits n))))).
  rewrite Hm, digits_mul_pow by lia.
  set (e' := Z.min (fexp PyFloat.prec PyFloat.emax
                      (Z.div2 (digits n + (53 - digits n) + e + 1))) (Z.div2 e)).
  assert (He'1 : e' <= digits d - 53).
  { unfold e'. rewrite fexp_small; rewrite Z.div2_div; unfold e.
    - assert ((digits n + (53 - digits n) + (digits n - 53) + 1) / 2 < digits d + 1).
      { apply Z.div_lt_upper_bound; lia. }
      lia.
    - assert (0 <= (digits n + (53 - digits n) + (digits n - 53) + 1) / 2).
      { apply Z.div_pos; lia. }
      lia. }
  assert (He'2 : 2 * e' <= e).
  { assert (e' <= Z.div2 e) by (unfold e'; lia).
    rewrite Z.div2_div in H. pose proof (Z.mul_div_le e 2). lia. }
  assert (Hm' : match e - 2 * e' with
                | 0 => n * 2 ^ (53 - digits n)
                | Zpos _ => Z.shiftl (n * 2 ^ (53 - digits n)) (e - 2 * e')
                | Zneg _ => 0
                end = (d * 2 ^ (- e')) * (d * 2 ^ (- e'))).
  { assert (Hsq : n * 2 ^ (53 - digits n) * 2 ^ (e - 2 * e')
                  = (d * 2 ^ (- e')) * (d * 2 ^ (- e'))).
    { rewrite <- Z.mul_assoc, <- Z.pow_add_r by lia.
      replace (53 - digits n + (e - 2 * e')) with (- e' + - e') by (unfold e; lia).
      rewrite Z.pow_add_r by lia. unfold n. ring. }
    destruct (e - 2 * e') as [| p | p] eqn:Es; try lia.
    rewrite Z.shiftl_mul_pow2 by lia. exact Hsq. }
  rewrite Hm'.
  set (Q := d * 2 ^ (- e')).
  assert (HQ : 0 < Q).
  { assert (0 < 2 ^ (- e')) by (apply Z.pow_pos_nonneg; lia). unfold Q. nia. }
  pose proof (Z.sqrtrem_spec (Q * Q)) as Hspec.
  pose proof (Z.sqrtrem_sqrt (Q * Q)) as Hsqrt.
  destruct (Z.sqrtrem (Q * Q)) as [q r].
  cbn [fst] in Hsqrt. rewrite Z.sqrt_square in Hsqrt by lia. subst q.
  destruct Hspec as [Hr _]; [nia |].
  assert (r = 0) by lia. subst r. cbn [Z.eqb].
  unfold Q. replace e' with (- - e') at 2 by lia.
  apply binary_round_aux_exact; lia.
Qed.

Lemma round_nearest_even_bracket (m : Z) (l : location) :
  m <= round_nearest_even m l <= m + 1.
Proof.
  destruct l as [| []]; simpl; try lia. destruct (Z.even m); lia.
Qed.

Lemma shr_fexp_floor (m e : Z) (l : location) :
  2 ^ 52 <= m -> -1000 <= e ->
  shr_m (fst (shr_fexp PyFloat.prec PyFloat.emax m e l)) = m / 2 ^ (digits m - 53)
  /\ snd (shr_fexp PyFloat.prec PyFloat.emax m e l) = e + (digits m - 53)
  /\ 53 <= digits m.
Proof.
  intros Hm He.
  destruct (digits_bounds m) as [Hd1 Hd]; [lia |].
  assert (H53 : 53 <= digits m).
  { destruct (Z.leb_spec 53 (digits m)) as [| Hlt]; [assumption |].
    assert (2 ^ digits m <= 2 ^ 52) by (apply Z.pow_le_mono_r; lia). lia. }
  unfold shr_fexp. fold (digits m). rewrite fexp_small by lia.
  unfold shr.
  destruct (digits m + e - 53 - e) as [| p | p] eqn:E; try lia; cbn [fst snd].
  - rewrite Rounding.shr_record_of_loc_m.
    replace (digits m - 53) with 0 by lia. rewrite Z.pow_0_r, Z.div_1_r. lia.
  - rewrite shr_floor by (rewrite Rounding.shr_record_of_loc_m; lia).
    rewrite Rounding.shr_record_of_loc_m.
    replace (digits m - 53) with (Zpos p) by lia. lia.
Qed.

(** Rounding a magnitude of at least 53 digits: the result is a normal
    number between the magnitude cut to 53 digits and its successor.
    Values are compared after scaling by [2 ^ (- K)]. *)
Lemma binary_round_aux_bracket (m e : Z) (l : location) (K : Z) :
  2 ^ 52 <= m -> -1000 <= e -> K <= e -> e + (digits m - 53) <= 900 ->
  exists m3 e3,
    binary_round_aux PyFloat.prec PyFloat.emax false m e l = S754_finite false m3 e3
    /\ 2 ^ 52 <= Zpos m3 < 2 ^ 53
    /\ K <= e3
    /\ let n := digits m - 53 in
       (m / 2 ^ n) * 2 ^ (e + n - K) <= Zpos m3 * 2 ^ (e3 - K)
       <= (m / 2 ^ n + 1) * 2 ^ (e + n - K).
Proof.
  intros Hm He HK Hov.
  destruct (shr_fexp_floor m e l Hm He) as (H1m & H1e & H53).
  destruct (digits_bounds m) as [_ Hd]; [lia |].
  set (n := digits m - 53) in *.
  assert (Hp : 0 < 2 ^ n) by (apply Z.pow_pos_nonneg; lia).
  assert (Hm1 : 2 ^ 52 <= m / 2 ^ n < 2 ^ 53).
  { assert (E52 : 2 ^ (digits m - 1) = 2 ^ n * 2 ^ 52).
    { rewrite <- Z.pow_add_r by lia. f_equal. lia. }
    assert (E53 : 2 ^ digits m = 2 ^ n * 2 ^ 53).
    { rewrite <- Z.pow_add_r by lia. f_equal. lia. }
    split.
    - apply Z.div_le_lower_bound; lia.
    - apply Z.div_lt_upper_bound; lia. }
  unfold binary_round_aux.
  destruct (shr_fexp PyFloat.prec PyFloat.emax m e l) as [mrs1 e1].
  cbn [fst snd] in H1m, H1e. subst e1.
  pose proof (round_nearest_even_bracket (shr_m mrs1) (loc_of_shr_record mrs1)) as Hr.
  set (m2 := round_nearest_even (shr_m mrs1) (loc_of_shr_record mrs1)) in *.
  rewrite H1m in Hr.
  set (X := 2 ^ (e + n - K)).
  assert (HX : 0 < X) by (apply Z.pow_pos_nonneg; lia).
  destruct (Z.ltb_spec m2 (2 ^ 53)) as [Hlt | Hge].
  - (* no carry *)
    assert (Hd2 : digits m2 = 53) by (apply digits_unique; simpl; lia).
    destruct (shr_fexp_floor m2 (e + n) loc_Exact) as (H2m & H2e & _); [lia | lia |].
    destruct (shr_fexp PyFloat.prec PyFloat.emax m2 (e + n) loc_Exact) as [mrs2 e2].
    cbn [fst snd] in H2m, H2e. subst e2.
    rewrite Hd2, Z.sub_diag, Z.pow_0_r, Z.div_1_r in H2m. rewrite H2m.
    rewrite Hd2, Z.sub_diag, Z.add_0_r.
    destruct m2 as [| p2 | p2]; try lia.
    replace (e + n <=? PyFloat.emax - PyFloat.prec) with true
      by (symmetry; apply Z.leb_le; unfold PyFloat.emax, PyFloat.prec; lia).
    exists p2, (e + n). split; [reflexivity |]. split; [lia |]. split; [lia |].
    fold X. nia.
  - (* the mantissa carries into a 54th digit *)
    assert (E2 : m2 = 2 ^ 53) by lia.
    assert (Hd2 : digits m2 = 54) by (apply digits_unique; rewrite E2; simpl; lia).
    destruct (shr_fexp_floor m2 (e + n) loc_Exact) as (H2m & H2e & _); [lia | lia |].
    destruct (shr_fexp PyFloat.prec PyFloat.emax m2 (e + n) loc_Exact) as [mrs2 e2].
    cbn [fst snd] in H2m, H2e. subst e2.
    rewrite Hd2, E2 in H2m. change (2 ^ 53 / 2 ^ (54 - 53)) with (2 ^ 52) in H2m.
    rewrite H2m, Hd2.
    change (2 ^ 52) with (Zpos (Z.to_pos (2 ^ 52))).
    replace (e + n + (54 - 53) <=? PyFloat.emax - PyFloat.prec) with true
      by (symmetry; apply Z.leb_le; unfold PyFloat.emax, PyFloat.prec; lia).
    exists (Z.to_pos (2 ^ 52)), (e + n + (54 - 53)).
    split; [reflexivity |]. split; [simpl; lia |]. split; [lia |].
    replace (e + n + (54 - 53) - K) with (e + n - K + 1) by lia.
    rewrite Z.pow_add_r by lia. fold X.
    change (Zpos (Z.to_pos (2 ^ 52)) * (X * 2 ^ 1)) with (2 ^ 52 * (X * 2)).
    replace (2 ^ 52 * (X * 2)) with (2 ^ 53 * X) by (change (2 ^ 53) with (2 ^ 52 * 2); ring).
    rewrite <- E2. nia.
Qed.

(** Normal numbers are ordered as their values are. *)
Lemma ltb_normal (m m' : positive) (e e' K : Z) :
  2 ^ 52 <= Zpos m < 2 ^ 53 -> 2 ^ 52 <= Zpos m' < 2 ^ 53 -> K <= e -> K <= e' ->
  PyFloat.ltb (S754_finite false m e) (S754_finite false m' e')
  = (Zpos m * 2 ^ (e - K) <? Zpos m' * 2 ^ (e' - K)).
Proof.
  intros Hm Hm' He He'.
  unfold PyFloat.ltb, SFltb, SFcompare.
  change (Pos.compare_cont Eq m m') with (Pos.compare m m').
  destruct (Z.compare_spec e e') as [-> | Hlt | Hgt].
  - assert (0 < 2 ^ (e' - K)) by (apply Z.pow_pos_nonneg; lia).
    destruct (Pos.compare_spec m m') as [Heq | H' | H'];
      destruct (Z.ltb_spec (Zpos m * 2 ^ (e' - K)) (Zpos m' * 2 ^ (e' - K)));
      try reflexivity; try (subst m'; lia); nia.
  - replace (e' - K) with (e - K + (e' - e)) by lia.
    rewrite Z.pow_add_r by lia.
    assert (HA : 0 < 2 ^ (e - K)) by (apply Z.pow_pos_nonneg; lia).
    assert (HB : 2 ^ 1 <= 2 ^ (e' - e)) by (apply Z.pow_le_mono_r; lia).
    set (A := 2 ^ (e - K)) in *. set (B := 2 ^ (e' - e)) in *.
    change (2 ^ 53) with (2 ^ 52 * 2) in *. change (2 ^ 1) with 2 in *.
    assert (Hs1 : 2 ^ 52 * 2 <= Zpos m' * B) by nia.
    assert (Hs2 : Zpos m' * (A * B) = Zpos m' * B * A) by ring.
    destruct (Z.ltb_spec (Zpos m * A) (Zpos m' * (A * B))); [reflexivity | nia].
  - replace (e - K) with (e' - K + (e - e')) by lia.
    rewrite Z.pow_add_r by lia.
    assert (HA : 0 < 2 ^ (e' - K)) by (apply Z.pow_pos_nonneg; lia).
    assert (HB : 2 ^ 1 <= 2 ^ (e - e')) by (apply Z.pow_le_mono_r; lia).
    set (A := 2 ^ (e' - K)) in *. set (B := 2 ^ (e - e')) in *.
    change (2 ^ 53) with (2 ^ 52 * 2) in *. change (2 ^ 1) with 2 in *.
    assert (Hs1 : 2 ^ 52 * 2 <= Zpos m * B) by nia.
    assert (Hs2 : Zpos m * (A * B) = Zpos m * B * A) by ring.
    destruct (Z.ltb_spec (Zpos m * (A * B)) (Zpos m' * A)); [nia | reflexivity].
Qed.

Lemma div_core_eleven (m : positive) (e : Z) :
  2 ^ 52 <= Zpos m < 2 ^ 53 -> -900 <= e ->
  exists q l,
    SFdiv_core_binary PyFloat.prec PyFloat.emax (Zpos m) e 6192449487634432 (-49)
    = (q, e - 4, l)
    /\ 11 * q <= 16 * Zpos m < 11 * (q + 1).
Proof.
  intros Hm He.
  unfold SFdiv_core_binary.
  change (Zdigits2 (Zpos m)) with (digits (Zpos m)).
  rewrite (digits_unique (Zpos m) 53) by (simpl; lia).
  change (Zdigits2 6192449487634432) with 53.
  rewrite fexp_small by lia.
  replace (Z.min (53 + e - (53 + -49) - 53) (e - -49)) with (e - 4) by lia.
  replace (e - -49 - (e - 4)) with 53 by lia.
  cbv iota. rewrite Z.shiftl_mul_pow2 by lia.
  pose proof (Z_div_mod (Zpos m * 2 ^ 53) 6192449487634432 eq_refl) as Hdiv.
  destruct (Z.div_eucl (Zpos m * 2 ^ 53) 6192449487634432) as [q r].
  exists q, (new_location 6192449487634432 r). split; [reflexivity |].
  change (2 ^ 53) with 9007199254740992 in Hdiv. lia.
Qed.

Lemma exact_int_scaled (n : Z) :
  0 < n < 2 ^ 53 ->
  Zpos (Z.to_pos (n * 2 ^ (53 - digits n))) * 2 ^ (digits n - 53 - -60) = n * 2 ^ 60.
Proof.
  intros Hn.
  destruct (exact_int_mantissa n Hn) as [Hm _]. rewrite Hm.
  destruct (digits_bounds n) as [Hd1 _]; [lia |].
  assert (digits n <= 53) by (apply digits_le; lia).
  rewrite <- Z.mul_assoc, <- Z.pow_add_r by lia. do 2 f_equal. lia.
Qed.

Lemma div_eleven_between (S d D : Z) :
  0 < d -> 11 * d <= S -> 2 * S + 11 <= 22 * D -> D < 2 ^ 49 ->
  let avg := PyFloat.div (PyFloat.of_int S) (PyFloat.of_int 11) in
  PyFloat.ltb avg (PyFloat.of_int d) = false
  /\ PyFloat.ltb avg (PyFloat.of_int D) = true.
Proof.
  intros Hd HdS HSD HD avg.
  assert (E49 : 2 ^ 49 = 562949953421312) by reflexivity.
  assert (E53 : 2 ^ 53 = 9007199254740992) by reflexivity.
  assert (E52 : 2 ^ 52 = 4503599627370496) by reflexivity.
  assert (E54 : 2 ^ 54 = 18014398509481984) by reflexivity.
  assert (HS : 0 < S < 2 ^ 53) by lia.
  destruct (digits_bounds S) as [HS1 HSb]; [lia |].
  assert (HS53 : digits S <= 53) by (apply digits_le; lia).
  destruct (exact_int_mantissa S HS) as [HmS HmSb].
  destruct (exact_int_mantissa d) as [Hmd Hmdb]; [lia |].
  destruct (exact_int_mantissa D) as [HmD HmDb]; [lia |].
  destruct (digits_bounds d) as [Hd1 Hdb]; [lia |].
  assert (Hd53 : digits d <= 53) by (apply digits_le; lia).
  destruct (digits_bounds D) as [HD1 HDb]; [lia |].
  assert (HD53 : digits D <= 53) by (apply digits_le; lia).
  unfold avg.
  rewrite (of_int_exact S), (of_int_exact d), (of_int_exact D) by lia.
  change (PyFloat.of_int 11) with (S754_finite false 6192449487634432 (-49)).
  unfold exact_int at 1 3. unfold PyFloat.div, SFdiv.
  destruct (div_core_eleven (Z.to_pos (S * 2 ^ (53 - digits S))) (digits S - 53))
    as (q & l & Ecore & Hq); [lia | lia |].
  rewrite Ecore. cbn [xorb].
  rewrite HmS in Hq.
  assert (Hq52 : 2 ^ 52 <= q < 2 ^ 54) by lia.
  destruct (binary_round_aux_bracket q (digits S - 53 - 4) l (-60))
    as (m3 & e3 & Eround & Hm3 & He3 & Hb); try lia.
  { assert (digits q <= 54) by (apply digits_le; lia). lia. }
  rewrite Eround. unfold exact_int.
  rewrite !(ltb_normal _ _ _ _ (-60)) by lia.
  rewrite (exact_int_scaled d), (exact_int_scaled D) by lia.
  cbv zeta in Hb.
  (* the scale of the quotient *)
  set (P2 := 2 ^ (56 - digits S)).
  set (X := 2 ^ (digits S + 3)).
  assert (HP2 : 8 <= P2).
  { change 8 with (2 ^ 3). apply Z.pow_le_mono_r; lia. }
  assert (HX : 0 < X) by (apply Z.pow_pos_nonneg; lia).
  assert (HPX : 2 * P2 * X = 2 ^ 60).
  { unfold P2, X. change 2 with (2 ^ 1) at 1.
    rewrite <- !Z.pow_add_r by lia. f_equal. lia. }
  assert (HSP : 16 * (S * 2 ^ (53 - digits S)) = S * (2 * P2)).
  { unfold P2. change 16 with (2 ^ 4). change 2 with (2 ^ 1) at 4.
    rewrite <- (Z.pow_add_r 2 1) by lia.
    replace (1 + (56 - digits S)) with (4 + (53 - digits S)) by lia.
    rewrite Z.pow_add_r by lia. ring. }
  rewrite HSP in Hq.
  assert (Hlow : 2 * (d * P2) <= q).
  { assert (11 * d * P2 <= S * P2) by (apply Z.mul_le_mono_nonneg_r; lia). lia. }
  assert (Hup : q + P2 <= 2 * (D * P2)).
  { assert ((2 * S + 11) * P2 <= 22 * D * P2) by (apply Z.mul_le_mono_nonneg_r; lia).
    lia. }
  assert (Hn : digits q - 53 = 0 \/ digits q - 53 = 1).
  { assert (digits q <= 54) by (apply digits_le; lia).
    assert (53 <= digits q).
    { destruct (digits_bounds q) as [_ Hqb]; [lia |].
      destruct (Z.leb_spec 53 (digits q)) as [| Hlt]; [assumption |].
      assert (2 ^ digits q <= 2 ^ 52) by (apply Z.pow_le_mono_r; lia). lia. }
    lia. }
  rewrite <- HPX.
  set (V := Zpos m3 * 2 ^ (e3 - -60)) in *.
  set (dP := d * P2) in *. set (DP := D * P2) in *.
  replace (d * (2 * P2 * X)) with (2 * dP * X) by (unfold dP; ring).
  replace (D * (2 * P2 * X)) with (2 * DP * X) by (unfold DP; ring).
  destruct Hn as [Hn | Hn]; rewrite Hn in Hb.
  - replace (digits S - 53 - 4 + 0 - -60) with (digits S + 3) in Hb by lia.
    fold X in Hb. rewrite Z.pow_0_r, Z.div_1_r in Hb.
    assert (H1 : 2 * dP * X <= q * X) by (apply Z.mul_le_mono_nonneg_r; lia).
    assert (H2 : (q + 1) * X < 2 * DP * X) by (apply Z.mul_lt_mono_pos_r; lia).
    split; [apply Z.ltb_ge | apply Z.ltb_lt]; lia.
  - replace (digits S - 53 - 4 + 1 - -60) with (digits S + 3 + 1) in Hb by lia.
    rewrite Z.pow_add_r in Hb by lia. fold X in Hb.
    change (2 ^ 1) with 2 in Hb.
    pose proof (Z.div_mod q 2 ltac:(lia)) as Hq2.
    pose proof (Z.mod_pos_bound q 2 ltac:(lia)) as Hr2.
    set (h := q / 2) in *.
    assert (H1 : dP * (X * 2) <= h * (X * 2)) by (apply Z.mul_le_mono_nonneg_r; lia).
    assert (H2 : (h + 1) * (X * 2) < DP * (X * 2)) by (apply Z.mul_lt_mono_pos_r; lia).
    replace (2 * dP * X) with (dP * (X * 2)) by ring.
    replace (2 * DP * X) with (DP * (X * 2)) by ring.
    split; [apply Z.ltb_ge | apply Z.ltb_lt]; lia.
Qed.

End Exact.

(** A distance is a number, never a NaN. *)
Lemma distance_not_nan (p : point * point) :
  PyFloat.is_nan (distance_between_points p) = false.
Proof.
  unfold distance_between_points.
  apply Rounding.sqrt_number, Rounding.of_int_number. nia.
Qed.

(** The distance does not depend on which coordinate comes first. *)
Lemma distance_flip (a b : point) :
  distance_between_points (flip a, flip b) = distance_between_points (a, b).
Proof.
  unfold distance_between_points, flip. simpl. f_equal. f_equal. lia.
Qed.

(** ** The lower long side *)

Lemma flip_flip (p : point) : flip (flip p) = p.
Proof. destruct p; reflexivity. Qed.

Lemma map_flip_flip (l : list point) : map flip (map flip l) = l.
Proof.
  rewrite map_map. rewrite <- (map_id l) at 2.
  apply map_ext. exact flip_flip.
Qed.

(** The lower long side, with the distances as the code compares them. *)
Lemma find_lower_long_side_order (c0 c1 c2 c3 : point) :
  let corners := [c0; c1; c2; c3] in
  exists s0 s1 s2 s3 point_a point_b,
    Permutation [s0; s1; s2; s3] corners
    /\ StronglySorted yx_le [s0; s1; s2; s3]
    /\ find_lower_long_side corners = Ok (point_a, point_b)
    /\ point_a = s3
    /\ (forall c, In c corners -> snd c <= snd point_a)
    /\ point_b = (if PyFloat.gtb (distance_between_points (s3, s1))
                                 (distance_between_points (s3, s2))
                  then s1 else s2)
    /\ PyFloat.leb (distance_between_points (point_a, s1))
                   (distance_between_points (point_a, point_b)) = true
    /\ PyFloat.leb (distance_between_points (point_a, s2))
                   (distance_between_points (point_a, point_b)) = true
    /\ (NoDup corners -> point_a <> s0 /\ point_b <> s0).
Proof.
  intros corners.
  pose proof (sorted_length point_ltb (map flip corners)) as Hlen.
  pose proof (sorted_perm point_ltb (map flip corners)) as Hperm.
  pose proof (sorted_points_sorted (map flip corners)) as Hsorted.
  unfold find_lower_long_side.
  destruct (sorted point_ltb (map flip corners))
    as [| t0 [| t1 [| t2 [| t3 [| t4 l]]]]]; try discriminate Hlen.
  clear Hlen.
  assert (Hp : Permutation [flip t0; flip t1; flip t2; flip t3] corners).
  { apply (Permutation_map flip) in Hperm.
    rewrite map_flip_flip in Hperm. exact Hperm. }
  assert (Hs : StronglySorted yx_le [flip t0; flip t1; flip t2; flip t3]).
  { repeat match goal with
           | H : StronglySorted _ (_ :: _) |- _ =>
               apply StronglySorted_inv in H; destruct H
           | H : Forall _ (_ :: _) |- _ => apply Forall_cons_iff in H; destruct H
           end.
    unfold yx_le.
    repeat first [apply SSorted_nil | apply Forall_nil
                 | apply SSorted_cons | apply Forall_cons];
      rewrite !flip_flip; assumption. }
  exists (flip t0), (flip t1), (flip t2), (flip t3), (flip t3).
  exists (if PyFloat.gtb (distance_between_points (flip t3, flip t1))
                         (distance_between_points (flip t3, flip t2))
          then flip t1 else flip t2).
  split; [exact Hp |]. split; [exact Hs |].
  split.
  { cbn [py_index List.length nth_error Z.of_nat bind]. simpl.
    rewrite !distance_flip.
    destruct (PyFloat.gtb _ _); reflexivity. }
  split; [reflexivity |].
  split.
  { intros c Hc. apply (Permutation_in _ (Permutation_sym Hp)) in Hc.
    repeat match goal with
           | H : StronglySorted _ (_ :: _) |- _ =>
               apply StronglySorted_inv in H; destruct H
           | H : Forall _ (_ :: _) |- _ => apply Forall_cons_iff in H; destruct H
           end.
    unfold yx_le, point_le, flip in *. simpl in *.
    destruct Hc as [<- | [<- | [<- | [<- | []]]]]; simpl; lia. }
  split; [reflexivity |].
  set (da := distance_between_points (flip t3, flip t1)).
  set (db := distance_between_points (flip t3, flip t2)).
  assert (Hfar : PyFloat.leb da (if PyFloat.gtb da db then da else db) = true
                 /\ PyFloat.leb db (if PyFloat.gtb da db then da else db) = true).
  { unfold PyFloat.gtb. destruct (SFltb db da) eqn:E.
    - split; apply FloatOrder.not_after_leb;
        try apply distance_not_nan.
      + apply FloatOrder.ltb_irrefl.
      + apply FloatOrder.ltb_asym, E.
    - split; apply FloatOrder.not_after_leb;
        try apply distance_not_nan.
      + exact E.
      + apply FloatOrder.ltb_irrefl. }
  split; [| split].
  - destruct (PyFloat.gtb da db); apply Hfar.
  - destruct (PyFloat.gtb da db); apply Hfar.
  - intros Hnd. apply (Permutation_NoDup (Permutation_sym Hp)) in Hnd.
    inversion Hnd as [| ? ? Hnot _]; subst. simpl in Hnot.
    split.
    + intros E. apply Hnot. auto.
    + destruct (PyFloat.gtb da db); intros E; apply Hnot; auto.
Qed.

(** ** The table ends *)

Lemma strongly_sorted_app {A : Type} (R : A -> A -> Prop) (l1 l2 : list A) :
  StronglySorted R (l1 ++ l2) ->
  forall a b, In a l1 -> In b l2 -> R a b.
Proof.
  induction l1 as [| x l1 IH]; simpl; intros Hs a b Ha Hb.
  - contradiction.
  - apply StronglySorted_inv in Hs as [Hs Hx].
    destruct Ha as [<- | Ha].
    + rewrite Forall_forall in Hx. apply Hx, in_or_app. now right.
    + apply IH; assumption.
Qed.

Lemma in_firstn {A : Type} (n : nat) (l : list A) (x : A) :
  In x (firstn n l) -> In x l.
Proof.
  intros H. rewrite <- (firstn_skipn n l). apply in_or_app. now left.
Qed.

Lemma in_skipn {A : Type} (n : nat) (l : list A) (x : A) :
  In x (skipn n l) -> In x l.
Proof.
  intros H. rewrite <- (firstn_skipn n l). apply in_or_app. now right.
Qed.

(** [nsmallest] splits the list into the [n] chosen elements and the
    others, none of which has a smaller key than a chosen one. *)
Lemma nsmallest_spec {A : Type} (n : nat) (l : list A) (key : A -> PyFloat.float) :
  (forall a, PyFloat.is_nan (key a) = false) ->
  exists others,
    Permutation (nsmallest n l key ++ others) l
    /\ List.length (nsmallest n l key) = Nat.min n (List.length l)
    /\ forall a o, In a (nsmallest n l key) -> In o others ->
                   PyFloat.leb (key a) (key o) = true.
Proof.
  intros Hkey. unfold nsmallest.
  set (decorated := map (fun a => (key a, a)) l).
  set (s := sorted key_ltb decorated).
  assert (Hdec : Forall (fun d => fst d = key (snd d)) s).
  { apply (Permutation_Forall (Permutation_sym (sorted_perm key_ltb decorated))).
    apply Forall_forall. intros d Hd. apply in_map_iff in Hd as [a [<- _]].
    reflexivity. }
  assert (Hs : StronglySorted (not_after key_ltb) s).
  { apply sorted_sorted with (P := fun d => PyFloat.is_nan (fst d) = false).
    - intros a b _ _. apply FloatOrder.ltb_asym.
    - intros a b c _ Hb _ H1 H2. unfold not_after, key_ltb in *.
      apply (FloatOrder.not_after_trans _ (fst b)); assumption.
    - apply Forall_forall. intros d Hd. apply in_map_iff in Hd as [a [<- _]].
      apply Hkey. }
  exists (map snd (skipn n s)). split; [| split].
  - rewrite <- map_app, firstn_skipn.
    apply perm_trans with (map snd decorated).
    + apply Permutation_map, sorted_perm.
    + unfold decorated. rewrite map_map, map_id. apply Permutation_refl.
  - rewrite length_map, length_firstn. unfold s.
    rewrite sorted_length. unfold decorated. rewrite length_map. reflexivity.
  - intros a o Ha Ho.
    apply in_map_iff in Ha as [da [<- Ha]].
    apply in_map_iff in Ho as [do [<- Ho]].
    rewrite <- (firstn_skipn n s) in Hs.
    pose proof (strongly_sorted_app _ _ _ Hs da do Ha Ho) as Hle.
    rewrite Forall_forall in Hdec.
    rewrite <- (Hdec da), <- (Hdec do).
    + apply FloatOrder.not_after_leb; auto.
      * rewrite (Hdec da); [apply Hkey |]. eapply in_firstn; eauto.
      * rewrite (Hdec do); [apply Hkey |]. eapply in_skipn; eauto.
    + eapply in_skipn; eauto.
    + eapply in_firstn; eauto.
Qed.

Lemma pair_ltb_asym (a b : point * point) : pair_ltb a b = true -> pair_ltb b a = false.
Proof.
  destruct a as [[a1 a2] [a3 a4]], b as [[b1 b2] [b3 b4]].
  unfold pair_ltb, point_ltb, point_eqb. simpl. lia.
Qed.

Lemma pair_not_after_trans (a b c : point * point) :
  not_after pair_ltb a b -> not_after pair_ltb b c -> not_after pair_ltb a c.
Proof.
  destruct a as [[a1 a2] [a3 a4]], b as [[b1 b2] [b3 b4]], c as [[c1 c2] [c3 c4]].
  unfold not_after, pair_ltb, point_ltb, point_eqb. simpl. lia.
Qed.

Lemma pair_not_after_le (a b : point * point) : not_after pair_ltb a b -> pair_le a b.
Proof.
  destruct a as [[a1 a2] [a3 a4]], b as [[b1 b2] [b3 b4]].
  unfold not_after, pair_ltb, point_ltb, point_eqb, pair_le, point_lt, point_le.
  simpl. intros H.
  assert (Hc : a1 < b1 \/ (a1 = b1 /\ a2 < b2)
               \/ (a1 = b1 /\ a2 = b2 /\ (a3 < b3 \/ (a3 = b3 /\ a4 <= b4)))) by lia.
  destruct Hc as [Hc | [Hc | (-> & -> & Hc)]]; [left; lia | left; lia | right].
  split; [reflexivity | exact Hc].
Qed.

(** The table ends, with the distances as the code compares them. *)
Lemma find_table_ends_smallest (c0 c1 c2 c3 : point) :
  let pairs := combinations [c0; c1; c2; c3] in
  exists end1 end2 others,
    find_table_ends [c0; c1; c2; c3] = [end1; end2]
    /\ Permutation (end1 :: end2 :: others) pairs
    /\ List.length pairs = 6%nat
    /\ (forall o, In o others ->
          PyFloat.leb (distance_between_points end1) (distance_between_points o) = true
          /\ PyFloat.leb (distance_between_points end2) (distance_between_points o) = true)
    /\ pair_le end1 end2.
Proof.
  intros pairs.
  destruct (nsmallest_spec 2 pairs distance_between_points distance_not_nan)
    as (others & Hperm & Hlen & Hmin).
  unfold find_table_ends. fold pairs.
  set (chosen := nsmallest 2 pairs distance_between_points) in *.
  pose proof (sorted_perm pair_ltb chosen) as Hp.
  pose proof (sorted_length pair_ltb chosen) as Hl.
  assert (Hs : StronglySorted (not_after pair_ltb) (sorted pair_ltb chosen)).
  { apply sorted_sorted with (P := fun _ => True).
    - intros a b _ _. apply pair_ltb_asym.
    - intros a b c _ _ _. apply pair_not_after_trans.
    - apply Forall_forall. intros; exact I. }
  rewrite Hlen in Hl. change (Nat.min 2 (List.length pairs)) with 2%nat in Hl.
  destruct (sorted pair_ltb chosen) as [| end1 [| end2 [| e3 l]]]; try discriminate Hl.
  exists end1, end2, others.
  split; [reflexivity |]. split; [| split; [reflexivity | split]].
  - apply perm_trans with (chosen ++ others); [| exact Hperm].
    apply (Permutation_app_tail others Hp).
  - intros o Ho. split; apply Hmin; auto;
      apply (Permutation_in _ Hp); simpl; auto.
  - apply StronglySorted_inv in Hs as [_ Hs].
    apply Forall_cons_iff in Hs as [Hs _].
    apply pair_not_after_le, Hs.
Qed.

(** ** Rows of dots *)

Lemma distance_row (a b y g : Z) :
  b - a = g -> 0 < g -> g * g < 2 ^ 53 ->
  distance_between_points ((a, y), (b, y)) = PyFloat.of_int g.
Proof.
  intros E Hg Hgg. unfold distance_between_points. cbn [fst snd].
  replace ((b - a) ^ 2 + (y - y) ^ 2) with (g * g) by (subst g; ring).
  apply Exact.sqrt_exact; assumption.
Qed.

Lemma add_zero_l (g : Z) :
  0 < g < 2 ^ 53 ->
  PyFloat.add (PyFloat.of_int 0) (PyFloat.of_int g) = PyFloat.of_int g.
Proof.
  intros Hg. rewrite (Exact.of_int_exact g Hg). reflexivity.
Qed.

Lemma sum_Z_cons (g : Z) (l : list Z) : sum_Z (g :: l) = g + sum_Z l.
Proof. reflexivity. Qed.

Lemma sum_Z_nonneg (l : list Z) : Forall (fun g => 0 < g) l -> 0 <= sum_Z l.
Proof.
  induction 1 as [| g l Hg _ IH]; [unfold sum_Z; simpl; lia |].
  rewrite sum_Z_cons. lia.
Qed.

Lemma fold_add_exact (l : list Z) :
  forall acc,
    0 < acc -> Forall (fun g => 0 < g) l -> acc + sum_Z l < 2 ^ 53 ->
    fold_left PyFloat.add (map PyFloat.of_int l) (PyFloat.of_int acc)
    = PyFloat.of_int (acc + sum_Z l).
Proof.
  induction l as [| g l IH]; intros acc Hacc Hpos Hsum; cbn [map fold_left].
  - f_equal. unfold sum_Z. simpl. lia.
  - apply Forall_cons_iff in Hpos as [Hg Hpos].
    pose proof (sum_Z_nonneg l Hpos).
    rewrite sum_Z_cons in Hsum |- *.
    rewrite Exact.add_exact by lia.
    rewrite IH by (try assumption; lia). f_equal. lia.
Qed.

Lemma float_sum_exact (l : list Z) :
  Forall (fun g => 0 < g) l -> sum_Z l < 2 ^ 53 ->
  l <> [] ->
  float_sum (map PyFloat.of_int l) = PyFloat.of_int (sum_Z l).
Proof.
  intros Hpos Hsum Hne. destruct l as [| g l]; [contradiction |].
  apply Forall_cons_iff in Hpos as [Hg Hpos].
  pose proof (sum_Z_nonneg l Hpos).
  rewrite sum_Z_cons in Hsum |- *.
  unfold float_sum. cbn [map fold_left].
  rewrite add_zero_l by lia.
  apply fold_add_exact; try assumption; lia.
Qed.

(** Points whose [x] strictly ascends are in tuple order. *)
Lemma ascending_sorted (l : list point) :
  Forall (fun pq => fst (fst pq) < fst (snd pq)) (consecutive l) ->
  StronglySorted (not_after point_ltb) l.
Proof.
  intros H.
  assert (Hs : StronglySorted (fun a b : point => fst a < fst b) l).
  { induction l as [| p rest IH]; [constructor |].
    destruct rest as [| q rest']; [repeat constructor |].
    change (consecutive (p :: q :: rest')) with ((p, q) :: consecutive (q :: rest')) in H.
    apply Forall_cons_iff in H as [Hpq H]. cbn [fst snd] in Hpq.
    specialize (IH H). constructor; [exact IH |].
    apply StronglySorted_inv in IH as [_ Hq].
    constructor; [exact Hpq |].
    eapply Forall_impl; [| exact Hq]. intros b Hb. cbn beta in *. lia. }
  clear H. induction Hs as [| p rest Hs IH Hp]; constructor; [exact IH |].
  eapply Forall_impl; [| exact Hp]. intros b Hb. cbn beta in Hb.
  unfold not_after, point_ltb. lia.
Qed.

Ltac split_on_gap :=
  repeat match goal with
         | |- context [Z.ltb ?a ?b] => destruct (Z.ltb_spec a b)
         | |- context [Z.eqb ?a ?b] => destruct (Z.eqb_spec a b)
         end.

Lemma row_with_gap_sorted (x0 y d D k : Z) :
  0 < d -> 0 < D ->
  sorted point_ltb (row_with_gap x0 y d D k) = row_with_gap x0 y d D k.
Proof.
  intros Hd HD. apply sorted_id, ascending_sorted.
  unfold row_with_gap. cbn [map consecutive].
  repeat (apply Forall_cons; [cbn [fst snd]; split_on_gap; lia |]).
  apply Forall_nil.
Qed.

Lemma row_with_gap_gaps (x0 y d D k : Z) :
  0 < d -> 0 < D -> d * d < 2 ^ 53 -> D * D < 2 ^ 53 ->
  gaps (row_with_gap x0 y d D k) = map PyFloat.of_int (gap_values d D k).
Proof.
  intros Hd HD Hdd HDD. rewrite <- consecutive_gaps.
  unfold row_with_gap, gap_values. cbn [map consecutive].
  repeat (f_equal;
          [split_on_gap; try lia; apply distance_row; (assumption || lia) |]).
  f_equal. split_on_gap; try lia; apply distance_row; (assumption || lia).
Qed.


Lemma gap_values_positive (d D k : Z) :
  0 < d -> 0 < D -> Forall (fun g => 0 < g) (gap_values d D k).
Proof.
  intros Hd HD. unfold gap_values. apply Forall_forall. intros g Hg.
  apply in_map_iff in Hg as [i [<- _]]. destruct (i =? k); assumption.
Qed.



(** Twelve dots, all neighbours equally far apart in a row: no gap exceeds
    the average and the walk takes all eleven steps. *)
Lemma find_score_even_row (x0 y d : Z) :
  0 < d < 2 ^ 26 -> find_score (even_row x0 y d) = Ok 11.
Proof.
  intros Hd.
  assert (E26 : 2 ^ 26 = 67108864) by reflexivity.
  assert (E53 : 2 ^ 53 = 9007199254740992) by reflexivity.
  assert (E49 : 2 ^ 49 = 562949953421312) by reflexivity.
  assert (Hdd : d * d < 2 ^ 53) by nia.
  assert (Erow : even_row x0 y d = row_with_gap x0 y d d 11).
  { unfold even_row, row_with_gap. cbn [map Z.ltb Z.compare Pos.compare Pos.compare_cont].
    repeat (f_equal; try lia). }
  rewrite Erow.
  rewrite find_score_defined by (simpl; lia).
  cbv zeta. rewrite row_with_gap_sorted by lia.
  change (Z.of_nat (List.length (row_with_gap x0 y d d 11)) - 1) with 11.
  rewrite row_with_gap_gaps by (assumption || lia).
  rewrite float_sum_exact.
  - destruct (Exact.div_eleven_between (11 * d) d (d + 1)) as [H1 _]; try lia.
    cbv zeta in H1.
    cbv [gap_values map Z.eqb Pos.eqb sum_Z fold_right leading_steps].
    replace (d + (d + (d + (d + (d + (d + (d + (d + (d + (d + (d + 0)))))))))))
      with (11 * d) by lia.
    unfold PyFloat.gtb, PyFloat.ltb in *. rewrite H1. reflexivity.
  - apply gap_values_positive; lia.
  - cbv [gap_values map Z.eqb Pos.eqb sum_Z fold_right]. lia.
  - unfold gap_values. discriminate.
Qed.



(** C10. For every list of at least two dot centres the walk returns a
    count between 0 and the number of points minus one; the upper bound is
    reached when no gap exceeds the average, as for twelve dots of a row
    with equal gaps, whose count is 11. *)
Theorem find_score_range :
  (forall points : list point,
      (2 <= List.length points)%nat ->
      exists ordered avg s,
        Permutation ordered points
        /\ average_distance_between_score_dots ordered = Ok avg
        /\ find_score points = Ok s
        /\ 0 <= s <= Z.of_nat (List.length points) - 1
        /\ (forallb (fun g => negb (PyFloat.gtb g avg)) (gaps ordered) = true ->
            s = Z.of_nat (List.length points) - 1))
  /\ (forall x0 y d : Z,
         0 < d < 2 ^ 26 ->
         List.length (even_row x0 y d) = 12%nat
         /\ find_score (even_row x0 y d) = Ok 11).
Proof.
  split.
  - intros points Hlen.
    assert (Hg : List.length (gaps (sorted point_ltb points))
                 = (List.length points - 1)%nat).
    { unfold gaps. rewrite length_map, length_seq, sorted_length. reflexivity. }
    set (ordered := sorted point_ltb points) in *.
    set (avg := PyFloat.div (float_sum (gaps ordered))
                  (PyFloat.of_int (Z.of_nat (List.length points) - 1))).
    exists ordered, avg, (leading_steps avg (gaps ordered)).
    split; [apply sorted_perm |].
    split.
    { unfold ordered. rewrite average_defined by (rewrite sorted_length; lia).
      rewrite sorted_length. reflexivity. }
    split; [apply find_score_defined; lia |].
    split.
    + pose proof (leading_steps_bounds avg (gaps ordered)) as Hb.
      rewrite Hg in Hb. lia.
    + intros Hall. rewrite (leading_steps_all _ _ Hall), Hg. lia.
  - intros x0 y d Hd. split; [reflexivity | apply find_score_even_row, Hd].
Qed.

Lemma find_score_range_witness :
  (2 <= List.length (even_row 0 0 10))%nat
  /\ 0 < 10 < 2 ^ 26
  /\ find_score (even_row 0 0 10) = Ok 11
  /\ exists ordered avg s,
      Permutation ordered (even_row 0 0 10)
      /\ average_distance_between_score_dots ordered = Ok avg
      /\ find_score (even_row 0 0 10) = Ok s
      /\ 0 <= s <= Z.of_nat (List.length (even_row 0 0 10)) - 1.
Proof.
  split; [simpl; lia |]. split; [simpl; lia |]. split.
  - apply (proj2 find_score_range). simpl; lia.
  - destruct (proj1 find_score_range (even_row 0 0 10)) as (o & a & s & Hp & Ha & Hf & Hb & _).
    + simpl; lia.
    + exists o, a, s. auto.
Defined.

(** ** Square roots of integers *)

Module Roots.
Import PyFloat Exact.

(** The square root of an integer below [2 ^ 50]: a normal number whose
    exponent is fixed by the number of digits and whose mantissa is the
    integer root of the scaled integer, or its successor. *)
Lemma sqrt_of_int_form (a : Z) :
  0 < a < 2 ^ 50 ->
  let h := (digits a + 1) / 2 in
  let q := Z.sqrt (a * 2 ^ (2 * (53 - h))) in
  exists m : positive,
    PyFloat.sqrt (PyFloat.of_int a) = S754_finite false m (h - 53)
    /\ q <= Zpos m <= q + 1
    /\ 2 ^ 52 <= q <= 2 ^ 53 - 2.
Proof.
  intros Ha h q.
  assert (E50 : 2 ^ 50 = 1125899906842624) by reflexivity.
  assert (E53 : 2 ^ 53 = 9007199254740992) by reflexivity.
  assert (E52 : 2 ^ 52 = 4503599627370496) by reflexivity.
  destruct (digits_bounds a) as [Hd1 Hdb]; [lia |].
  assert (Hd50 : digits a <= 50) by (apply digits_le; lia).
  assert (Hh : 2 * h <= digits a + 1 <= 2 * h + 1).
  { unfold h. pose proof (Z.div_mod (digits a + 1) 2 ltac:(lia)).
    pose proof (Z.mod_pos_bound (digits a + 1) 2 ltac:(lia)). lia. }
  assert (Hh25 : 1 <= h <= 25) by lia.
  (* bounds on the integer root *)
  set (P2 := 2 ^ (2 * (53 - h))) in *.
  assert (HP2 : 0 < P2) by (apply Z.pow_pos_nonneg; lia).
  assert (Hlow : 2 ^ 52 * 2 ^ 52 <= a * P2).
  { rewrite <- Z.pow_add_r by lia.
    apply Z.le_trans with (2 ^ (digits a - 1) * P2).
    - unfold P2. rewrite <- Z.pow_add_r by lia. apply Z.pow_le_mono_r; lia.
    - apply Z.mul_le_mono_nonneg_r; lia. }
  assert (Hhigh : a * P2 < (2 ^ 53 - 1) * (2 ^ 53 - 1)).
  { assert (Ha2 : a + 1 <= 2 ^ (2 * h)).
    { assert (2 ^ digits a <= 2 ^ (2 * h)) by (apply Z.pow_le_mono_r; lia). lia. }
    assert (E106 : 2 ^ (2 * h) * P2 = 2 ^ 106).
    { unfold P2. rewrite <- Z.pow_add_r by lia. f_equal. lia. }
    assert (HP56 : 2 ^ 56 <= P2) by (apply Z.pow_le_mono_r; lia).
    assert ((a + 1) * P2 <= 2 ^ 106).
    { rewrite <- E106. apply Z.mul_le_mono_nonneg_r; lia. }
    change (2 ^ 106) with 81129638414606681695789005144064 in *.
    change (2 ^ 56) with 72057594037927936 in *.
    rewrite E53. lia. }
  assert (Hq : 2 ^ 52 <= q <= 2 ^ 53 - 2).
  { split.
    - apply Z.sqrt_le_square; lia.
    - assert (q < 2 ^ 53 - 1) by (apply Z.sqrt_lt_square; lia). lia. }
  (* the computation *)
  destruct (exact_int_mantissa a) as [Hm Hmb]; [lia |].
  rewrite of_int_exact by lia.
  unfold exact_int, PyFloat.sqrt, SFsqrt, SFsqrt_core_binary.
  change (Zdigits2 (Zpos (Z.to_pos (a * 2 ^ (53 - digits a)))))
    with (digits (Zpos (Z.to_pos (a * 2 ^ (53 - digits a))))).
  rewrite Hm, digits_mul_pow by lia.
  replace (Z.div2 (digits a + (53 - digits a) + (digits a - 53) + 1)) with h
    by (rewrite Z.div2_div; unfold h; f_equal; lia).
  rewrite fexp_small by lia.
  assert (Hmin : Z.min (h - 53) (Z.div2 (digits a - 53)) = h - 53).
  { rewrite Z.div2_div.
    pose proof (Z.div_mod (digits a - 53) 2 ltac:(lia)).
    pose proof (Z.mod_pos_bound (digits a - 53) 2 ltac:(lia)). lia. }
  rewrite Hmin.
  assert (Hs : 0 < digits a - 53 - 2 * (h - 53)) by lia.
  destruct (digits a - 53 - 2 * (h - 53)) as [| s | s] eqn:Es; try lia.
  rewrite Z.shiftl_mul_pow2 by lia.
  replace (a * 2 ^ (53 - digits a) * 2 ^ Zpos s) with (a * P2).
  2:{ unfold P2. rewrite <- Z.mul_assoc, <- Z.pow_add_r by lia. do 2 f_equal. lia. }
  pose proof (Z.sqrtrem_sqrt (a * P2)) as Hsq.
  destruct (Z.sqrtrem (a * P2)) as [q' r]. cbn [fst] in Hsq. fold q in Hsq. subst q'.
  set (l := if r =? 0 then loc_Exact else loc_Inexact (if r <=? q then Lt else Gt)).
  assert (Hdq : digits q = 53) by (apply digits_unique; lia).
  destruct (binary_round_aux_bracket q (h - 53) l (h - 53))
    as (m3 & e3 & Er & Hm3 & He3 & Hb); try lia.
  cbv zeta in Hb. rewrite Hdq, Z.sub_diag, Z.pow_0_r, Z.div_1_r in Hb.
  replace (h - 53 + 0 - (h - 53)) with 0 in Hb by lia.
  rewrite Z.pow_0_r, !Z.mul_1_r in Hb.
  assert (He : e3 = h - 53).
  { destruct (Z.eq_dec e3 (h - 53)) as [| Hne]; [assumption |].
    assert (2 ^ 1 <= 2 ^ (e3 - (h - 53))) by (apply Z.pow_le_mono_r; lia).
    change (2 ^ 1) with 2 in *. nia. }
  subst e3. rewrite Z.sub_diag, Z.pow_0_r, Z.mul_1_r in Hb.
  exists m3. rewrite Er. split; [reflexivity |]. split; [exact Hb | exact Hq].
Qed.

(** Below [2 ^ 50] the rounded square root is strictly increasing. *)
Lemma sqrt_of_int_lt (a b : Z) :
  0 <= a < b -> b < 2 ^ 50 ->
  PyFloat.ltb (PyFloat.sqrt (PyFloat.of_int a)) (PyFloat.sqrt (PyFloat.of_int b)) = true.
Proof.
  intros Hab Hb.
  assert (E53 : 2 ^ 53 = 9007199254740992) by reflexivity.
  assert (E52 : 2 ^ 52 = 4503599627370496) by reflexivity.
  destruct (sqrt_of_int_form b) as (mb & Eb & Hmb & Hqb); [lia |].
  cbv zeta in Eb, Hmb, Hqb. rewrite Eb.
  destruct (Z.eq_dec a 0) as [-> | Ha0]; [reflexivity |].
  destruct (sqrt_of_int_form a) as (ma & Ea & Hma & Hqa); [lia |].
  cbv zeta in Ea, Hma, Hqa. rewrite Ea.
  destruct (digits_bounds a) as [Ha1 Hda]; [lia |].
  destruct (digits_bounds b) as [Hb1 Hdb]; [lia |].
  assert (Hdab : digits a <= digits b) by (apply digits_le; lia).
  assert (Hd50 : digits b <= 50) by (apply digits_le; lia).
  set (ha := (digits a + 1) / 2) in *. set (hb := (digits b + 1) / 2) in *.
  assert (Hh : ha <= hb) by (apply Z.div_le_mono; lia).
  assert (Hhb : 2 * hb <= digits b + 1).
  { unfold hb. pose proof (Z.mul_div_le (digits b + 1) 2). lia. }
  unfold PyFloat.ltb, SFltb, SFcompare.
  change (Pos.compare_cont Eq ma mb) with (Pos.compare ma mb).
  destruct (Z.compare_spec (ha - 53) (hb - 53)) as [Heq | Hlt | Hgt];
    [| reflexivity | lia].
  assert (Ehh : ha = hb) by lia. rewrite Ehh in *.
  set (P2 := 2 ^ (2 * (53 - hb))) in *.
  assert (HP : 2 ^ 56 <= P2) by (apply Z.pow_le_mono_r; lia).
  change (2 ^ 56) with 72057594037927936 in HP.
  set (qa := Z.sqrt (a * P2)) in *. set (qb := Z.sqrt (b * P2)) in *.
  assert (Hqa2 : qa * qa <= a * P2).
  { unfold qa. apply (Z.sqrt_spec (a * P2)). lia. }
  assert (Hlt : qa + 2 <= qb).
  { assert ((a + 1) * P2 <= b * P2) by (apply Z.mul_le_mono_nonneg_r; lia).
    assert (0 <= a * P2) by (apply Z.mul_nonneg_nonneg; lia).
    unfold qb. apply Z.sqrt_le_square; lia. }
  destruct (Pos.compare_spec ma mb) as [E | H | H]; [subst; lia | reflexivity | lia].
Qed.

End Roots.

(** ** Distances and their squares *)

Lemma distance_squared (p : point * point) :
  distance_between_points p = PyFloat.sqrt (PyFloat.of_int (squared_distance p)).
Proof. reflexivity. Qed.

Lemma squared_distance_nonneg (p : point * point) : 0 <= squared_distance p.
Proof. unfold squared_distance. nia. Qed.

(** Distances are ordered as their squares, which are integers. *)
Lemma distance_ltb_squared (p q : point * point) :
  squared_distance p < 2 ^ 50 -> squared_distance q < 2 ^ 50 ->
  PyFloat.ltb (distance_between_points p) (distance_between_points q)
  = (squared_distance p <? squared_distance q).
Proof.
  intros Hp Hq. rewrite !distance_squared.
  pose proof (squared_distance_nonneg p). pose proof (squared_distance_nonneg q).
  destruct (Z.ltb_spec (squared_distance p) (squared_distance q)) as [Hlt | Hge].
  - apply Roots.sqrt_of_int_lt; lia.
  - destruct (Z.eq_dec (squared_distance p) (squared_distance q)) as [-> | Hne].
    + apply FloatOrder.ltb_irrefl.
    + apply FloatOrder.ltb_asym, Roots.sqrt_of_int_lt; lia.
Qed.

(** ** Scaling the corners *)

Section SortedMap.
Context {A B : Type}.
Variable f : A -> B.
Variable lt : A -> A -> bool.
Variable lt' : B -> B -> bool.

Lemma insert_map (x : A) (l : list A) :
  (forall y, In y l -> lt' (f y) (f x) = lt y x) ->
  insert lt' (f x) (map f l) = map f (insert lt x l).
Proof.
  induction l as [| y l IH]; intros H; cbn [map insert].
  - reflexivity.
  - rewrite (H y) by (left; reflexivity).
    destruct (lt y x); cbn [map].
    + rewrite IH; [reflexivity |]. intros z Hz. apply H. now right.
    + reflexivity.
Qed.

Lemma sorted_map (l : list A) :
  (forall x y, In x l -> In y l -> lt' (f x) (f y) = lt x y) ->
  sorted lt' (map f l) = map f (sorted lt l).
Proof.
  induction l as [| x l IH]; intros H; cbn [map sorted].
  - reflexivity.
  - rewrite IH by (intros a b Ha Hb; apply H; now right).
    apply insert_map. intros y Hy. apply H; [right | left; reflexivity].
    apply (sorted_in lt l y), Hy.
Qed.
End SortedMap.

Lemma combinations_scale (k : Z) (l : list point) :
  combinations (map (scale_point k) l) = map (scale_pair k) (combinations l).
Proof.
  induction l as [| p l IH]; cbn [map combinations].
  - reflexivity.
  - rewrite map_app, IH, !map_map. reflexivity.
Qed.

Lemma squared_distance_scale (k : Z) (pq : point * point) :
  squared_distance (scale_pair k pq) = k * k * squared_distance pq.
Proof.
  destruct pq as [[a b] [c d]]. unfold squared_distance, scale_pair, scale_point.
  cbn [fst snd]. ring.
Qed.

Lemma ltb_scale (k a b : Z) : 0 < k -> (k * a <? k * b) = (a <? b).
Proof.
  intros Hk. destruct (Z.ltb_spec a b) as [H | H].
  - apply Z.ltb_lt. apply Z.mul_lt_mono_pos_l; assumption.
  - apply Z.ltb_ge. apply Z.mul_le_mono_nonneg_l; lia.
Qed.

Lemma eqb_scale (k a b : Z) : 0 < k -> (k * a =? k * b) = (a =? b).
Proof.
  intros Hk. destruct (Z.eqb_spec a b) as [-> | H].
  - apply Z.eqb_refl.
  - apply Z.eqb_neq. intros E. apply Z.mul_reg_l in E; lia.
Qed.

Lemma point_ltb_scale (k : Z) (a b : point) :
  0 < k -> point_ltb (scale_point k a) (scale_point k b) = point_ltb a b.
Proof.
  intros Hk. unfold point_ltb, scale_point. cbn [fst snd].
  rewrite !ltb_scale, eqb_scale by assumption. reflexivity.
Qed.

Lemma pair_ltb_scale (k : Z) (a b : point * point) :
  0 < k -> pair_ltb (scale_pair k a) (scale_pair k b) = pair_ltb a b.
Proof.
  intros Hk. unfold pair_ltb, scale_pair, point_eqb. cbn [fst snd].
  rewrite !point_ltb_scale by assumption.
  unfold scale_point. cbn [fst snd]. rewrite !eqb_scale by assumption. reflexivity.
Qed.

(** Scaling the corners by [k] scales the table ends by [k], as long as
    the squared distances stay below [2 ^ 50]. *)
Lemma find_table_ends_scale (k : Z) (corners : list point) :
  0 < k ->
  (forall pq, In pq (combinations corners) -> k * k * squared_distance pq < 2 ^ 50) ->
  find_table_ends (map (scale_point k) corners)
  = map (scale_pair k) (find_table_ends corners).
Proof.
  intros Hk Hb.
  assert (Hb1 : forall pq, In pq (combinations corners) -> squared_distance pq < 2 ^ 50).
  { intros pq Hpq. specialize (Hb pq Hpq).
    pose proof (squared_distance_nonneg pq). nia. }
  unfold find_table_ends, nsmallest.
  rewrite combinations_scale, map_map.
  set (G := fun d : PyFloat.float * (point * point) =>
              (distance_between_points (scale_pair k (snd d)), scale_pair k (snd d))).
  replace (map (fun x => (distance_between_points (scale_pair k x), scale_pair k x))
             (combinations corners))
    with (map G (map (fun a => (distance_between_points a, a)) (combinations corners)))
    by (rewrite map_map; reflexivity).
  rewrite (sorted_map G key_ltb key_ltb).
  - rewrite firstn_map, map_map.
    replace (map (fun x => snd (G x))
               (firstn 2 (sorted key_ltb
                            (map (fun a => (distance_between_points a, a))
                               (combinations corners)))))
      with (map (scale_pair k)
              (map snd (firstn 2 (sorted key_ltb
                                    (map (fun a => (distance_between_points a, a))
                                       (combinations corners))))))
      by (rewrite map_map; reflexivity).
    apply sorted_map. intros x y _ _. apply pair_ltb_scale, Hk.
  - intros x y Hx Hy.
    apply in_map_iff in Hx as [a [<- Ha]]. apply in_map_iff in Hy as [b [<- Hb']].
    unfold key_ltb, G. cbn [fst snd].
    rewrite !distance_ltb_squared;
      rewrite ?squared_distance_scale; auto.
    apply ltb_scale. nia.
Qed.

(** ** Products with a fraction *)

Module Products.
Import PyFloat Exact.

Lemma binary_round_aux_opp (m e : Z) (l : location) :
  binary_round_aux PyFloat.prec PyFloat.emax true m e l
  = SFopp (binary_round_aux PyFloat.prec PyFloat.emax false m e l).
Proof.
  unfold binary_round_aux.
  destruct (shr_fexp PyFloat.prec PyFloat.emax m e l) as [mrs' e'].
  destruct (shr_fexp PyFloat.prec PyFloat.emax _ e' loc_Exact) as [mrs'' e''].
  destruct (shr_m mrs''); try reflexivity.
  destruct (e'' <=? PyFloat.emax - PyFloat.prec); reflexivity.
Qed.

Lemma to_int_opp (x : PyFloat.float) (t : Z) :
  PyFloat.to_int x = Ok t -> PyFloat.to_int (SFopp x) = Ok (- t).
Proof.
  destruct x as [s | s | | s m e]; cbn [PyFloat.to_int SFopp]; intros H;
    try discriminate H.
  - injection H as <-. reflexivity.
  - injection H as <-. f_equal. destruct s; cbn [negb]; lia.
Qed.

(** [int(n * c)] for a positive [n]: the truncated product, off by less
    than one from the rational product. *)
Lemma to_int_mul_pos (c : PyFloat.float) (num den n : Z) :
  nearest_fraction c num den -> 0 < n < 2 ^ 31 ->
  exists t,
    PyFloat.to_int (PyFloat.mul (PyFloat.of_int n) c) = Ok t
    /\ num * n - den <= den * t <= num * n.
Proof.
  intros (mc & ec & -> & Hmc & Hec & Hnum & Hden & Hc) Hn.
  assert (E31 : 2 ^ 31 = 2147483648) by reflexivity.
  assert (E53 : 2 ^ 53 = 9007199254740992) by reflexivity.
  assert (E52 : 2 ^ 52 = 4503599627370496) by reflexivity.
  destruct (digits_bounds n) as [Hd1 Hdb]; [lia |].
  assert (Hd31 : digits n <= 31) by (apply digits_le; lia).
  destruct (exact_int_mantissa n) as [Hm Hmb]; [lia |].
  rewrite of_int_exact by lia.
  unfold exact_int, PyFloat.mul, SFmul. cbn [xorb].
  rewrite Pos2Z.inj_mul, Hm.
  set (F := 2 ^ (53 - digits n)) in *.
  set (G := 2 ^ (- ec)) in *.
  set (mn := n * F) in *.
  set (m := mn * Zpos mc).
  set (e := digits n - 53 + ec).
  assert (HF : 0 < F) by (apply Z.pow_pos_nonneg; lia).
  assert (HG : 2 ^ 54 <= G) by (apply Z.pow_le_mono_r; lia).
  change (2 ^ 54) with 18014398509481984 in HG.
  assert (HF22 : 2 ^ 22 <= F) by (apply Z.pow_le_mono_r; lia).
  change (2 ^ 22) with 4194304 in HF22.
  set (E := F * G).
  assert (HE : 2 ^ (- e) = E).
  { unfold E, F, G, e. rewrite <- Z.pow_add_r by lia. f_equal. lia. }
  assert (Hmlow : 2 ^ 52 * 2 ^ 52 <= m).
  { unfold m. apply Z.mul_le_mono_nonneg; lia. }
  assert (Hmhigh : m < 2 ^ 53 * 2 ^ 53).
  { unfold m. apply Z.mul_lt_mono_nonneg; lia. }
  assert (Hdm : 53 <= digits m <= 106).
  { split.
    - destruct (digits_bounds m) as [_ Hmb']; [lia |].
      destruct (Z.leb_spec 53 (digits m)) as [| Hlt]; [assumption |].
      assert (2 ^ digits m <= 2 ^ 52) by (apply Z.pow_le_mono_r; lia). lia.
    - apply digits_le; [lia |]. change (2 ^ 106) with (2 ^ 53 * 2 ^ 53). exact Hmhigh. }
  destruct (binary_round_aux_bracket m e loc_Exact e)
    as (m3 & e3 & Er & Hm3 & He3 & Hb); try lia.
  rewrite Er. cbn [PyFloat.to_int].
  cbv zeta in Hb.
  set (j := digits m - 53) in *.
  replace (e + j - e) with j in Hb by lia.
  assert (H2j : 0 < 2 ^ j <= 2 ^ 53).
  { split; [apply Z.pow_pos_nonneg; lia | apply Z.pow_le_mono_r; lia]. }
  pose proof (Z.mul_div_le m (2 ^ j) ltac:(lia)) as Hfl.
  pose proof (Z.mul_succ_div_gt m (2 ^ j) ltac:(lia)) as Hce.
  set (W := Zpos m3 * 2 ^ (e3 - e)) in *.
  assert (HW : m - 2 ^ j < W <= m + 2 ^ j) by lia.
  (* the truncated value *)
  set (a := match e3 with
            | Z.neg p => Z.shiftr (Z.pos m3) (Z.pos p)
            | _ => Z.shiftl (Z.pos m3) e3
            end).
  assert (Ha : E * a <= W < E * (a + 1)).
  { rewrite <- HE. destruct e3 as [| p | p] eqn:E3.
    - unfold a, W. rewrite Z.shiftl_mul_pow2 by lia.
      replace (0 - e) with (- e) by lia. rewrite Z.pow_0_r.
      assert (0 < 2 ^ (- e)) by (apply Z.pow_pos_nonneg; lia). nia.
    - unfold a, W. rewrite Z.shiftl_mul_pow2 by lia.
      replace (Zpos p - e) with (Zpos p + - e) by lia. rewrite Z.pow_add_r by lia.
      assert (0 < 2 ^ (- e)) by (apply Z.pow_pos_nonneg; lia).
      assert (0 < 2 ^ Zpos p) by (apply Z.pow_pos_nonneg; lia). nia.
    - unfold a, W. rewrite Z.shiftr_div_pow2 by lia.
      replace (- e) with (Zpos p + (Z.neg p - e)) by lia.
      rewrite Z.pow_add_r by lia.
      set (Q := 2 ^ Zpos p). set (R := 2 ^ (Z.neg p - e)).
      assert (HQ : 0 < Q) by (apply Z.pow_pos_nonneg; lia).
      assert (HR : 0 < R) by (apply Z.pow_pos_nonneg; lia).
      pose proof (Z.mul_div_le (Zpos m3) Q HQ).
      pose proof (Z.mul_succ_div_gt (Zpos m3) Q HQ).
      set (t := Zpos m3 / Q) in *.
      split.
      + replace (Q * R * t) with (Q * t * R) by ring.
        apply Z.mul_le_mono_nonneg_r; lia.
      + replace (Q * R * (t + 1)) with (Q * Z.succ t * R) by ring.
        apply Z.mul_lt_mono_pos_r; lia. }
  exists a. split; [reflexivity |].
  (* the fraction *)
  assert (Hprod : 2 * num * n * E - den * mn <= 2 * den * m <= 2 * num * n * E + den * mn).
  { unfold m, E, mn.
    assert (H1 : (2 * den * Zpos mc - 2 * num * G) * (n * F) <= den * (n * F))
      by (apply Z.mul_le_mono_nonneg_r; lia).
    assert (H2 : - den * (n * F) <= (2 * den * Zpos mc - 2 * num * G) * (n * F))
      by (apply Z.mul_le_mono_nonneg_r; lia).
    lia. }
  assert (HS : den * mn + 2 * den * 2 ^ 53 < 2 * E).
  { assert (den * mn <= 1000 * 2 ^ 53) by (apply Z.mul_le_mono_nonneg; lia).
    assert (2 ^ 22 * 2 ^ 54 <= E) by (apply Z.mul_le_mono_nonneg; lia).
    change (2 ^ 22 * 2 ^ 54) with 75557863725914323419136 in *. lia. }
  assert (HdW : den * (m - 2 ^ j) < den * W <= den * (m + 2 ^ j)).
  { split; [apply Z.mul_lt_mono_pos_l | apply Z.mul_le_mono_nonneg_l]; lia. }
  assert (Hd2j : den * 2 ^ j <= den * 2 ^ 53) by (apply Z.mul_le_mono_nonneg_l; lia).
  assert (HdEa : den * (E * a) <= den * W < den * (E * (a + 1))).
  { split; [apply Z.mul_le_mono_nonneg_l | apply Z.mul_lt_mono_pos_l]; lia. }
  assert (HE0 : 0 < E) by (apply Z.mul_pos_pos; lia).
  split.
  - (* num * n - den <= den * a *)
    assert (H : (num * n - 1) * (2 * E) < (den * (a + 1)) * (2 * E)) by lia.
    apply Z.mul_lt_mono_pos_r in H; lia.
  - assert (H : (den * a) * (2 * E) < (num * n + 1) * (2 * E)) by lia.
    apply Z.mul_lt_mono_pos_r in H; lia.
Qed.

Lemma of_int_neg (p : positive) :
  PyFloat.of_int (Zneg p) = SFopp (PyFloat.of_int (Zpos p)).
Proof.
  unfold PyFloat.of_int, binary_normalize, binary_round.
  destruct (shl_align p 0 _) as [mz ez]. apply binary_round_aux_opp.
Qed.

Lemma to_int_mul_bounds (c : PyFloat.float) (num den n : Z) :
  nearest_fraction c num den -> - 2 ^ 31 < n < 2 ^ 31 ->
  exists t,
    PyFloat.to_int (PyFloat.mul (PyFloat.of_int n) c) = Ok t
    /\ trunc_near num den n t.
Proof.
  intros Hc Hn. unfold trunc_near.
  destruct n as [| p | p].
  - destruct Hc as (mc & ec & -> & _ & _ & _ & Hden & _).
    exists 0. split; [reflexivity | lia].
  - destruct (to_int_mul_pos c num den (Zpos p) Hc) as (t & Et & Ht); [lia |].
    exists t. split; [exact Et | lia].
  - destruct (to_int_mul_pos c num den (Zpos p) Hc) as (t & Et & Ht); [lia |].
    exists (- t). split; [| lia].
    rewrite of_int_neg.
    destruct Hc as (mc & ec & -> & _).
    rewrite of_int_exact in Et |- * by lia.
    unfold exact_int, PyFloat.mul, SFmul in Et |- *. cbn [SFopp negb xorb] in Et |- *.
    rewrite binary_round_aux_opp. apply to_int_opp, Et.
Qed.

End Products.

Ltac decide_numbers :=
  repeat split; vm_compute; first [reflexivity | discriminate | (intro; discriminate)].

Lemma middle_margin_fraction : nearest_fraction SCORE_TO_MIDDLE_MARGIN 17 100.
Proof.
  unfold nearest_fraction.
  exists 6124895493223875%positive, (-55). decide_numbers.
Qed.

Lemma inner_margin_fraction : nearest_fraction SCORE_INNER_MARGIN 15 1000.
Proof.
  unfold nearest_fraction.
  exists 8646911284551352%positive, (-59). decide_numbers.
Qed.

Lemma block_length_fraction : nearest_fraction SCORE_BLOCK_LENGTH 45 1000.
Proof.
  unfold nearest_fraction.
  exists 6485183463413514%positive, (-57). decide_numbers.
Qed.

Lemma calculate_coordinate_addition_bounds
  (c : PyFloat.float) (num den : Z) (m1 m2 : point) :
  nearest_fraction c num den ->
  - 2 ^ 31 < fst m2 - fst m1 < 2 ^ 31 ->
  - 2 ^ 31 < snd m2 - snd m1 < 2 ^ 31 ->
  exists dx dy,
    calculate_coordinate_addition m1 m2 c = Ok (dx, dy)
    /\ trunc_near num den (fst m2 - fst m1) dx
    /\ trunc_near num den (snd m2 - snd m1) dy.
Proof.
  intros Hc Hx Hy. unfold calculate_coordinate_addition.
  destruct (Products.to_int_mul_bounds c num den _ Hc Hx) as (dx & -> & Hdx).
  destruct (Products.to_int_mul_bounds c num den _ Hc Hy) as (dy & -> & Hdy).
  exists dx, dy. auto.
Qed.

(** Midpoints and truncated products of nearly scaled arguments. *)
Lemma mid_near (k a b a' b' : Z) :
  0 < k ->
  (a' - k * a) + (b' - k * b) - 1
  <= 2 * ((a' + b') / 2 - k * ((a + b) / 2))
  <= (a' - k * a) + (b' - k * b) + k.
Proof.
  intros Hk.
  pose proof (Z.div_mod (a + b) 2 ltac:(lia)) as H1.
  pose proof (Z.mod_pos_bound (a + b) 2 ltac:(lia)) as H2.
  pose proof (Z.div_mod (a' + b') 2 ltac:(lia)) as H3.
  pose proof (Z.mod_pos_bound (a' + b') 2 ltac:(lia)) as H4.
  set (M := (a + b) / 2) in *. set (M' := (a' + b') / 2) in *.
  set (r := (a + b) mod 2) in *.
  assert (0 <= k * r <= k) by nia.
  assert (k * (a + b) = 2 * (k * M) + k * r) by (rewrite H1; ring).
  lia.
Qed.

Lemma trunc_near_scale (num den k n n' t t' : Z) :
  0 < k -> 0 < den ->
  trunc_near num den n t -> trunc_near num den n' t' ->
  num * (n' - k * n) - den - k * den
  <= den * (t' - k * t)
  <= num * (n' - k * n) + den + k * den.
Proof.
  unfold trunc_near. intros Hk Hden [H1 H2] [H3 H4].
  assert (k * - den <= k * (den * t - num * n)) by (apply Z.mul_le_mono_nonneg_l; lia).
  assert (k * (den * t - num * n) <= k * den) by (apply Z.mul_le_mono_nonneg_l; lia).
  lia.
Qed.

(** One coordinate of one quarter point, through the three offsets, in the
    unscaled and in the scaled run. *)
Lemma coordinate_chain
  (k p q Mo Mo' tA tO tL tA' tO' tL' : Z) :
  0 < k ->
  let M := (p + q) / 2 in
  let A0 := (p + M) / 2 in
  let M' := (k * p + k * q) / 2 in
  let A0' := (k * p + M') / 2 in
  trunc_near 17 100 (M - A0) tA ->
  trunc_near 15 1000 (Mo - M) tO ->
  trunc_near 45 1000 (Mo - M) tL ->
  trunc_near 17 100 (M' - A0') tA' ->
  trunc_near 15 1000 (Mo' - M') tO' ->
  trunc_near 45 1000 (Mo' - M') tL' ->
  0 <= 2 * (Mo' - k * Mo) <= k ->
  (- (4 * k + 3) <= (A0' + tA' + tO') - k * (A0 + tA + tO) <= 4 * k + 3)
  /\ (- (4 * k + 3) <= (A0' + tA' + tO' + tL') - k * (A0 + tA + tO + tL) <= 4 * k + 3).
Proof.
  intros Hk M A0 M' A0' HtA HtO HtL HtA' HtO' HtL' HMo.
  pose proof (mid_near k p q (k * p) (k * q) Hk) as HM.
  fold M M' in HM.
  pose proof (mid_near k p M (k * p) M' Hk) as HA.
  fold A0 A0' in HA.
  pose proof (trunc_near_scale 17 100 k _ _ _ _ Hk ltac:(lia) HtA HtA') as H1.
  pose proof (trunc_near_scale 15 1000 k _ _ _ _ Hk ltac:(lia) HtO HtO') as H2.
  pose proof (trunc_near_scale 45 1000 k _ _ _ _ Hk ltac:(lia) HtL HtL') as H3.
  clearbody M A0 M' A0'. clear HtA HtO HtL HtA' HtO' HtL'.
  lia.
Qed.

Lemma coordinate_chain_b
  (k p q Mo Mo' tB tO tL tB' tO' tL' : Z) :
  0 < k ->
  let M := (p + q) / 2 in
  let B0 := (q + M) / 2 in
  let M' := (k * p + k * q) / 2 in
  let B0' := (k * q + M') / 2 in
  trunc_near 17 100 (M - B0) tB ->
  trunc_near 15 1000 (Mo - M) tO ->
  trunc_near 45 1000 (Mo - M) tL ->
  trunc_near 17 100 (M' - B0') tB' ->
  trunc_near 15 1000 (Mo' - M') tO' ->
  trunc_near 45 1000 (Mo' - M') tL' ->
  0 <= 2 * (Mo' - k * Mo) <= k ->
  (- (4 * k + 3) <= (B0' + tB' + tO') - k * (B0 + tB + tO) <= 4 * k + 3)
  /\ (- (4 * k + 3) <= (B0' + tB' + tO' + tL') - k * (B0 + tB + tO + tL) <= 4 * k + 3).
Proof.
  intros Hk. cbv zeta.
  rewrite (Z.add_comm p q), (Z.add_comm (k * p) (k * q)).
  apply (coordinate_chain k q p); exact Hk.
Qed.

Lemma middle_point_within (bound : Z) (p q : point) :
  point_within bound p -> point_within bound q ->
  point_within bound (middle_point p q).
Proof.
  unfold point_within, middle_point. cbn [fst snd].
  intros [Hpx Hpy] [Hqx Hqy].
  pose proof (Z.div_mod (fst p + fst q) 2 ltac:(lia)).
  pose proof (Z.mod_pos_bound (fst p + fst q) 2 ltac:(lia)).
  pose proof (Z.div_mod (snd p + snd q) 2 ltac:(lia)).
  pose proof (Z.mod_pos_bound (snd p + snd q) 2 ltac:(lia)).
  lia.
Qed.

Lemma table_end_middles_spec (e : point * point) :
  point_within (2 ^ 23) (fst e) -> point_within (2 ^ 23) (snd e) ->
  let middle := middle_point (fst e) (snd e) in
  let a0 := middle_point (fst e) middle in
  let b0 := middle_point (snd e) middle in
  exists ta tb : point,
    table_end_middles e = Ok (middle, add_point a0 ta, add_point b0 tb)
    /\ trunc_near 17 100 (fst middle - fst a0) (fst ta)
    /\ trunc_near 17 100 (snd middle - snd a0) (snd ta)
    /\ trunc_near 17 100 (fst middle - fst b0) (fst tb)
    /\ trunc_near 17 100 (snd middle - snd b0) (snd tb).
Proof.
  intros Hp Hq middle a0 b0.
  assert (E23 : 2 ^ 23 = 8388608) by reflexivity.
  assert (E31 : 2 ^ 31 = 2147483648) by reflexivity.
  pose proof (middle_point_within _ _ _ Hp Hq) as Hm. fold middle in Hm.
  pose proof (middle_point_within _ _ _ Hp Hm) as Ha. fold a0 in Ha.
  pose proof (middle_point_within _ _ _ Hq Hm) as Hb. fold b0 in Hb.
  unfold point_within in Hm, Ha, Hb.
  unfold table_end_middles. fold middle a0 b0.
  destruct (calculate_coordinate_addition_bounds _ 17 100 a0 middle
              middle_margin_fraction) as (ax & ay & -> & Hax & Hay); [lia | lia |].
  destruct (calculate_coordinate_addition_bounds _ 17 100 b0 middle
              middle_margin_fraction) as (bx & by_ & -> & Hbx & Hby); [lia | lia |].
  exists (ax, ay), (bx, by_). cbn [bind fst snd]. auto.
Qed.

(** The two ends are two of the pairs of corners. *)
Lemma find_table_ends_two (c0 c1 c2 c3 : point) :
  exists end1 end2,
    find_table_ends [c0; c1; c2; c3] = [end1; end2]
    /\ In end1 (combinations [c0; c1; c2; c3])
    /\ In end2 (combinations [c0; c1; c2; c3]).
Proof.
  set (pairs := combinations [c0; c1; c2; c3]).
  destruct (nsmallest_spec 2 pairs distance_between_points distance_not_nan)
    as (others & Hperm & Hlen & _).
  unfold find_table_ends. fold pairs.
  set (chosen := nsmallest 2 pairs distance_between_points) in *.
  pose proof (sorted_perm pair_ltb chosen) as Hp.
  pose proof (sorted_length pair_ltb chosen) as Hl.
  rewrite Hlen in Hl. change (Nat.min 2 (List.length pairs)) with 2%nat in Hl.
  destruct (sorted pair_ltb chosen) as [| end1 [| end2 [| e3 l]]]; try discriminate Hl.
  exists end1, end2. split; [reflexivity |].
  assert (Hin : forall e, In e [end1; end2] -> In e pairs).
  { intros e He. apply (Permutation_in _ Hperm). apply in_or_app. left.
    apply (Permutation_in _ Hp), He. }
  split; apply Hin; simpl; auto.
Qed.

Lemma combinations_in (l : list point) (pq : point * point) :
  In pq (combinations l) -> In (fst pq) l /\ In (snd pq) l.
Proof.
  induction l as [| p l IH]; cbn [combinations]; intros H.
  - contradiction.
  - apply in_app_or in H as [H | H].
    + apply in_map_iff in H as [q [<- Hq]]. cbn [fst snd]. split; [left | right]; auto.
    + destruct (IH H). split; right; assumption.
Qed.

Lemma square_bound (d c : Z) : - c <= d <= c -> d ^ 2 <= c * c.
Proof.
  intros H. rewrite Z.pow_2_r, <- Z.abs_square.
  apply Z.mul_le_mono_nonneg; lia.
Qed.

Lemma squared_distance_within (p q : point) :
  point_within (2 ^ 23) p -> point_within (2 ^ 23) q ->
  squared_distance (p, q) < 2 ^ 50.
Proof.
  unfold point_within, squared_distance. cbn [fst snd].
  change (2 ^ 23) with 8388608. change (2 ^ 50) with 1125899906842624.
  intros [Hpx Hpy] [Hqx Hqy].
  pose proof (square_bound (fst q - fst p) 16777216 ltac:(lia)).
  pose proof (square_bound (snd q - snd p) 16777216 ltac:(lia)).
  lia.
Qed.

Lemma scaled_within (k : Z) (p : point) :
  0 < k -> point_within (2 ^ 23) (scale_point k p) -> point_within (2 ^ 23) p.
Proof.
  unfold point_within, scale_point. cbn [fst snd]. intros Hk [Hx Hy].
  assert (0 < 2 ^ 23) by reflexivity. nia.
Qed.

(** C9, as the code has it. For every four corners and every integer
    factor [k >= 1], with the scaled corners within [2 ^ 23] pixels of the
    origin, both runs return two boxes, and every coordinate of the boxes
    of the scaled run is [k] times the coordinate of the unscaled run up to
    [4 * k + 3]: the truncations of the unscaled run are multiplied by
    [k]. *)
Theorem find_score_boxes_scale (c0 c1 c2 c3 : point) (k : Z) :
  let corners := [c0; c1; c2; c3] in
  0 < k ->
  Forall (fun c => point_within (2 ^ 23) (scale_point k c)) corners ->
  exists box1 box2 box1' box2',
    find_score_boxes corners = Ok (box1, box2)
    /\ find_score_boxes (map (scale_point k) corners) = Ok (box1', box2')
    /\ box_near (4 * k + 3) k box1 box1'
    /\ box_near (4 * k + 3) k box2 box2'.
Proof.
  intros corners Hk Hscaled.
  assert (E23 : 2 ^ 23 = 8388608) by reflexivity.
  assert (E31 : 2 ^ 31 = 2147483648) by reflexivity.
  assert (Hs : forall c, In c corners -> point_within (2 ^ 23) (scale_point k c)).
  { apply Forall_forall, Hscaled. }
  assert (Hu : forall c, In c corners -> point_within (2 ^ 23) c).
  { intros c Hc. apply (scaled_within k c Hk), Hs, Hc. }
  destruct (find_table_ends_two c0 c1 c2 c3) as (e1 & e2 & Hends & Hin1 & Hin2).
  fold corners in Hends, Hin1, Hin2.
  assert (Hends' : find_table_ends (map (scale_point k) corners)
                   = [scale_pair k e1; scale_pair k e2]).
  { rewrite find_table_ends_scale, Hends; [reflexivity | exact Hk |].
    intros pq Hpq. rewrite <- squared_distance_scale.
    apply combinations_in in Hpq as [Hp Hq].
    destruct pq as [p q]. apply squared_distance_within; apply Hs; assumption. }
  apply combinations_in in Hin1 as [Hp1 Hq1].
  apply combinations_in in Hin2 as [Hp2 Hq2].
  pose proof (Hu _ Hp1) as Up1. pose proof (Hu _ Hq1) as Uq1.
  pose proof (Hu _ Hp2) as Up2. pose proof (Hu _ Hq2) as Uq2.
  pose proof (Hs _ Hp1) as Sp1. pose proof (Hs _ Hq1) as Sq1.
  pose proof (Hs _ Hp2) as Sp2. pose proof (Hs _ Hq2) as Sq2.
  clear Hp1 Hq1 Hp2 Hq2 Hs Hu Hscaled.
  (* the unscaled run *)
  destruct (table_end_middles_spec e1 Up1 Uq1) as (ta1 & tb1 & Et1 & Hta1x & Hta1y & Htb1x & Htb1y).
  destruct (table_end_middles_spec e2 Up2 Uq2) as (ta2 & tb2 & Et2 & Hta2x & Hta2y & Htb2x & Htb2y).
  cbv zeta in *.
  pose proof (middle_point_within _ _ _ Up1 Uq1) as Um1.
  pose proof (middle_point_within _ _ _ Up2 Uq2) as Um2.
  set (m1 := middle_point (fst e1) (snd e1)) in *.
  set (m2 := middle_point (fst e2) (snd e2)) in *.
  destruct (calculate_coordinate_addition_bounds _ 15 1000 m1 m2 inner_margin_fraction)
    as (o1x & o1y & Eo1 & Ho1x & Ho1y); [unfold point_within in *; lia .. |].
  destruct (calculate_coordinate_addition_bounds _ 15 1000 m2 m1 inner_margin_fraction)
    as (o2x & o2y & Eo2 & Ho2x & Ho2y); [unfold point_within in *; lia .. |].
  destruct (calculate_coordinate_addition_bounds _ 45 1000 m1 m2 block_length_fraction)
    as (l1x & l1y & El1 & Hl1x & Hl1y); [unfold point_within in *; lia .. |].
  destruct (calculate_coordinate_addition_bounds _ 45 1000 m2 m1 block_length_fraction)
    as (l2x & l2y & El2 & Hl2x & Hl2y); [unfold point_within in *; lia .. |].
  (* the scaled run *)
  destruct (table_end_middles_spec (scale_pair k e1) Sp1 Sq1)
    as (ta1' & tb1' & Et1' & Hta1x' & Hta1y' & Htb1x' & Htb1y').
  destruct (table_end_middles_spec (scale_pair k e2) Sp2 Sq2)
    as (ta2' & tb2' & Et2' & Hta2x' & Hta2y' & Htb2x' & Htb2y').
  cbv zeta in *.
  pose proof (middle_point_within _ (fst (scale_pair k e1)) (snd (scale_pair k e1))
                Sp1 Sq1) as Sm1.
  pose proof (middle_point_within _ (fst (scale_pair k e2)) (snd (scale_pair k e2))
                Sp2 Sq2) as Sm2.
  set (m1' := middle_point (fst (scale_pair k e1)) (snd (scale_pair k e1))) in *.
  set (m2' := middle_point (fst (scale_pair k e2)) (snd (scale_pair k e2))) in *.
  destruct (calculate_coordinate_addition_bounds _ 15 1000 m1' m2' inner_margin_fraction)
    as (o1x' & o1y' & Eo1' & Ho1x' & Ho1y'); [unfold point_within in *; lia .. |].
  destruct (calculate_coordinate_addition_bounds _ 15 1000 m2' m1' inner_margin_fraction)
    as (o2x' & o2y' & Eo2' & Ho2x' & Ho2y'); [unfold point_within in *; lia .. |].
  destruct (calculate_coordinate_addition_bounds _ 45 1000 m1' m2' block_length_fraction)
    as (l1x' & l1y' & El1' & Hl1x' & Hl1y'); [unfold point_within in *; lia .. |].
  destruct (calculate_coordinate_addition_bounds _ 45 1000 m2' m1' block_length_fraction)
    as (l2x' & l2y' & El2' & Hl2x' & Hl2y'); [unfold point_within in *; lia .. |].
  unfold find_score_boxes. rewrite Hends, Hends'.
  rewrite Et1, Et1'. cbn [bind]. rewrite Et2, Et2'. cbn [bind].
  fold m1 m2 m1' m2'.
  rewrite Eo1, Eo1'. cbn [bind]. rewrite Eo2, Eo2'. cbn [bind].
  rewrite El1, El1'. cbn [bind]. rewrite El2, El2'. cbn [bind].
  do 4 eexists. split; [reflexivity |]. split; [reflexivity |].
  clear Et1 Et2 Et1' Et2' Eo1 Eo2 Eo1' Eo2' El1 El2 El1' El2' Hends Hends'.
  clear Up1 Uq1 Up2 Uq2 Sp1 Sq1 Sp2 Sq2 Um1 Um2 Sm1 Sm2.
  destruct e1 as [[p1x p1y] [q1x q1y]], e2 as [[p2x p2y] [q2x q2y]].
  destruct ta1 as [ta1x ta1y], tb1 as [tb1x tb1y], ta2 as [ta2x ta2y], tb2 as [tb2x tb2y].
  destruct ta1' as [ta1x' ta1y'], tb1' as [tb1x' tb1y'],
           ta2' as [ta2x' ta2y'], tb2' as [tb2x' tb2y'].
  subst m1 m2 m1' m2'.
  cbv [scale_pair scale_point middle_point] in *. cbn [fst snd] in *.
  pose proof (mid_near k p1x q1x (k * p1x) (k * q1x) Hk) as M1x.
  pose proof (mid_near k p1y q1y (k * p1y) (k * q1y) Hk) as M1y.
  pose proof (mid_near k p2x q2x (k * p2x) (k * q2x) Hk) as M2x.
  pose proof (mid_near k p2y q2y (k * p2y) (k * q2y) Hk) as M2y.
  pose proof (coordinate_chain k p1x q1x _ _ _ _ _ _ _ _ Hk
                Hta1x Ho1x Hl1x Hta1x' Ho1x' Hl1x' ltac:(lia)) as A1x.
  pose proof (coordinate_chain k p1y q1y _ _ _ _ _ _ _ _ Hk
                Hta1y Ho1y Hl1y Hta1y' Ho1y' Hl1y' ltac:(lia)) as A1y.
  pose proof (coordinate_chain_b k p1x q1x _ _ _ _ _ _ _ _ Hk
                Htb1x Ho1x Hl1x Htb1x' Ho1x' Hl1x' ltac:(lia)) as B1x.
  pose proof (coordinate_chain_b k p1y q1y _ _ _ _ _ _ _ _ Hk
                Htb1y Ho1y Hl1y Htb1y' Ho1y' Hl1y' ltac:(lia)) as B1y.
  pose proof (coordinate_chain k p2x q2x _ _ _ _ _ _ _ _ Hk
                Hta2x Ho2x Hl2x Hta2x' Ho2x' Hl2x' ltac:(lia)) as A2x.
  pose proof (coordinate_chain k p2y q2y _ _ _ _ _ _ _ _ Hk
                Hta2y Ho2y Hl2y Hta2y' Ho2y' Hl2y' ltac:(lia)) as A2y.
  pose proof (coordinate_chain_b k p2x q2x _ _ _ _ _ _ _ _ Hk
                Htb2x Ho2x Hl2x Htb2x' Ho2x' Hl2x' ltac:(lia)) as B2x.
  pose proof (coordinate_chain_b k p2y q2y _ _ _ _ _ _ _ _ Hk
                Htb2y Ho2y Hl2y Htb2y' Ho2y' Hl2y' ltac:(lia)) as B2y.
  cbv zeta in *.
  clear - A1x A1y B1x B1y A2x A2y B2x B2y.
  unfold box_near, calculate_score_box, point_near, add_point. cbn [fst snd].
  destruct A1x, A1y, B1x, B1y, A2x, A2y, B2x, B2y.
  split; repeat (apply Forall2_cons; [split; assumption |]); apply Forall2_nil.
Qed.

Lemma find_score_boxes_scale_witness :
  let corners := [(1, 1); (1, 4); (12, 4); (12, 1)] in
  0 < 1000
  /\ Forall (fun c => point_within (2 ^ 23) (scale_point 1000 c)) corners
  /\ exists box1 box2 box1' box2',
      find_score_boxes corners = Ok (box1, box2)
      /\ find_score_boxes (map (scale_point 1000) corners) = Ok (box1', box2')
      /\ box_near (4 * 1000 + 3) 1000 box1 box1'
      /\ box_near (4 * 1000 + 3) 1000 box2 box2'.
Proof.
  intros corners.
  assert (Hw : Forall (fun c => point_within (2 ^ 23) (scale_point 1000 c)) corners).
  { repeat constructor; vm_compute; intro; discriminate. }
  split; [reflexivity |]. split; [exact Hw |].
  apply (find_score_boxes_scale (1, 1) (1, 4) (12, 4) (12, 1) 1000);
    [reflexivity | exact Hw].
Defined.

(** C9, as written, fails: for the corners (1,1), (1,4), (12,4), (12,1)
    and the factor 1000, the first box of the unscaled run starts at
    (1, 3) and that of the scaled run at (1165, 3123), which is 165 and 123
    pixels away from (1000, 3000), far more than a rounding error. *)
Lemma find_score_boxes_not_scale_invariant :
  ~ (forall (c0 c1 c2 c3 : point) (k : Z) (box1 box2 box1' box2' : box),
       0 < k ->
       find_score_boxes [c0; c1; c2; c3] = Ok (box1, box2) ->
       find_score_boxes (map (scale_point k) [c0; c1; c2; c3]) = Ok (box1', box2') ->
       box_near 100 k box1 box1' /\ box_near 100 k box2 box2').
Proof.
  intros H.
  destruct (H (1, 1) (1, 4) (12, 4) (12, 1) 1000
              [(1, 3); (1, 1); (1, 1); (1, 3)]
              [(12, 1); (12, 3); (12, 3); (12, 1)]
              [(1165, 3123); (1165, 1877); (1660, 1877); (1660, 3123)]
              [(11835, 1877); (11835, 3123); (11340, 3123); (11340, 1877)])
    as [H1 _].
  - reflexivity.
  - vm_compute. reflexivity.
  - vm_compute. reflexivity.
  - inversion H1 as [| p p' l l' Hp _]; subst.
    unfold point_near in Hp. cbn [fst snd] in Hp. lia.
Qed.

(** ** The geometry claims, with exact distances *)

Lemma leb_squared (p q : point * point) :
  squared_distance p < 2 ^ 50 -> squared_distance q < 2 ^ 50 ->
  PyFloat.leb (distance_between_points p) (distance_between_points q) = true ->
  squared_distance p <= squared_distance q.
Proof.
  intros Hp Hq H. apply FloatOrder.leb_not_ltb in H.
  rewrite distance_ltb_squared in H by assumption.
  apply Z.ltb_ge, H.
Qed.

(** C8, as the code has it. For every four corners, taken in ascending
    order of [y] (ties by [x]) as [s0, s1, s2, s3]: the lower long side
    starts at [s3], the corner with greatest [y], and ends at whichever
    of [s1] and [s2] is farther from it ([s2] when they are equally far);
    [s0], the first corner of that order, is not returned when the
    corners are distinct (another corner with the same smallest [y] can
    be).
    "Farther" is the comparison of the computed distances, which for
    corners within [2 ^ 23] pixels is the comparison of the exact
    distances. *)
Theorem find_lower_long_side_spec (c0 c1 c2 c3 : point) :
  let corners := [c0; c1; c2; c3] in
  exists s0 s1 s2 s3 point_a point_b,
    Permutation [s0; s1; s2; s3] corners
    /\ StronglySorted yx_le [s0; s1; s2; s3]
    /\ find_lower_long_side corners = Ok (point_a, point_b)
    /\ point_a = s3
    /\ (forall c, In c corners -> snd c <= snd point_a)
    /\ point_b = (if PyFloat.gtb (distance_between_points (s3, s1))
                                 (distance_between_points (s3, s2))
                  then s1 else s2)
    /\ PyFloat.leb (distance_between_points (point_a, s1))
                   (distance_between_points (point_a, point_b)) = true
    /\ PyFloat.leb (distance_between_points (point_a, s2))
                   (distance_between_points (point_a, point_b)) = true
    /\ (NoDup corners -> point_a <> s0 /\ point_b <> s0)
    /\ (Forall (point_within (2 ^ 23)) corners ->
        squared_distance (point_a, s1) <= squared_distance (point_a, point_b)
        /\ squared_distance (point_a, s2) <= squared_distance (point_a, point_b)).
Proof.
  intros corners.
  destruct (find_lower_long_side_order c0 c1 c2 c3)
    as (s0 & s1 & s2 & s3 & pa & pb & Hp & Hs & E & Ea & Hy & Eb & H1 & H2 & Hnd).
  fold corners in Hp, E, Hy, Hnd.
  exists s0, s1, s2, s3, pa, pb.
  repeat (split; [assumption |]).
  intros Hw. rewrite Forall_forall in Hw.
  assert (Hin : forall s, In s [s0; s1; s2; s3] -> point_within (2 ^ 23) s).
  { intros s Hin. apply Hw, (Permutation_in _ Hp), Hin. }
  assert (Hwa : point_within (2 ^ 23) pa) by (subst pa; apply Hin; simpl; auto).
  assert (Hwb : point_within (2 ^ 23) pb).
  { rewrite Eb. destruct (PyFloat.gtb _ _); apply Hin; simpl; auto. }
  split; apply leb_squared; try assumption;
    apply squared_distance_within; try assumption; apply Hin; simpl; auto.
Qed.

Lemma find_lower_long_side_spec_witness :
  let corners := [(0, 0); (5, 0); (0, 10); (5, 10)] in
  NoDup corners
  /\ Forall (point_within (2 ^ 23)) corners
  /\ find_lower_long_side corners = Ok ((5, 10), (5, 0))
  /\ exists s0 s1 s2 s3 point_a point_b,
      Permutation [s0; s1; s2; s3] corners
      /\ find_lower_long_side corners = Ok (point_a, point_b)
      /\ (point_a <> s0 /\ point_b <> s0)
      /\ squared_distance (point_a, s1) <= squared_distance (point_a, point_b)
      /\ squared_distance (point_a, s2) <= squared_distance (point_a, point_b).
Proof.
  intros corners.
  assert (Hnd : NoDup corners).
  { repeat constructor; simpl; intuition discriminate. }
  assert (Hw : Forall (point_within (2 ^ 23)) corners).
  { repeat constructor; vm_compute; intro; discriminate. }
  split; [exact Hnd |]. split; [exact Hw |]. split; [vm_compute; reflexivity |].
  destruct (find_lower_long_side_spec (0, 0) (5, 0) (0, 10) (5, 10))
    as (s0 & s1 & s2 & s3 & pa & pb & Hp & _ & E & _ & _ & _ & _ & _ & H & Hx).
  exists s0, s1, s2, s3, pa, pb.
  split; [exact Hp |]. split; [exact E |]. split; [apply H, Hnd |]. apply Hx, Hw.
Defined.

(** C8, as written, fails in its last clause: of the corners (0,0),
    (5,0), (0,10), (5,10) of a rectangle higher than wide, the lower long
    side is the right side, from (5,10) to (5,0), and (5,0) has the
    smallest [y] of the four. *)
Lemma find_lower_long_side_returns_smallest_y :
  ~ (forall (c0 c1 c2 c3 point_a point_b : point),
       let corners := [c0; c1; c2; c3] in
       NoDup corners ->
       find_lower_long_side corners = Ok (point_a, point_b) ->
       (forall c, In c corners -> snd c <= snd point_a)
       /\ (forall c, In c corners ->
                     (forall c', In c' corners -> snd c <= snd c') ->
                     point_a <> c /\ point_b <> c)).
Proof.
  intros H.
  assert (Hnd : NoDup [(0, 0); (5, 0); (0, 10); (5, 10)]).
  { repeat constructor; simpl; intuition discriminate. }
  destruct (H (0, 0) (5, 0) (0, 10) (5, 10) (5, 10) (5, 0) Hnd) as [_ Hnever].
  { vm_compute. reflexivity. }
  destruct (Hnever (5, 0)) as [_ Hb].
  - simpl. auto.
  - intros c' Hc'. simpl in Hc'.
    destruct Hc' as [<- | [<- | [<- | [<- | []]]]]; simpl; lia.
  - apply Hb. reflexivity.
Qed.

(** C7. For every four corners, the end finder returns two of the six
    point pairs; none of the four other pairs is shorter than either of
    them, in the computed distances and, for corners within [2 ^ 23]
    pixels, in the exact distances; and the two are in ascending tuple
    order. *)
Theorem find_table_ends_spec (c0 c1 c2 c3 : point) :
  let corners := [c0; c1; c2; c3] in
  let pairs := combinations corners in
  exists end1 end2 others,
    find_table_ends corners = [end1; end2]
    /\ Permutation (end1 :: end2 :: others) pairs
    /\ List.length pairs = 6%nat
    /\ (forall o, In o others ->
          PyFloat.leb (distance_between_points end1) (distance_between_points o) = true
          /\ PyFloat.leb (distance_between_points end2) (distance_between_points o) = true)
    /\ pair_le end1 end2
    /\ (Forall (point_within (2 ^ 23)) corners ->
        forall o, In o others ->
          squared_distance end1 <= squared_distance o
          /\ squared_distance end2 <= squared_distance o).
Proof.
  intros corners pairs.
  destruct (find_table_ends_smallest c0 c1 c2 c3)
    as (end1 & end2 & others & E & Hperm & Hlen & Hmin & Hle).
  fold corners in E, Hperm, Hlen. fold pairs in Hperm, Hlen.
  exists end1, end2, others.
  repeat (split; [assumption |]).
  intros Hw o Ho. rewrite Forall_forall in Hw.
  assert (Hsq : forall pq, In pq (end1 :: end2 :: others) -> squared_distance pq < 2 ^ 50).
  { intros [p q] Hpq. apply (Permutation_in _ Hperm) in Hpq.
    apply combinations_in in Hpq as [Hp' Hq']. cbn [fst snd] in *.
    apply squared_distance_within; apply Hw; assumption. }
  destruct (Hmin o Ho) as [H1 H2].
  split; apply leb_squared; try assumption; apply Hsq; simpl; auto.
Qed.

Lemma find_table_ends_spec_witness :
  let corners := [(0, 0); (0, 40); (100, 40); (100, 0)] in
  Forall (point_within (2 ^ 23)) corners
  /\ find_table_ends corners = [((0, 0), (0, 40)); ((100, 40), (100, 0))]
  /\ PyFloat.leb (distance_between_points ((0, 0), (0, 40)))
                 (distance_between_points ((0, 0), (100, 40))) = true
  /\ squared_distance ((0, 0), (0, 40)) <= squared_distance ((0, 0), (100, 40)).
Proof.
  intros corners.
  assert (Hw : Forall (point_within (2 ^ 23)) corners).
  { repeat constructor; vm_compute; intro; discriminate. }
  split; [exact Hw |].
  destruct (find_table_ends_spec (0, 0) (0, 40) (100, 40) (100, 0))
    as (end1 & end2 & others & E & Hperm & _ & Hmin & _ & Hx).
  assert (E' : find_table_ends corners
               = [((0, 0), (0, 40)); ((100, 40), (100, 0))])
    by (vm_compute; reflexivity).
  split; [exact E' |].
  pose proof (eq_trans (eq_sym E) E') as E2. injection E2 as -> ->.
  assert (Hin : In ((0, 0), (100, 40)) others).
  { assert (Hin : In ((0, 0), (100, 40))
                    (((0, 0), (0, 40)) :: ((100, 40), (100, 0)) :: others)).
    { apply (Permutation_in _ (Permutation_sym Hperm)). simpl. auto. }
    destruct Hin as [Hin | [Hin | Hin]];
      [discriminate Hin | discriminate Hin | exact Hin]. }
  split; [apply Hmin, Hin | apply (Hx Hw), Hin].
Defined.

(** * Further properties of the code *)

(** ** Order of the input *)

Section SortedUnique.
Context {A : Type}.
Variable lt : A -> A -> bool.
Hypothesis lt_asymmetric : forall a b, lt a b = true -> lt b a = false.
Hypothesis lt_transitive :
  forall a b c, not_after lt a b -> not_after lt b c -> not_after lt a c.
Hypothesis lt_antisymmetric : forall a b, not_after lt a b -> not_after lt b a -> a = b.

Lemma strongly_sorted_unique (l1 : list A) :
  forall l2,
    StronglySorted (not_after lt) l1 -> StronglySorted (not_after lt) l2 ->
    Permutation l1 l2 -> l1 = l2.
Proof.
  induction l1 as [| x l1 IH]; intros l2 H1 H2 HP.
  - apply Permutation_nil in HP. now subst.
  - destruct l2 as [| y l2].
    + apply Permutation_sym, Permutation_nil in HP. discriminate HP.
    + apply StronglySorted_inv in H1 as [H1 Hx].
      apply StronglySorted_inv in H2 as [H2 Hy].
      rewrite Forall_forall in Hx, Hy.
      assert (Exy : x = y).
      { assert (Hin1 : In y (x :: l1)).
        { apply (Permutation_in y (Permutation_sym HP)). now left. }
        assert (Hin2 : In x (y :: l2)).
        { apply (Permutation_in x HP). now left. }
        destruct Hin1 as [E | Hin1]; [exact E |].
        destruct Hin2 as [E | Hin2]; [now symmetry |].
        apply lt_antisymmetric; [apply Hx, Hin1 | apply Hy, Hin2]. }
      subst y. f_equal. apply IH; try assumption.
      apply (Permutation_cons_inv HP).
Qed.

Lemma sorted_permutation (l1 l2 : list A) :
  Permutation l1 l2 -> sorted lt l1 = sorted lt l2.
Proof.
  intros HP. apply strongly_sorted_unique.
  - apply (sorted_sorted lt (fun _ => True));
      [intros a b _ _; apply lt_asymmetric | intros a b c _ _ _; apply lt_transitive
      | apply Forall_forall; intros; exact I].
  - apply (sorted_sorted lt (fun _ => True));
      [intros a b _ _; apply lt_asymmetric | intros a b c _ _ _; apply lt_transitive
      | apply Forall_forall; intros; exact I].
  - rewrite (sorted_perm lt l1), (sorted_perm lt l2). exact HP.
Qed.
End SortedUnique.

Lemma point_not_after_antisym (a b : point) :
  not_after point_ltb a b -> not_after point_ltb b a -> a = b.
Proof.
  destruct a as [ax ay], b as [bx by_].
  unfold not_after, point_ltb. cbn [fst snd]. intros H1 H2.
  f_equal; lia.
Qed.

Lemma sorted_points_permutation (l1 l2 : list point) :
  Permutation l1 l2 -> sorted point_ltb l1 = sorted point_ltb l2.
Proof.
  apply sorted_permutation.
  - apply point_ltb_asym.
  - apply point_not_after_trans.
  - apply point_not_after_antisym.
Qed.

(** X1. The score does not depend on the order in which the points are
    given: [find_score] sorts them first. *)
Theorem find_score_permutation (points points' : list point) :
  Permutation points points' -> find_score points = find_score points'.
Proof.
  intros HP. unfold find_score.
  rewrite (sorted_points_permutation points points' HP). reflexivity.
Qed.

Lemma find_score_permutation_witness :
  find_score [(5, 0); (0, 0); (9, 0)] = find_score [(0, 0); (9, 0); (5, 0)].
Proof.
  apply find_score_permutation.
  apply perm_trans with (l' := [(0, 0); (5, 0); (9, 0)]).
  - apply perm_swap.
  - apply perm_skip, perm_swap.
Defined.

(** ** Too few points *)

(** X2. With fewer than two points there is no gap to average: the
    division by the number of gaps raises [ZeroDivisionError]. *)
Theorem find_score_too_few_points (points : list point) :
  (List.length points < 2)%nat ->
  find_score points = Raise (ZeroDivisionError "float division by zero").
Proof.
  intros Hlen. unfold find_score.
  pose proof (sorted_length point_ltb points) as E.
  destruct (sorted point_ltb points) as [| p [| q rest]].
  - reflexivity.
  - reflexivity.
  - rewrite <- E in Hlen. cbn [List.length] in Hlen. lia.
Qed.

Lemma find_score_too_few_points_witness :
  find_score [(3, 4)] = Raise (ZeroDivisionError "float division by zero").
Proof. apply find_score_too_few_points. cbn. lia. Defined.

(** ** Moving the points *)

Lemma ltb_shift (t a b : Z) : (a + t <? b + t) = (a <? b).
Proof.
  destruct (Z.ltb_spec a b), (Z.ltb_spec (a + t) (b + t)); lia || reflexivity.
Qed.

Lemma eqb_shift (t a b : Z) : (a + t =? b + t) = (a =? b).
Proof.
  destruct (Z.eqb_spec a b), (Z.eqb_spec (a + t) (b + t)); lia || reflexivity.
Qed.

Lemma point_ltb_shift (t a b : point) :
  point_ltb (add_point a t) (add_point b t) = point_ltb a b.
Proof.
  unfold point_ltb, add_point. cbn [fst snd].
  rewrite !ltb_shift, eqb_shift. reflexivity.
Qed.

Lemma sorted_shift (t : point) (l : list point) :
  sorted point_ltb (map (fun p => add_point p t) l)
  = map (fun p => add_point p t) (sorted point_ltb l).
Proof.
  apply sorted_map. intros x y _ _. apply point_ltb_shift.
Qed.

Lemma consecutive_map (f : point -> point) (l : list point) :
  consecutive (map f l) = map (fun pq => (f (fst pq), f (snd pq))) (consecutive l).
Proof.
  induction l as [| p rest IH]; [reflexivity |].
  destruct rest as [| q rest]; [reflexivity |].
  change (consecutive (p :: q :: rest)) with ((p, q) :: consecutive (q :: rest)).
  cbn [map] in IH |- *.
  change (consecutive (f p :: f q :: map f rest))
    with ((f p, f q) :: consecutive (f q :: map f rest)).
  rewrite IH. reflexivity.
Qed.

Lemma squared_distance_shift (t : point) (pq : point * point) :
  squared_distance (shift_pair t pq) = squared_distance pq.
Proof.
  destruct pq as [[px py] [qx qy]], t as [tx ty].
  unfold squared_distance, shift_pair, add_point. cbn [fst snd]. ring.
Qed.

Lemma distance_shift (t : point) (pq : point * point) :
  distance_between_points (shift_pair t pq) = distance_between_points pq.
Proof.
  rewrite !distance_squared, squared_distance_shift. reflexivity.
Qed.

Lemma consecutive_shift_distances (t : point) (l : list point) :
  map distance_between_points (consecutive (map (fun p => add_point p t) l))
  = map distance_between_points (consecutive l).
Proof.
  rewrite consecutive_map, map_map. apply map_ext.
  intros pq. apply (distance_shift t pq).
Qed.

Lemma find_score_moved (t : point) (points : list point) :
  find_score (map (fun p => add_point p t) points) = find_score points.
Proof.
  unfold find_score. rewrite sorted_shift.
  unfold average_distance_between_score_dots.
  rewrite consecutive_shift_distances.
  destruct (map distance_between_points (consecutive (sorted point_ltb points)))
    as [| g gs] eqn:E; [reflexivity |].
  cbn [bind]. f_equal.
  rewrite !walk_leading_steps, consecutive_shift_distances. reflexivity.
Qed.

(** X3. Moving all points by the same vector leaves the score unchanged:
    the order of the points and the distances between neighbours are
    the same. *)
Theorem find_score_shift (t : point) (points : list point) :
  find_score (map (fun p => add_point p t) points) = find_score points.
Proof. exact (find_score_moved t points). Qed.

(** ** Components of the dot counter *)

(** X4. The dot counter only looks at the components whose area is within
    the bounds: dropping all the others beforehand gives the same
    result, whether a score or an error. *)
Theorem find_score_from_image_ignores_noise (slices : list (pyslice * pyslice)) :
  find_score_from_image (filter area_in_bounds slices) = find_score_from_image slices.
Proof.
  unfold find_score_from_image.
  rewrite !collect_objects_filter. cbn [app].
  replace (filter area_in_bounds (filter area_in_bounds slices))
    with (filter area_in_bounds slices); [reflexivity |].
  induction slices as [| s rest IH]; [reflexivity |].
  cbn [filter]. destruct (area_in_bounds s) eqn:E; [| exact IH].
  cbn [filter]. rewrite E. f_equal. exact IH.
Qed.

(** X5. The result does not depend on the order in which the components
    are listed. *)
Theorem find_score_from_image_permutation (slices slices' : list (pyslice * pyslice)) :
  Permutation slices slices' ->
  find_score_from_image slices = find_score_from_image slices'.
Proof.
  intros HP. unfold find_score_from_image.
  rewrite !collect_objects_filter. cbn [app].
  assert (HP' : Permutation (map bbox_center (filter area_in_bounds slices))
                            (map bbox_center (filter area_in_bounds slices'))).
  { apply Permutation_map.
    induction HP as [| s l l' HP IH | s s' l | l l' l'' _ IH1 _ IH2].
    - constructor.
    - cbn [filter]. destruct (area_in_bounds s); [apply perm_skip |]; exact IH.
    - cbn [filter]. destruct (area_in_bounds s), (area_in_bounds s');
        try apply perm_swap; try apply Permutation_refl.
    - exact (perm_trans IH1 IH2). }
  rewrite (Permutation_length HP'). unfold find_score.
  rewrite (sorted_points_permutation _ _ HP'). reflexivity.
Qed.

Lemma find_score_from_image_permutation_witness :
  find_score_from_image [blob 0; blob 10] = find_score_from_image [blob 10; blob 0].
Proof. apply find_score_from_image_permutation. apply perm_swap. Defined.

Lemma area_in_bounds_shift (t : point) (s : pyslice * pyslice) :
  area_in_bounds (shift_slice t s) = area_in_bounds s.
Proof.
  unfold area_in_bounds, bbox_area, bbox_width, bbox_height, shift_slice.
  cbn [fst snd start stop].
  replace (stop (snd s) + fst t - (start (snd s) + fst t))
    with (stop (snd s) - start (snd s)) by ring.
  replace (stop (fst s) + snd t - (start (fst s) + snd t))
    with (stop (fst s) - start (fst s)) by ring.
  reflexivity.
Qed.

Lemma bbox_center_shift (t : point) (s : pyslice * pyslice) :
  bbox_center (shift_slice t s) = add_point (bbox_center s) t.
Proof.
  unfold bbox_center, shift_slice, add_point. cbn [fst snd start stop].
  f_equal.
  - rewrite <- Z.div_add by lia. f_equal. ring.
  - rewrite <- Z.div_add by lia. f_equal. ring.
Qed.

Lemma filter_map_shift (t : point) (slices : list (pyslice * pyslice)) :
  map bbox_center (filter area_in_bounds (map (shift_slice t) slices))
  = map (fun p => add_point p t) (map bbox_center (filter area_in_bounds slices)).
Proof.
  induction slices as [| s rest IH]; [reflexivity |].
  cbn [map filter]. rewrite area_in_bounds_shift.
  destruct (area_in_bounds s); [| exact IH].
  cbn [map]. rewrite bbox_center_shift, IH. reflexivity.
Qed.

(** X6. Moving all components by the same offset leaves the result
    unchanged: areas are the same and the centres move by the offset. *)
Theorem find_score_from_image_shift (t : point) (slices : list (pyslice * pyslice)) :
  find_score_from_image (map (shift_slice t) slices) = find_score_from_image slices.
Proof.
  unfold find_score_from_image.
  rewrite !collect_objects_filter. cbn [app].
  rewrite filter_map_shift, length_map, find_score_moved. reflexivity.
Qed.

(** ** Distances *)

Lemma distance_sign (p : point * point) :
  match distance_between_points p with
  | S754_nan => False
  | S754_zero s | S754_infinity s | S754_finite s _ _ => s = false
  end.
Proof.
  rewrite distance_squared.
  pose proof (Rounding.of_int_number (squared_distance p) (squared_distance_nonneg p)) as H.
  destruct (PyFloat.of_int (squared_distance p)) as [s | s | | s m e];
    try contradiction; subst s; try reflexivity.
  unfold PyFloat.sqrt, SFsqrt.
  destruct (SFsqrt_core_binary PyFloat.prec PyFloat.emax (Z.pos m) e)
    as [[mz ez] lz] eqn:E.
  assert (Hmz : 0 <= mz).
  { unfold SFsqrt_core_binary in E.
    match type of E with
    | context [Z.sqrtrem ?a] =>
        pose proof (Z.sqrtrem_sqrt a) as Hq; destruct (Z.sqrtrem a) as [q r]
    end.
    injection E as <- _ _. simpl in Hq. subst q. apply Z.sqrt_nonneg. }
  exact (Rounding.binary_round_aux_number false mz ez lz Hmz).
Qed.

Lemma add_zero_distance (p : point * point) :
  PyFloat.add (PyFloat.of_int 0) (distance_between_points p) = distance_between_points p.
Proof.
  pose proof (distance_sign p) as H.
  change (PyFloat.of_int 0) with (S754_zero false).
  destruct (distance_between_points p) as [s | s | | s m e];
    try contradiction; try subst s; reflexivity.
Qed.

(** X7. For three points [a], [b] and [c], the average is the sum of the
    two distances divided by two, as the docstring says. *)
Theorem average_distance_of_three (a b c : point) :
  average_distance_between_score_dots [a; b; c]
  = Ok (PyFloat.div (PyFloat.add (distance_between_points (a, b))
                                 (distance_between_points (b, c)))
                    (PyFloat.of_int 2)).
Proof.
  unfold average_distance_between_score_dots.
  cbn [consecutive map fold_left List.length].
  rewrite add_zero_distance. reflexivity.
Qed.

(** X8. When the squared distance is a perfect square [d * d], as between
    two points on a horizontal or vertical line or across a Pythagorean
    triangle, the distance is exactly [d]. *)
Theorem distance_exact (p q : point) (d : Z) :
  0 <= d -> d * d < 2 ^ 53 -> squared_distance (p, q) = d * d ->
  distance_between_points (p, q) = PyFloat.of_int d.
Proof.
  intros Hd Hdd E. rewrite distance_squared, E.
  destruct (Z.eq_dec d 0) as [-> | Hne].
  - reflexivity.
  - apply Exact.sqrt_exact; lia.
Qed.

Lemma distance_exact_witness :
  distance_between_points ((1, 2), (4, 6)) = PyFloat.of_int 5.
Proof. apply distance_exact; [lia | reflexivity | reflexivity]. Defined.

(** ** Too few corners *)

Lemma sorted_shape (l : list point) :
  match sorted point_ltb l, l with
  | [], [] => True
  | [_], [_] => True
  | [_; _], [_; _] => True
  | _ :: _ :: _ :: _, _ :: _ :: _ :: _ => True
  | _, _ => False
  end.
Proof.
  pose proof (sorted_length point_ltb l) as H.
  destruct (sorted point_ltb l) as [| a [| b [| c s]]], l as [| a' [| b' [| c' l]]];
    try discriminate H; exact I.
Qed.

Lemma find_crop_corners_short (box : list point) :
  (List.length box < 3)%nat ->
  exists msg, find_crop_corners box = Raise (ValueError msg).
Proof.
  intros Hlen. unfold find_crop_corners.
  pose proof (sorted_shape box) as Hs.
  destruct (sorted point_ltb box) as [| a [| b [| c s]]].
  - eexists. reflexivity.
  - eexists. reflexivity.
  - eexists. reflexivity.
  - destruct box as [| a' [| b' [| c' l]]]; try contradiction.
    cbn [List.length] in Hlen. lia.
Qed.

(** X9. A box of fewer than three points has no right-hand points (or no
    points at all), and [min] or [max] raises. *)
Theorem find_crop_corners_too_few (box : list point) :
  (List.length box < 3)%nat ->
  exists msg, find_crop_corners box = Raise (ValueError msg).
Proof. exact (find_crop_corners_short box). Qed.

Lemma find_crop_corners_too_few_witness :
  exists msg, find_crop_corners [(0, 0); (4, 3)] = Raise (ValueError msg).
Proof. apply find_crop_corners_too_few. cbn. lia. Defined.

(** X10. With fewer than three corners one of the indexed elements is
    missing. *)
Theorem find_lower_long_side_too_few (corners : list point) :
  (List.length corners < 3)%nat ->
  find_lower_long_side corners = Raise (IndexError "list index out of range").
Proof.
  intros Hlen. unfold find_lower_long_side.
  pose proof (sorted_length point_ltb (map flip corners)) as H.
  rewrite length_map in H.
  destruct (sorted point_ltb (map flip corners)) as [| a [| b [| c s]]].
  - reflexivity.
  - reflexivity.
  - reflexivity.
  - cbn [List.length] in H. lia.
Qed.

Lemma find_lower_long_side_too_few_witness :
  find_lower_long_side [(0, 0); (4, 3)] = Raise (IndexError "list index out of range").
Proof. apply find_lower_long_side_too_few. cbn. lia. Defined.

(** X11. With fewer than three corners there are fewer than two pairs of
    corners, and unpacking the two table ends raises. *)
Theorem find_score_boxes_too_few (corners : list point) :
  (List.length corners < 3)%nat ->
  exists msg, find_score_boxes corners = Raise (ValueError msg).
Proof.
  intros Hlen.
  destruct corners as [| a [| b [| c l]]].
  - eexists. reflexivity.
  - eexists. reflexivity.
  - eexists. reflexivity.
  - cbn [List.length] in Hlen. lia.
Qed.

Lemma find_score_boxes_too_few_witness :
  exists msg, find_score_boxes [(0, 0); (4, 3)] = Raise (ValueError msg).
Proof. apply find_score_boxes_too_few. cbn. lia. Defined.

(** ** Order of the corners *)

(** X12. The crop corners do not depend on the order of the box's
    points. *)
Theorem find_crop_corners_permutation (box box' : list point) :
  Permutation box box' -> find_crop_corners box = find_crop_corners box'.
Proof.
  intros HP. unfold find_crop_corners.
  rewrite (sorted_points_permutation box box' HP). reflexivity.
Qed.

Lemma find_crop_corners_permutation_witness :
  find_crop_corners [(0, 0); (4, 3); (4, 0)] = find_crop_corners [(4, 3); (0, 0); (4, 0)].
Proof. apply find_crop_corners_permutation. apply perm_swap. Defined.

(** X13. The lower long side does not depend on the order of the
    corners. *)
Theorem find_lower_long_side_permutation (corners corners' : list point) :
  Permutation corners corners' ->
  find_lower_long_side corners = find_lower_long_side corners'.
Proof.
  intros HP. unfold find_lower_long_side.
  rewrite (sorted_points_permutation (map flip corners) (map flip corners')
             (Permutation_map flip HP)).
  reflexivity.
Qed.

Lemma find_lower_long_side_permutation_witness :
  find_lower_long_side [(0, 0); (4, 3); (4, 0)]
  = find_lower_long_side [(4, 3); (0, 0); (4, 0)].
Proof. apply find_lower_long_side_permutation. apply perm_swap. Defined.

(** ** Which corners are returned *)

Lemma py_min_from_in {A : Type} (lt : A -> A -> bool) (l : list A) :
  forall m, In (py_min_from lt m l) (m :: l).
Proof.
  induction l as [| x l IH]; intros m; cbn [py_min_from].
  - now left.
  - destruct (IH (if lt x m then x else m)) as [E | Hin].
    + rewrite <- E. destruct (lt x m); [right; left | left]; reflexivity.
    + right. right. exact Hin.
Qed.

Lemma py_max_from_in {A : Type} (lt : A -> A -> bool) (l : list A) :
  forall m, In (py_max_from lt m l) (m :: l).
Proof.
  induction l as [| x l IH]; intros m; cbn [py_max_from].
  - now left.
  - destruct (IH (if lt m x then x else m)) as [E | Hin].
    + rewrite <- E. destruct (lt m x); [right; left | left]; reflexivity.
    + right. right. exact Hin.
Qed.

Lemma py_min_in {A : Type} (lt : A -> A -> bool) (l : list A) (m : A) :
  py_min lt l = Ok m -> In m l.
Proof.
  destruct l as [| x l]; cbn [py_min]; intros H; [discriminate H |].
  injection H as <-. apply py_min_from_in.
Qed.

Lemma py_max_in {A : Type} (lt : A -> A -> bool) (l : list A) (m : A) :
  py_max lt l = Ok m -> In m l.
Proof.
  destruct l as [| x l]; cbn [py_max]; intros H; [discriminate H |].
  injection H as <-. apply py_max_from_in.
Qed.

Lemma in_map_flip (p : point) (l : list point) : In p (map flip l) -> In (flip p) l.
Proof.
  intros H. apply in_map_iff in H as [q [<- Hq]]. rewrite flip_flip. exact Hq.
Qed.

(** X14. With three points or more, the two crop corners are points of the
    box: the first is one of the two leftmost, the second one of the
    others, so that it is never to the left of the first. *)
Theorem find_crop_corners_members (box : list point) :
  (3 <= List.length box)%nat ->
  exists tl br,
    find_crop_corners box = Ok (tl, br)
    /\ In tl box /\ In br box /\ fst tl <= fst br.
Proof.
  intros Hlen. unfold find_crop_corners.
  pose proof (sorted_length point_ltb box) as Hl.
  pose proof (sorted_points_sorted box) as Hs.
  pose proof (sorted_in point_ltb box) as Hin.
  set (s := sorted point_ltb box) in *.
  rewrite <- (firstn_skipn 2 s) in Hs.
  destruct (py_min point_ltb (map flip (firstn 2 s))) as [tl | e] eqn:Etl.
  - destruct (py_max point_ltb (map flip (skipn 2 s))) as [br | e] eqn:Ebr.
    + apply py_min_in, in_map_flip in Etl. apply py_max_in, in_map_flip in Ebr.
      exists (flip tl), (flip br). cbn [bind]. split; [reflexivity |].
      split; [| split].
      * apply Hin. eapply in_firstn, Etl.
      * apply Hin. eapply in_skipn, Ebr.
      * pose proof (strongly_sorted_app _ _ _ Hs _ _ Etl Ebr) as Hle.
        unfold point_le in Hle. lia.
    + destruct s as [| a [| b [| c s']]]; cbn [List.length] in Hl; try lia.
      discriminate Ebr.
  - destruct s as [| a [| b [| c s']]]; cbn [List.length] in Hl; try lia.
    discriminate Etl.
Qed.

Lemma find_crop_corners_members_witness :
  exists tl br,
    find_crop_corners [(0, 5); (4, 3); (4, 0)] = Ok (tl, br)
    /\ In tl [(0, 5); (4, 3); (4, 0)] /\ In br [(0, 5); (4, 3); (4, 0)]
    /\ fst tl <= fst br.
Proof. apply find_crop_corners_members. cbn. lia. Defined.

(** ** Axis-aligned rectangles *)

Lemma rectangle_sorted (x1 y1 x2 y2 : Z) (corners : list point) :
  x1 < x2 -> y1 < y2 -> Permutation corners (rectangle x1 y1 x2 y2) ->
  sorted point_ltb corners = [(x1, y1); (x1, y2); (x2, y1); (x2, y2)].
Proof.
  intros Hx Hy HP.
  rewrite (sorted_points_permutation corners [(x1, y1); (x1, y2); (x2, y1); (x2, y2)]).
  - apply sorted_id.
    unfold not_after, point_ltb.
    repeat first [apply SSorted_nil | apply Forall_nil | apply SSorted_cons
                 | apply Forall_cons]; cbn [fst snd]; lia.
  - apply (perm_trans HP). unfold rectangle.
    do 2 apply perm_skip. apply perm_swap.
Qed.

Lemma rectangle_sorted_by_y (x1 y1 x2 y2 : Z) (corners : list point) :
  x1 < x2 -> y1 < y2 -> Permutation corners (rectangle x1 y1 x2 y2) ->
  sorted point_ltb (map flip corners) = [(y1, x1); (y1, x2); (y2, x1); (y2, x2)].
Proof.
  intros Hx Hy HP.
  rewrite (sorted_points_permutation (map flip corners)
             [(y1, x1); (y1, x2); (y2, x1); (y2, x2)]).
  - apply sorted_id.
    unfold not_after, point_ltb.
    repeat first [apply SSorted_nil | apply Forall_nil | apply SSorted_cons
                 | apply Forall_cons]; cbn [fst snd]; lia.
  - apply (perm_trans (Permutation_map flip HP)). unfold rectangle, flip.
    cbn [map fst snd].
    apply perm_skip.
    apply perm_trans with (l' := [(y2, x2); (y1, x2); (y2, x1)]).
    + apply perm_trans with (l' := [(y2, x2); (y2, x1); (y1, x2)]).
      * apply perm_swap.
      * apply perm_skip, perm_swap.
    + apply perm_trans with (l' := [(y1, x2); (y2, x2); (y2, x1)]).
      * apply perm_swap.
      * apply perm_skip, perm_swap.
Qed.

Lemma crop_corners_of_rectangle (x1 y1 x2 y2 : Z) (corners : list point) :
  x1 < x2 -> y1 < y2 -> Permutation corners (rectangle x1 y1 x2 y2) ->
  find_crop_corners corners = Ok ((x1, y1), (x2, y2)).
Proof.
  intros Hx Hy HP. unfold find_crop_corners.
  rewrite (rectangle_sorted x1 y1 x2 y2 corners Hx Hy HP).
  cbn [firstn skipn map py_min py_max py_min_from py_max_from].
  unfold point_ltb, flip. cbn [fst snd bind].
  replace (y2 <? y1) with false by (symmetry; apply Z.ltb_ge; lia).
  replace (y1 <? y2) with true by (symmetry; apply Z.ltb_lt; lia).
  replace (y2 =? y1) with false by (symmetry; apply Z.eqb_neq; lia).
  reflexivity.
Qed.

(** X15. For the four corners of an axis-aligned rectangle, in any order,
    the crop corners are its top left and bottom right corners. *)
Theorem find_crop_corners_rectangle (x1 y1 x2 y2 : Z) (corners : list point) :
  x1 < x2 -> y1 < y2 -> Permutation corners (rectangle x1 y1 x2 y2) ->
  find_crop_corners corners = Ok ((x1, y1), (x2, y2)).
Proof. exact (crop_corners_of_rectangle x1 y1 x2 y2 corners). Qed.

Lemma find_crop_corners_rectangle_witness :
  find_crop_corners [(7, 2); (1, 5); (1, 2); (7, 5)] = Ok ((1, 2), (7, 5)).
Proof.
  apply find_crop_corners_rectangle; [lia | lia |].
  unfold rectangle.
  apply perm_trans with (l' := [(1, 2); (1, 5); (7, 2); (7, 5)]).
  - apply perm_trans with (l' := [(1, 5); (7, 2); (1, 2); (7, 5)]).
    + apply perm_swap.
    + apply perm_trans with (l' := [(1, 5); (1, 2); (7, 2); (7, 5)]).
      * apply perm_skip, perm_swap.
      * apply perm_swap.
  - do 2 apply perm_skip. apply perm_swap.
Defined.

(** X16. For the four corners of an axis-aligned rectangle, in any order,
    the lower long side starts at the bottom right corner; it is the
    bottom side when the rectangle is at least as wide as high, and the
    right side when it is higher than wide. *)
Theorem find_lower_long_side_rectangle (x1 y1 x2 y2 : Z) (corners : list point) :
  x1 < x2 -> y1 < y2 -> x2 - x1 < 2 ^ 24 -> y2 - y1 < 2 ^ 24 ->
  Permutation corners (rectangle x1 y1 x2 y2) ->
  find_lower_long_side corners
  = Ok ((x2, y2), if x2 - x1 <? y2 - y1 then (x2, y1) else (x1, y2)).
Proof.
  intros Hx Hy Hw Hh HP. unfold find_lower_long_side.
  rewrite (rectangle_sorted_by_y x1 y1 x2 y2 corners Hx Hy HP).
  change (py_index [(y1, x1); (y1, x2); (y2, x1); (y2, x2)] (-1)) with (Ok (y2, x2)).
  change (py_index [(y1, x1); (y1, x2); (y2, x1); (y2, x2)] 1) with (Ok (y1, x2)).
  change (py_index [(y1, x1); (y1, x2); (y2, x1); (y2, x2)] 2) with (Ok (y2, x1)).
  cbn [bind]. unfold PyFloat.gtb.
  assert (E24 : 2 ^ 24 = 16777216) by reflexivity.
  assert (E50 : 2 ^ 50 = 1125899906842624) by reflexivity.
  assert (Hb : forall d, 0 < d < 2 ^ 24 -> d * d < 2 ^ 50).
  { intros d Hd. rewrite E50.
    assert (d * d <= 16777216 * 16777216) by (apply Z.mul_le_mono_nonneg; lia).
    lia. }
  pose proof (Hb (x2 - x1) ltac:(lia)) as Hww.
  pose proof (Hb (y2 - y1) ltac:(lia)) as Hhh.
  rewrite distance_ltb_squared.
  - unfold squared_distance, flip. cbn [fst snd].
    replace ((y2 - y2) ^ 2 + (x1 - x2) ^ 2) with ((x2 - x1) * (x2 - x1)) by ring.
    replace ((y1 - y2) ^ 2 + (x2 - x2) ^ 2) with ((y2 - y1) * (y2 - y1)) by ring.
    f_equal. f_equal.
    destruct (Z.ltb_spec (x2 - x1) (y2 - y1)) as [Hlt | Hge].
    + replace ((x2 - x1) * (x2 - x1) <? (y2 - y1) * (y2 - y1)) with true; [reflexivity |].
      symmetry. apply Z.ltb_lt. apply Z.mul_lt_mono_nonneg; lia.
    + replace ((x2 - x1) * (x2 - x1) <? (y2 - y1) * (y2 - y1)) with false; [reflexivity |].
      symmetry. apply Z.ltb_ge. apply Z.mul_le_mono_nonneg; lia.
  - unfold squared_distance. cbn [fst snd].
    replace ((y2 - y2) ^ 2 + (x1 - x2) ^ 2) with ((x2 - x1) * (x2 - x1)) by ring.
    exact Hww.
  - unfold squared_distance. cbn [fst snd].
    replace ((y1 - y2) ^ 2 + (x2 - x2) ^ 2) with ((y2 - y1) * (y2 - y1)) by ring.
    exact Hhh.
Qed.

Lemma find_lower_long_side_rectangle_witness :
  find_lower_long_side [(1, 2); (1, 5); (7, 5); (7, 2)]
  = Ok ((7, 5), if 7 - 1 <? 5 - 2 then (7, 2) else (1, 5)).
Proof.
  apply (find_lower_long_side_rectangle 1 2 7 5); try lia.
  apply Permutation_refl.
Defined.

(** ** Moving the corners *)

Lemma combinations_shift (t : point) (l : list point) :
  combinations (map (fun p => add_point p t) l) = map (shift_pair t) (combinations l).
Proof.
  induction l as [| p l IH]; cbn [map combinations].
  - reflexivity.
  - rewrite map_app, IH, !map_map. reflexivity.
Qed.

Lemma point_eqb_shift (t a b : point) :
  point_eqb (add_point a t) (add_point b t) = point_eqb a b.
Proof.
  unfold point_eqb, add_point. cbn [fst snd]. rewrite !eqb_shift. reflexivity.
Qed.

Lemma pair_ltb_shift (t : point) (a b : point * point) :
  pair_ltb (shift_pair t a) (shift_pair t b) = pair_ltb a b.
Proof.
  unfold pair_ltb, shift_pair. cbn [fst snd].
  rewrite !point_ltb_shift, point_eqb_shift. reflexivity.
Qed.

Lemma table_ends_moved (t : point) (corners : list point) :
  find_table_ends (map (fun p => add_point p t) corners)
  = map (shift_pair t) (find_table_ends corners).
Proof.
  unfold find_table_ends, nsmallest.
  rewrite combinations_shift, map_map.
  set (G := fun d : PyFloat.float * (point * point) => (fst d, shift_pair t (snd d))).
  replace (map (fun x => (distance_between_points (shift_pair t x), shift_pair t x))
             (combinations corners))
    with (map G (map (fun a => (distance_between_points a, a)) (combinations corners))).
  - rewrite (sorted_map G key_ltb key_ltb) by (intros x y _ _; reflexivity).
    rewrite firstn_map, map_map.
    replace (map (fun x => snd (G x))
               (firstn 2 (sorted key_ltb
                            (map (fun a => (distance_between_points a, a))
                               (combinations corners)))))
      with (map (shift_pair t)
              (map snd (firstn 2 (sorted key_ltb
                                    (map (fun a => (distance_between_points a, a))
                                       (combinations corners))))))
      by (rewrite map_map; reflexivity).
    apply sorted_map. intros x y _ _. apply pair_ltb_shift.
  - rewrite map_map. apply map_ext. intros a. unfold G. cbn [fst snd].
    rewrite distance_shift. reflexivity.
Qed.

(** X17. Moving all corners by the same vector moves the table ends by
    that vector. *)
Theorem find_table_ends_shift (t : point) (corners : list point) :
  find_table_ends (map (fun p => add_point p t) corners)
  = map (shift_pair t) (find_table_ends corners).
Proof. exact (table_ends_moved t corners). Qed.

Lemma middle_point_shift (t p q : point) :
  middle_point (add_point p t) (add_point q t) = add_point (middle_point p q) t.
Proof.
  unfold middle_point, add_point. cbn [fst snd]. f_equal.
  - rewrite <- Z.div_add by lia. f_equal. ring.
  - rewrite <- Z.div_add by lia. f_equal. ring.
Qed.

Lemma calculate_coordinate_addition_shift (t m1 m2 : point) (c : PyFloat.float) :
  calculate_coordinate_addition (add_point m1 t) (add_point m2 t) c
  = calculate_coordinate_addition m1 m2 c.
Proof.
  unfold calculate_coordinate_addition, add_point. cbn [fst snd].
  replace (fst m2 + fst t - (fst m1 + fst t)) with (fst m2 - fst m1) by ring.
  replace (snd m2 + snd t - (snd m1 + snd t)) with (snd m2 - snd m1) by ring.
  reflexivity.
Qed.

Lemma add_point_shift (t p d : point) :
  add_point (add_point p t) d = add_point (add_point p d) t.
Proof. unfold add_point. cbn [fst snd]. f_equal; ring. Qed.

Lemma table_end_middles_shift (t : point) (e : point * point) :
  table_end_middles (shift_pair t e)
  = ('(m, a, b) <- table_end_middles e ;;
     Ok (add_point m t, add_point a t, add_point b t)).
Proof.
  unfold table_end_middles, shift_pair. cbn [fst snd].
  set (m := middle_point (fst e) (snd e)).
  rewrite (middle_point_shift t (fst e) (snd e)). fold m.
  rewrite (middle_point_shift t (fst e) m), (middle_point_shift t (snd e) m).
  set (a0 := middle_point (fst e) m). set (b0 := middle_point (snd e) m).
  rewrite (calculate_coordinate_addition_shift t a0 m),
    (calculate_coordinate_addition_shift t b0 m).
  destruct (calculate_coordinate_addition a0 m SCORE_TO_MIDDLE_MARGIN) as [add1 | e1];
    [| reflexivity].
  cbn [bind].
  destruct (calculate_coordinate_addition b0 m SCORE_TO_MIDDLE_MARGIN) as [add2 | e2];
    [| reflexivity].
  cbn [bind]. rewrite (add_point_shift t a0 add1), (add_point_shift t b0 add2).
  reflexivity.
Qed.

(** X18. Moving all corners by the same vector moves the two score boxes
    by that vector, exactly; an error stays the same error. *)
Theorem find_score_boxes_shift (t : point) (corners : list point) :
  find_score_boxes (map (fun p => add_point p t) corners)
  = ('(box1, box2) <- find_score_boxes corners ;;
     Ok (map (fun p => add_point p t) box1, map (fun p => add_point p t) box2)).
Proof.
  unfold find_score_boxes. rewrite table_ends_moved.
  destruct (find_table_ends corners) as [| end1 [| end2 [| end3 l]]];
    [reflexivity | reflexivity | | reflexivity].
  cbn [map]. rewrite (table_end_middles_shift t end1), (table_end_middles_shift t end2).
  destruct (table_end_middles end1) as [[[m1 a1] b1] | e]; [| reflexivity].
  cbn [bind].
  destruct (table_end_middles end2) as [[[m2 a2] b2] | e]; [| reflexivity].
  cbn [bind].
  rewrite !(calculate_coordinate_addition_shift t m1 m2),
    !(calculate_coordinate_addition_shift t m2 m1).
  destruct (calculate_coordinate_addition m1 m2 SCORE_INNER_MARGIN) as [o1 | e];
    [| reflexivity].
  cbn [bind].
  destruct (calculate_coordinate_addition m2 m1 SCORE_INNER_MARGIN) as [o2 | e];
    [| reflexivity].
  cbn [bind].
  destruct (calculate_coordinate_addition m1 m2 SCORE_BLOCK_LENGTH) as [l1 | e];
    [| reflexivity].
  cbn [bind].
  destruct (calculate_coordinate_addition m2 m1 SCORE_BLOCK_LENGTH) as [l2 | e];
    [| reflexivity].
  cbn [bind]. unfold calculate_score_box. cbn [map].
  rewrite (add_point_shift t a1 o1), (add_point_shift t b1 o1),
    (add_point_shift t a2 o2), (add_point_shift t b2 o2).
  rewrite (add_point_shift t (add_point a1 o1) l1), (add_point_shift t (add_point b1 o1) l1),
    (add_point_shift t (add_point a2 o2) l2), (add_point_shift t (add_point b2 o2) l2).
  reflexivity.
Qed.

(** ** Opposite directions *)

Lemma round_aux_negb (s : bool) (m e : Z) (l : location) :
  binary_round_aux PyFloat.prec PyFloat.emax (negb s) m e l
  = SFopp (binary_round_aux PyFloat.prec PyFloat.emax s m e l).
Proof.
  destruct s; cbn [negb].
  - rewrite Products.binary_round_aux_opp.
    destruct (binary_round_aux PyFloat.prec PyFloat.emax false m e l) as [s | s | | s m' e'];
      cbn [SFopp]; rewrite ?negb_involutive; reflexivity.
  - apply Products.binary_round_aux_opp.
Qed.

Lemma mul_opp_l (x y : PyFloat.float) :
  PyFloat.mul (SFopp x) y = SFopp (PyFloat.mul x y).
Proof.
  unfold PyFloat.mul.
  destruct x as [sx | sx | | sx mx ex], y as [sy | sy | | sy my ey];
    cbn [SFmul SFopp]; try reflexivity;
    try (destruct sx, sy; reflexivity).
  replace (xorb (negb sx) sy) with (negb (xorb sx sy)) by (destruct sx, sy; reflexivity).
  apply round_aux_negb.
Qed.

Lemma to_int_opp_result (x : PyFloat.float) :
  PyFloat.to_int (SFopp x) = (t <- PyFloat.to_int x ;; Ok (- t)).
Proof.
  destruct x as [s | s | | s m e]; cbn [PyFloat.to_int SFopp bind]; try reflexivity.
  f_equal. destruct s; cbn [negb]; lia.
Qed.

Lemma to_int_mul_opp (n : Z) (c : PyFloat.float) :
  PyFloat.to_int (PyFloat.mul (PyFloat.of_int (- n)) c)
  = (t <- PyFloat.to_int (PyFloat.mul (PyFloat.of_int n) c) ;; Ok (- t)).
Proof.
  destruct n as [| p | p].
  - change (- 0) with 0. change (PyFloat.of_int 0) with (S754_zero false).
    destruct c as [s | s | | s m e]; reflexivity.
  - change (- Zpos p) with (Zneg p).
    rewrite Products.of_int_neg, mul_opp_l. apply to_int_opp_result.
  - change (- Zneg p) with (Zpos p).
    rewrite (Products.of_int_neg p), mul_opp_l, to_int_opp_result.
    destruct (PyFloat.to_int (PyFloat.mul (PyFloat.of_int (Zpos p)) c)) as [t | e];
      cbn [bind]; [| reflexivity].
    f_equal. lia.
Qed.

Lemma coordinate_addition_opposite (m1 m2 : point) (c : PyFloat.float) :
  calculate_coordinate_addition m2 m1 c
  = (d <- calculate_coordinate_addition m1 m2 c ;; Ok (neg_point d)).
Proof.
  unfold calculate_coordinate_addition.
  replace (fst m1 - fst m2) with (- (fst m2 - fst m1)) by ring.
  replace (snd m1 - snd m2) with (- (snd m2 - snd m1)) by ring.
  rewrite (to_int_mul_opp (fst m2 - fst m1) c), (to_int_mul_opp (snd m2 - snd m1) c).
  destruct (PyFloat.to_int (PyFloat.mul (PyFloat.of_int (fst m2 - fst m1)) c)) as [dx | e];
    cbn [bind]; [| reflexivity].
  destruct (PyFloat.to_int (PyFloat.mul (PyFloat.of_int (snd m2 - snd m1)) c)) as [dy | e];
    cbn [bind]; reflexivity.
Qed.

(** X19. The addition from [middle2] to [middle1] is the exact opposite of
    the addition from [middle1] to [middle2], for every percentage:
    truncation toward zero commutes with the change of sign. *)
Theorem calculate_coordinate_addition_opposite (m1 m2 : point) (c : PyFloat.float) :
  calculate_coordinate_addition m2 m1 c
  = (d <- calculate_coordinate_addition m1 m2 c ;; Ok (neg_point d)).
Proof. exact (coordinate_addition_opposite m1 m2 c). Qed.

(** ** Truncation *)

Lemma to_int_mul_truncated (c : PyFloat.float) (num den n : Z) :
  nearest_fraction c num den -> - 2 ^ 31 < n < 2 ^ 31 ->
  exists t,
    PyFloat.to_int (PyFloat.mul (PyFloat.of_int n) c) = Ok t
    /\ truncated num den n t.
Proof.
  intros Hc Hn. unfold truncated.
  assert (Hden : 0 < den) by (destruct Hc as (mc & ec & _ & _ & _ & _ & Hden & _); lia).
  destruct n as [| p | p].
  - change (PyFloat.of_int 0) with (S754_zero false).
    destruct Hc as (mc & ec & -> & _).
    exists 0. split; [reflexivity | lia].
  - destruct (Products.to_int_mul_pos c num den (Zpos p) Hc) as (t & Et & Ht); [lia |].
    exists t. split; [exact Et |]. split; [| lia].
    intros _. split; [| exact Ht].
    destruct Hc as (mc & ec & _ & _ & _ & Hnum & _).
    assert (0 < num * Zpos p) by (apply Z.mul_pos_pos; lia).
    assert (- den < den * t) by lia.
    destruct (Z_lt_le_dec t 0) as [Hneg | Hpos]; [| exact Hpos].
    assert (den * t <= den * (-1)) by (apply Z.mul_le_mono_nonneg_l; lia).
    lia.
  - destruct (Products.to_int_mul_pos c num den (Zpos p) Hc) as (t & Et & Ht); [lia |].
    change (Zneg p) with (- Zpos p).
    rewrite to_int_mul_opp, Et. cbn [bind].
    exists (- t). split; [reflexivity |]. split; [lia |].
    intros _.
    destruct Hc as (mc & ec & _ & _ & _ & Hnum & _).
    assert (0 < num * Zpos p) by (apply Z.mul_pos_pos; lia).
    assert (0 <= t).
    { destruct (Z_lt_le_dec t 0) as [Hneg | Hpos]; [| exact Hpos].
      assert (den * t <= den * (-1)) by (apply Z.mul_le_mono_nonneg_l; lia).
      lia. }
    replace (num * - Zpos p) with (- (num * Zpos p)) by ring.
    replace (den * - t) with (- (den * t)) by ring.
    lia.
Qed.

Lemma coordinate_addition_truncated
  (c : PyFloat.float) (num den : Z) (m1 m2 : point) :
  nearest_fraction c num den ->
  - 2 ^ 31 < fst m2 - fst m1 < 2 ^ 31 ->
  - 2 ^ 31 < snd m2 - snd m1 < 2 ^ 31 ->
  exists dx dy,
    calculate_coordinate_addition m1 m2 c = Ok (dx, dy)
    /\ truncated num den (fst m2 - fst m1) dx
    /\ truncated num den (snd m2 - snd m1) dy.
Proof.
  intros Hc Hx Hy. unfold calculate_coordinate_addition.
  destruct (to_int_mul_truncated c num den _ Hc Hx) as (dx & -> & Hdx).
  destruct (to_int_mul_truncated c num den _ Hc Hy) as (dy & -> & Hdy).
  exists dx, dy. auto.
Qed.

(** X20. For a percentage that is the float nearest to [num / den], as the
    three constants of the module are, and differences below [2 ^ 31],
    the addition is defined; each coordinate has the sign of the
    difference and is its [num / den]-th part rounded toward zero, at most
    one further toward zero. *)
Theorem calculate_coordinate_addition_truncates
  (c : PyFloat.float) (num den : Z) (m1 m2 : point) :
  nearest_fraction c num den ->
  - 2 ^ 31 < fst m2 - fst m1 < 2 ^ 31 ->
  - 2 ^ 31 < snd m2 - snd m1 < 2 ^ 31 ->
  exists dx dy,
    calculate_coordinate_addition m1 m2 c = Ok (dx, dy)
    /\ truncated num den (fst m2 - fst m1) dx
    /\ truncated num den (snd m2 - snd m1) dy.
Proof. exact (coordinate_addition_truncated c num den m1 m2). Qed.

Lemma calculate_coordinate_addition_truncates_witness :
  exists dx dy,
    calculate_coordinate_addition (0, 0) (1000, -500) SCORE_BLOCK_LENGTH = Ok (dx, dy)
    /\ truncated 45 1000 (fst (1000, -500) - fst (0, 0)) dx
    /\ truncated 45 1000 (snd (1000, -500) - snd (0, 0)) dy.
Proof.
  apply calculate_coordinate_addition_truncates.
  - unfold nearest_fraction.
    exists 6485183463413514%positive, (-57).
    repeat split; vm_compute; first [reflexivity | discriminate | (intro; discriminate)].
  - cbn. lia.
  - cbn. lia.
Defined.

(** ** The middles of a table end *)

Lemma middle_point_comm (p q : point) : middle_point p q = middle_point q p.
Proof. unfold middle_point. f_equal; f_equal; ring. Qed.

Lemma of_int_finite_sign (n : Z) : PyFloat.is_nan (PyFloat.of_int n) = false.
Proof.
  destruct n as [| p | p].
  - reflexivity.
  - pose proof (Rounding.of_int_number (Zpos p) ltac:(lia)) as H.
    destruct (PyFloat.of_int (Zpos p)); [reflexivity | reflexivity | contradiction | reflexivity].
  - rewrite Products.of_int_neg.
    pose proof (Rounding.of_int_number (Zpos p) ltac:(lia)) as H.
    destruct (PyFloat.of_int (Zpos p)); [reflexivity | reflexivity | contradiction | reflexivity].
Qed.

(** With the margin to the middle, a product can only fail by
    overflow. *)
Lemma to_int_margin (n : Z) :
  match PyFloat.to_int (PyFloat.mul (PyFloat.of_int n) SCORE_TO_MIDDLE_MARGIN) with
  | Ok _ => True
  | Raise e => e = OverflowError "cannot convert float infinity to integer"
  end.
Proof.
  pose proof (of_int_finite_sign n) as Hn.
  assert (Ec : SCORE_TO_MIDDLE_MARGIN = S754_finite false 6124895493223875 (-55))
    by (vm_compute; reflexivity).
  rewrite Ec.
  destruct (PyFloat.of_int n) as [s | s | | s m e]; try discriminate Hn.
  - exact I.
  - reflexivity.
  - unfold PyFloat.mul, SFmul.
    pose proof (Rounding.binary_round_aux_number (xorb s false)
                  (Zpos (m * 6124895493223875)) (e + -55) loc_Exact ltac:(lia)) as Hb.
    destruct (binary_round_aux _ _ _ _ _ _) as [s' | s' | | s' m' e'];
      try contradiction; try exact I.
    reflexivity.
Qed.

Lemma margin_addition (m1 m2 : point) :
  match calculate_coordinate_addition m1 m2 SCORE_TO_MIDDLE_MARGIN with
  | Ok _ => True
  | Raise e => e = OverflowError "cannot convert float infinity to integer"
  end.
Proof.
  unfold calculate_coordinate_addition.
  pose proof (to_int_margin (fst m2 - fst m1)) as Hx.
  pose proof (to_int_margin (snd m2 - snd m1)) as Hy.
  destruct (PyFloat.to_int (PyFloat.mul (PyFloat.of_int (fst m2 - fst m1)) _)) as [dx | e];
    cbn [bind]; [| exact Hx].
  destruct (PyFloat.to_int (PyFloat.mul (PyFloat.of_int (snd m2 - snd m1)) _)) as [dy | e];
    cbn [bind]; [exact I | exact Hy].
Qed.

(** X21. Giving the two points of a table end in the other order gives the
    same middle, and the two quarter points exchanged. *)
Theorem table_end_middles_swap (p q : point) :
  table_end_middles (q, p)
  = ('(m, a, b) <- table_end_middles (p, q) ;; Ok (m, b, a)).
Proof.
  unfold table_end_middles. cbn [fst snd].
  rewrite (middle_point_comm q p).
  set (m := middle_point p q).
  pose proof (margin_addition (middle_point p m) m) as Ha.
  pose proof (margin_addition (middle_point q m) m) as Hb.
  destruct (calculate_coordinate_addition (middle_point p m) m SCORE_TO_MIDDLE_MARGIN)
    as [ta | ea];
    destruct (calculate_coordinate_addition (middle_point q m) m SCORE_TO_MIDDLE_MARGIN)
    as [tb | eb]; cbn [bind]; try reflexivity.
  rewrite Ha, Hb. reflexivity.
Qed.

Lemma truncated_between (num den a m t : Z) :
  0 < num <= den -> truncated num den (m - a) t -> between a m (a + t).
Proof.
  unfold truncated, between. intros Hnd [Hpos Hneg].
  destruct (Z_le_gt_dec 0 (m - a)) as [H | H].
  - destruct (Hpos H) as [Ht [_ Hup]].
    assert (den * t <= den * (m - a)).
    { apply Z.le_trans with (num * (m - a)); [exact Hup |].
      apply Z.mul_le_mono_nonneg_r; lia. }
    assert (t <= m - a) by (apply (Z.mul_le_mono_pos_l _ _ den); lia).
    lia.
  - destruct (Hneg ltac:(lia)) as [Ht [Hlow _]].
    assert (den * (m - a) <= den * t).
    { apply Z.le_trans with (num * (m - a)); [| exact Hlow].
      apply Z.mul_le_mono_nonpos_r; lia. }
    assert (m - a <= t) by (apply (Z.mul_le_mono_pos_l _ _ den); lia).
    lia.
Qed.

Lemma half_between (a b : Z) : between a b ((a + b) / 2).
Proof.
  unfold between.
  pose proof (Z.div_mod (a + b) 2 ltac:(lia)).
  pose proof (Z.mod_pos_bound (a + b) 2 ltac:(lia)).
  lia.
Qed.

Lemma between_trans (a m x y : Z) : between a m x -> between x m y -> between a m y.
Proof. unfold between. lia. Qed.

Lemma table_end_middles_inside (e : point * point) :
  point_within (2 ^ 23) (fst e) -> point_within (2 ^ 23) (snd e) ->
  exists a b,
    table_end_middles e = Ok (middle_point (fst e) (snd e), a, b)
    /\ point_between (fst e) (middle_point (fst e) (snd e)) a
    /\ point_between (snd e) (middle_point (fst e) (snd e)) b.
Proof.
  intros Hp Hq.
  assert (E23 : 2 ^ 23 = 8388608) by reflexivity.
  assert (E31 : 2 ^ 31 = 2147483648) by reflexivity.
  set (m := middle_point (fst e) (snd e)).
  pose proof (middle_point_within _ _ _ Hp Hq) as Hm. fold m in Hm.
  pose proof (middle_point_within _ _ _ Hp Hm) as Ha.
  pose proof (middle_point_within _ _ _ Hq Hm) as Hb.
  unfold table_end_middles. fold m.
  set (a0 := middle_point (fst e) m) in *. set (b0 := middle_point (snd e) m) in *.
  unfold point_within in Hm, Ha, Hb.
  destruct (coordinate_addition_truncated _ 17 100 a0 m
              middle_margin_fraction) as (ax & ay & -> & Hax & Hay); [lia | lia |].
  destruct (coordinate_addition_truncated _ 17 100 b0 m
              middle_margin_fraction) as (bx & by_ & -> & Hbx & Hby); [lia | lia |].
  cbn [bind]. eexists. eexists. split; [reflexivity |].
  unfold point_between, add_point. cbn [fst snd].
  split; split.
  - apply (between_trans _ _ (fst a0)); [apply half_between |].
    apply (truncated_between 17 100); [lia | exact Hax].
  - apply (between_trans _ _ (snd a0)); [apply half_between |].
    apply (truncated_between 17 100); [lia | exact Hay].
  - apply (between_trans _ _ (fst b0)); [apply half_between |].
    apply (truncated_between 17 100); [lia | exact Hbx].
  - apply (between_trans _ _ (snd b0)); [apply half_between |].
    apply (truncated_between 17 100); [lia | exact Hby].
Qed.

(** X22. For a table end within [2 ^ 23] pixels of the origin the middles
    are defined: the first is the midpoint of the end, and the two others
    lie, in each coordinate, between their end point and that
    midpoint. *)
Theorem table_end_middles_between (e : point * point) :
  point_within (2 ^ 23) (fst e) -> point_within (2 ^ 23) (snd e) ->
  exists a b,
    table_end_middles e = Ok (middle_point (fst e) (snd e), a, b)
    /\ point_between (fst e) (middle_point (fst e) (snd e)) a
    /\ point_between (snd e) (middle_point (fst e) (snd e)) b.
Proof. exact (table_end_middles_inside e). Qed.

Lemma table_end_middles_between_witness :
  exists a b,
    table_end_middles ((0, 0), (0, 400))
    = Ok (middle_point (fst ((0, 0), (0, 400))) (snd ((0, 0), (0, 400))), a, b)
    /\ point_between (fst ((0, 0), (0, 400)))
         (middle_point (fst ((0, 0), (0, 400))) (snd ((0, 0), (0, 400)))) a
    /\ point_between (snd ((0, 0), (0, 400)))
         (middle_point (fst ((0, 0), (0, 400))) (snd ((0, 0), (0, 400)))) b.
Proof.
  apply table_end_middles_between; unfold point_within; cbn; lia.
Defined.

(** ** The ends of an axis-aligned table *)

(** Six candidates of which the first and the last have the smallest
    key. *)
Lemma nsmallest_two_of_six {A : Type} (key : A -> PyFloat.float) (e0 e1 e2 e3 e4 e5 : A) :
  PyFloat.ltb (key e5) (key e4) = true ->
  PyFloat.ltb (key e5) (key e3) = true ->
  PyFloat.ltb (key e4) (key e3) = false ->
  PyFloat.ltb (key e5) (key e2) = true ->
  PyFloat.ltb (key e3) (key e2) = false ->
  PyFloat.ltb (key e5) (key e1) = true ->
  PyFloat.ltb (key e2) (key e1) = true ->
  PyFloat.ltb (key e3) (key e1) = true ->
  PyFloat.ltb (key e4) (key e1) = false ->
  PyFloat.ltb (key e5) (key e0) = false ->
  nsmallest 2 [e0; e1; e2; e3; e4; e5] key = [e0; e5].
Proof.
  intros C54 C53 C43 C52 C32 C51 C21 C31 C41 C50.
  change (key_ltb (key e5, e5) (key e4, e4) = true) in C54.
  change (key_ltb (key e5, e5) (key e3, e3) = true) in C53.
  change (key_ltb (key e4, e4) (key e3, e3) = false) in C43.
  change (key_ltb (key e5, e5) (key e2, e2) = true) in C52.
  change (key_ltb (key e3, e3) (key e2, e2) = false) in C32.
  change (key_ltb (key e5, e5) (key e1, e1) = true) in C51.
  change (key_ltb (key e2, e2) (key e1, e1) = true) in C21.
  change (key_ltb (key e3, e3) (key e1, e1) = true) in C31.
  change (key_ltb (key e4, e4) (key e1, e1) = false) in C41.
  change (key_ltb (key e5, e5) (key e0, e0) = false) in C50.
  unfold nsmallest. cbn [map sorted insert].
  rewrite C54. cbn [insert].
  rewrite C53, C43. cbn [insert].
  rewrite C52, C32. cbn [insert].
  rewrite C51, C21, C31, C41. cbn [insert].
  rewrite C50. reflexivity.
Qed.

Lemma square_lt (a b : Z) : 0 <= a < b -> a * a < b * b.
Proof. intros H. apply Z.mul_lt_mono_nonneg; lia. Qed.

Lemma square_below (d : Z) : 0 <= d <= 2 ^ 24 -> d * d <= 2 ^ 48.
Proof.
  intros H. change (2 ^ 48) with (2 ^ 24 * 2 ^ 24). apply Z.mul_le_mono_nonneg; lia.
Qed.

Lemma table_ends_of_rectangle (x1 y1 x2 y2 : Z) :
  0 < y2 - y1 -> y2 - y1 < x2 - x1 -> x2 - x1 <= 2 ^ 24 ->
  find_table_ends (rectangle x1 y1 x2 y2)
  = [((x1, y1), (x1, y2)); ((x2, y2), (x2, y1))].
Proof.
  intros Hh Hwh Hw. unfold find_table_ends, rectangle.
  cbn [combinations map app].
  set (W := x2 - x1) in *. set (H := y2 - y1) in *.
  assert (E48 : 2 ^ 48 = 281474976710656) by reflexivity.
  assert (E50 : 2 ^ 50 = 1125899906842624) by reflexivity.
  pose proof (square_below W ltac:(lia)) as HWW.
  pose proof (square_below H ltac:(lia)) as HHH.
  pose proof (square_lt H W ltac:(lia)) as HHW.
  assert (0 < H * H) by (apply Z.mul_pos_pos; lia).
  assert (S0 : squared_distance (@pair point point (x1, y1) (x1, y2)) = H * H)
    by (unfold squared_distance, H; cbn [fst snd]; ring).
  assert (S1 : squared_distance (@pair point point (x1, y1) (x2, y2)) = W * W + H * H)
    by (unfold squared_distance, H, W; cbn [fst snd]; ring).
  assert (S2 : squared_distance (@pair point point (x1, y1) (x2, y1)) = W * W)
    by (unfold squared_distance, W; cbn [fst snd]; ring).
  assert (S3 : squared_distance (@pair point point (x1, y2) (x2, y2)) = W * W)
    by (unfold squared_distance, W; cbn [fst snd]; ring).
  assert (S4 : squared_distance (@pair point point (x1, y2) (x2, y1)) = W * W + H * H)
    by (unfold squared_distance, H, W; cbn [fst snd]; ring).
  assert (S5 : squared_distance (@pair point point (x2, y2) (x2, y1)) = H * H)
    by (unfold squared_distance, H; cbn [fst snd]; ring).
  rewrite nsmallest_two_of_six;
    try (rewrite distance_ltb_squared; rewrite ?S0, ?S1, ?S2, ?S3, ?S4, ?S5;
         [first [apply Z.ltb_lt; lia | apply Z.ltb_ge; lia] | lia | lia]).
  cbn [sorted insert]. unfold pair_ltb, point_ltb, point_eqb. cbn [fst snd].
  replace (x2 <? x1) with false by (symmetry; apply Z.ltb_ge; unfold W in *; lia).
  replace (x2 =? x1) with false by (symmetry; apply Z.eqb_neq; unfold W in *; lia).
  reflexivity.
Qed.

(** X23. For an axis-aligned rectangle that is wider than high, the table
    ends are its left and its right side. *)
Theorem find_table_ends_rectangle (x1 y1 x2 y2 : Z) :
  0 < y2 - y1 -> y2 - y1 < x2 - x1 -> x2 - x1 <= 2 ^ 24 ->
  find_table_ends (rectangle x1 y1 x2 y2)
  = [((x1, y1), (x1, y2)); ((x2, y2), (x2, y1))].
Proof. exact (table_ends_of_rectangle x1 y1 x2 y2). Qed.

Lemma find_table_ends_rectangle_witness :
  find_table_ends (rectangle 10 20 810 420)
  = [((10, 20), (10, 420)); ((810, 420), (810, 20))].
Proof. apply find_table_ends_rectangle; cbn; lia. Defined.

Lemma middle_point_column (x ya yb : Z) :
  fst (middle_point (x, ya) (x, yb)) = x
  /\ between ya yb (snd (middle_point (x, ya) (x, yb))).
Proof.
  unfold middle_point. cbn [fst snd]. split.
  - replace (x + x) with (x * 2) by ring. apply Z.div_mul. lia.
  - apply half_between.
Qed.

(** X24. For an axis-aligned table that is wider than high, within
    [2 ^ 23] pixels of the origin, the two score boxes are axis-aligned
    rectangles inside the table: the first within the left 6 percent of
    its width, the second within the right 6 percent. *)
Theorem find_score_boxes_rectangle (x1 y1 x2 y2 : Z) :
  point_within (2 ^ 23) (x1, y1) -> point_within (2 ^ 23) (x2, y2) ->
  0 < y2 - y1 -> y2 - y1 < x2 - x1 ->
  exists xa xb ya yb xc xd yc yd,
    find_score_boxes (rectangle x1 y1 x2 y2)
    = Ok ([(xa, yb); (xa, ya); (xb, ya); (xb, yb)],
          [(xc, yc); (xc, yd); (xd, yd); (xd, yc)])
    /\ (x1 <= xa <= xb /\ 100 * (xb - x1) <= 6 * (x2 - x1) /\ y1 <= ya <= yb /\ yb <= y2)
    /\ (xd <= xc <= x2 /\ 100 * (x2 - xd) <= 6 * (x2 - x1) /\ y1 <= yc <= yd /\ yd <= y2).
Proof.
  intros Hp Hq Hh Hwh.
  assert (E23 : 2 ^ 23 = 8388608) by reflexivity.
  assert (E24 : 2 ^ 24 = 16777216) by reflexivity.
  assert (E31 : 2 ^ 31 = 2147483648) by reflexivity.
  pose proof Hp as Hp'. pose proof Hq as Hq'.
  unfold point_within in Hp', Hq'. cbn [fst snd] in Hp', Hq'.
  unfold find_score_boxes.
  rewrite table_ends_of_rectangle by lia.
  destruct (table_end_middles_inside ((x1, y1), (x1, y2)))
    as (a1 & b1 & -> & Ha1 & Hb1);
    [unfold point_within; cbn [fst snd]; lia | unfold point_within; cbn [fst snd]; lia |].
  destruct (table_end_middles_inside ((x2, y2), (x2, y1)))
    as (a2 & b2 & -> & Ha2 & Hb2);
    [unfold point_within; cbn [fst snd]; lia | unfold point_within; cbn [fst snd]; lia |].
  cbn [fst snd bind] in *.
  destruct (middle_point_column x1 y1 y2) as [Em1 Hm1].
  destruct (middle_point_column x2 y2 y1) as [Em2 Hm2].
  assert (Em : snd (middle_point (x2, y2) (x2, y1)) = snd (middle_point (x1, y1) (x1, y2))).
  { unfold middle_point. cbn [fst snd]. f_equal. ring. }
  set (m1 := middle_point (x1, y1) (x1, y2)) in *.
  set (m2 := middle_point (x2, y2) (x2, y1)) in *.
  rewrite !(coordinate_addition_opposite m1 m2).
  destruct (coordinate_addition_truncated _ 15 1000 m1 m2
              inner_margin_fraction) as (ox & oy & -> & Hox & Hoy); [lia | lia |].
  destruct (coordinate_addition_truncated _ 45 1000 m1 m2
              block_length_fraction) as (lx & ly & -> & Hlx & Hly); [lia | lia |].
  cbn [bind]. unfold calculate_score_box, add_point, neg_point. cbn [fst snd].
  unfold point_between, between in Ha1, Hb1, Ha2, Hb2, Hm1, Hm2.
  cbn [fst snd] in Ha1, Hb1, Ha2, Hb2.
  unfold truncated in Hox, Hoy, Hlx, Hly.
  rewrite Em1, Em2 in *. rewrite Em in *.
  replace (snd m1 - snd m1) with 0 in Hoy, Hly by ring.
  assert (oy = 0) by lia. assert (ly = 0) by lia. subst oy ly.
  exists (x1 + ox), (x1 + ox + lx), (snd a1), (snd b1).
  exists (x2 - ox), (x2 - ox - lx), (snd b2), (snd a2).
  split; [| split].
  - f_equal. f_equal.
    + repeat (f_equal; [f_equal; lia |]). f_equal. f_equal; lia.
    + repeat (f_equal; [f_equal; lia |]). f_equal. f_equal; lia.
  - lia.
  - lia.
Qed.

Lemma find_score_boxes_rectangle_witness :
  exists xa xb ya yb xc xd yc yd,
    find_score_boxes (rectangle 10 20 810 420)
    = Ok ([(xa, yb); (xa, ya); (xb, ya); (xb, yb)],
          [(xc, yc); (xc, yd); (xd, yd); (xd, yc)])
    /\ (10 <= xa <= xb /\ 100 * (xb - 10) <= 6 * (810 - 10) /\ 20 <= ya <= yb /\ yb <= 420)
    /\ (xd <= xc <= 810 /\ 100 * (810 - xd) <= 6 * (810 - 10) /\ 20 <= yc <= yd /\ yd <= 420).
Proof.
  apply find_score_boxes_rectangle; unfold point_within; cbn; lia.
Defined.

(** ** The classification of the corners *)

Section ClassifiedPipeline.
Variable photo : Type.
Variable pixel : Type.
Variable straighten : photo -> @image pixel.
Variable table_corners : @image pixel -> list point.
Variable orange_objects : @image pixel -> list (pyslice * pyslice).
Variable bright_objects : @image pixel -> list (pyslice * pyslice).

(** [get_score] is the classification followed by the boxes, the crops
    and the two counts. *)
Lemma get_score_classified (img : photo) :
  get_score photo pixel straighten table_corners orange_objects bright_objects img
  = (cs <- classify_corners (table_corners (straighten img)) ;;
     '(box1, box2) <- find_score_boxes cs ;;
     crops <- crop_boxes (straighten img) [box1; box2] ;;
     match crops with
     | [score1_crop; score2_crop] =>
         left <- find_score_from_image (orange_objects score1_crop) ;;
         right <- find_score_from_image (bright_objects score2_crop) ;;
         Ok {| leftScore := 10 - left; rightScore := right |}
     | [] => Raise (ValueError "need more than 0 values to unpack")
     | [_] => Raise (ValueError "need more than 1 value to unpack")
     | _ => Raise (ValueError "too many values to unpack")
     end).
Proof.
  unfold get_score, classify_corners.
  destruct (find_crop_corners (table_corners (straighten img))) as [[tl br] | e];
    cbn [bind]; [| reflexivity].
  destruct (list_remove tl (table_corners (straighten img))) as [l1 | e];
    cbn [bind]; [| reflexivity].
  destruct (list_remove br l1) as [l2 | e]; cbn [bind]; [| reflexivity].
  destruct (py_min point_ltb l2) as [bl | e]; cbn [bind]; [| reflexivity].
  destruct (py_max point_ltb l2) as [tr | e]; cbn [bind]; reflexivity.
Qed.
End ClassifiedPipeline.

Lemma point_eqb_eq (a b : point) : point_eqb a b = true <-> a = b.
Proof.
  destruct a as [ax ay], b as [bx by_]. unfold point_eqb. cbn [fst snd].
  rewrite andb_true_iff, !Z.eqb_eq. split.
  - intros [-> ->]. reflexivity.
  - intros E. injection E as -> ->. auto.
Qed.

Lemma list_remove_in (x : point) (l : list point) :
  In x l -> exists l', list_remove x l = Ok l' /\ Permutation l (x :: l').
Proof.
  induction l as [| y l IH]; intros Hin; [contradiction |].
  cbn [list_remove].
  destruct (point_eqb y x) eqn:E.
  - apply point_eqb_eq in E. subst y. exists l. split; [reflexivity | apply Permutation_refl].
  - destruct Hin as [-> | Hin].
    + assert (point_eqb x x = true) by (apply point_eqb_eq; reflexivity). congruence.
    + destruct (IH Hin) as (l' & -> & HP). cbn [bind].
      exists (y :: l'). split; [reflexivity |].
      apply perm_trans with (y :: x :: l'); [apply perm_skip, HP | apply perm_swap].
Qed.

Lemma find_crop_corners_split (box : list point) :
  (3 <= List.length box)%nat ->
  exists tl br,
    find_crop_corners box = Ok (tl, br)
    /\ In tl (firstn 2 (sorted point_ltb box))
    /\ In br (skipn 2 (sorted point_ltb box)).
Proof.
  intros Hlen. unfold find_crop_corners.
  pose proof (sorted_length point_ltb box) as Hl.
  set (s := sorted point_ltb box) in *.
  destruct (py_min point_ltb (map flip (firstn 2 s))) as [tl | e] eqn:Etl.
  - destruct (py_max point_ltb (map flip (skipn 2 s))) as [br | e] eqn:Ebr.
    + apply py_min_in, in_map_flip in Etl. apply py_max_in, in_map_flip in Ebr.
      exists (flip tl), (flip br). cbn [bind]. auto.
    + destruct s as [| a [| b [| c s']]]; cbn [List.length] in Hl; try lia.
      discriminate Ebr.
  - destruct s as [| a [| b [| c s']]]; cbn [List.length] in Hl; try lia.
    discriminate Etl.
Qed.

Lemma point_ltb_irrefl (a : point) : point_ltb a a = false.
Proof. unfold point_ltb. rewrite Z.ltb_irrefl, Z.ltb_irrefl, andb_false_r. reflexivity. Qed.

Lemma min_max_pair (r0 r1 : point) :
  exists bl tr,
    py_min point_ltb [r0; r1] = Ok bl /\ py_max point_ltb [r0; r1] = Ok tr
    /\ Permutation [bl; tr] [r0; r1]
    /\ not_after point_ltb bl tr.
Proof.
  cbn [py_min py_max py_min_from py_max_from]. unfold not_after.
  eexists. eexists. split; [reflexivity |]. split; [reflexivity |].
  destruct (point_ltb r1 r0) eqn:E10.
  - rewrite (point_ltb_asym r1 r0 E10). split; [apply perm_swap |].
    apply (point_ltb_asym r1 r0 E10).
  - destruct (point_ltb r0 r1) eqn:E01.
    + split; [apply Permutation_refl | exact E10].
    + rewrite (point_not_after_antisym r0 r1 E10 E01).
      split; [apply Permutation_refl | apply point_ltb_irrefl].
Qed.

Lemma classify_corners_four (c0 c1 c2 c3 : point) :
  exists tl bl br tr,
    classify_corners [c0; c1; c2; c3] = Ok [tl; bl; br; tr]
    /\ Permutation [tl; bl; br; tr] [c0; c1; c2; c3]
    /\ find_crop_corners [c0; c1; c2; c3] = Ok (tl, br)
    /\ not_after point_ltb bl tr.
Proof.
  set (corners := [c0; c1; c2; c3]).
  destruct (find_crop_corners_split corners) as (tl & br & Ecc & Htl & Hbr);
    [cbn; lia |].
  pose proof (sorted_perm point_ltb corners) as HPs.
  pose proof (sorted_length point_ltb corners) as Hls.
  destruct (sorted point_ltb corners) as [| s0 [| s1 [| s2 [| s3 [| s4 s]]]]];
    try discriminate Hls.
  cbn [firstn skipn] in Htl, Hbr.
  destruct (list_remove_in tl corners) as (l1 & E1 & HP1).
  { apply (Permutation_in _ HPs). cbn. cbn in Htl. tauto. }
  assert (Hbr1 : In br l1).
  { assert (HP : Permutation (tl :: l1) [s0; s1; s2; s3])
      by (apply (perm_trans (Permutation_sym HP1)), Permutation_sym, HPs).
    destruct Htl as [<- | [<- | []]].
    - apply Permutation_cons_inv in HP.
      apply (Permutation_in _ (Permutation_sym HP)). cbn. cbn in Hbr. tauto.
    - assert (HP' : Permutation (s1 :: l1) (s1 :: [s0; s2; s3]))
        by (apply (perm_trans HP), perm_swap).
      apply Permutation_cons_inv in HP'.
      apply (Permutation_in _ (Permutation_sym HP')). cbn. cbn in Hbr. tauto. }
  destruct (list_remove_in br l1 Hbr1) as (l2 & E2 & HP2).
  assert (Hl2 : List.length l2 = 2%nat).
  { apply Permutation_length in HP1, HP2. cbn [List.length] in HP1, HP2.
    unfold corners in HP1. cbn [List.length] in HP1. lia. }
  destruct l2 as [| r0 [| r1 [| r2 l2]]]; try discriminate Hl2.
  destruct (min_max_pair r0 r1) as (bl & tr & Ebl & Etr & HPm & Hord).
  exists tl, bl, br, tr.
  unfold classify_corners. fold corners.
  rewrite Ecc. cbn [bind]. rewrite E1. cbn [bind]. rewrite E2. cbn [bind].
  rewrite Ebl. cbn [bind]. rewrite Etr. cbn [bind].
  split; [reflexivity |]. split; [| split; [reflexivity | exact Hord]].
  apply Permutation_sym, (perm_trans HP1). apply perm_skip.
  apply (perm_trans HP2).
  apply perm_trans with (br :: bl :: tr :: nil).
  - apply perm_skip, Permutation_sym, HPm.
  - apply perm_swap.
Qed.

(** X25. For four corners, whatever they are, the classification in
    [get_score] never raises, and the four classified corners are the four
    given corners in some order: each corner is used exactly once. *)
Theorem classify_corners_permutation (c0 c1 c2 c3 : point) :
  exists tl bl br tr,
    classify_corners [c0; c1; c2; c3] = Ok [tl; bl; br; tr]
    /\ Permutation [tl; bl; br; tr] [c0; c1; c2; c3].
Proof.
  destruct (classify_corners_four c0 c1 c2 c3) as (tl & bl & br & tr & E & HP & _).
  exists tl, bl, br, tr. auto.
Qed.

(** X26. For the four corners of an axis-aligned rectangle, in any order,
    the classification gives them in the order top left, bottom left,
    bottom right, top right. *)
Theorem classify_corners_rectangle (x1 y1 x2 y2 : Z) (corners : list point) :
  x1 < x2 -> y1 < y2 -> Permutation corners (rectangle x1 y1 x2 y2) ->
  classify_corners corners = Ok (rectangle x1 y1 x2 y2).
Proof.
  intros Hx Hy HP.
  pose proof (Permutation_length HP) as Hlen. unfold rectangle in Hlen.
  destruct corners as [| c0 [| c1 [| c2 [| c3 [| c4 l]]]]]; try discriminate Hlen.
  destruct (classify_corners_four c0 c1 c2 c3)
    as (tl & bl & br & tr & -> & HPc & Ecc & Hord).
  rewrite (crop_corners_of_rectangle x1 y1 x2 y2 _ Hx Hy HP) in Ecc.
  injection Ecc as <- <-.
  pose proof (perm_trans HPc HP) as HPr. unfold rectangle in HPr.
  assert (HP2 : Permutation [bl; tr] [(x1, y2); (x2, y1)]).
  { apply Permutation_cons_inv with (a := (x1, y1)) in HPr.
    apply Permutation_cons_inv with (a := (x2, y2)).
    apply perm_trans with (l' := [bl; (x2, y2); tr]); [apply perm_swap |].
    apply (perm_trans HPr).
    apply perm_trans with (l' := [(x2, y2); (x1, y2); (x2, y1)]); [apply perm_swap |].
    apply Permutation_refl. }
  apply Permutation_length_2 in HP2 as [[-> ->] | [-> ->]].
  - reflexivity.
  - unfold not_after, point_ltb in Hord. cbn [fst snd] in Hord. lia.
Qed.

Lemma classify_corners_rectangle_witness :
  classify_corners [(7, 5); (1, 2); (7, 2); (1, 5)] = Ok (rectangle 1 2 7 5).
Proof.
  apply classify_corners_rectangle; [lia | lia |].
  unfold rectangle.
  apply perm_trans with (l' := [(1, 2); (7, 5); (7, 2); (1, 5)]); [apply perm_swap |].
  apply perm_skip.
  apply perm_trans with (l' := [(7, 5); (1, 5); (7, 2)]); [apply perm_skip, perm_swap |].
  apply perm_trans with (l' := [(1, 5); (7, 5); (7, 2)]); [apply perm_swap |].
  apply Permutation_refl.
Defined.

(** ** The geometric steps of the pipeline *)

Lemma find_score_boxes_defined (c0 c1 c2 c3 : point) :
  Forall (point_within (2 ^ 23)) [c0; c1; c2; c3] ->
  exists p0 p1 p2 p3 q0 q1 q2 q3,
    find_score_boxes [c0; c1; c2; c3] = Ok ([p0; p1; p2; p3], [q0; q1; q2; q3]).
Proof.
  intros Hin. rewrite Forall_forall in Hin.
  assert (E23 : 2 ^ 23 = 8388608) by reflexivity.
  assert (E31 : 2 ^ 31 = 2147483648) by reflexivity.
  destruct (find_table_ends_two c0 c1 c2 c3) as (end1 & end2 & E & H1 & H2).
  apply combinations_in in H1 as [H1a H1b]. apply combinations_in in H2 as [H2a H2b].
  apply Hin in H1a, H1b, H2a, H2b.
  unfold find_score_boxes. rewrite E.
  destruct (table_end_middles_spec end1 H1a H1b) as (ta1 & tb1 & -> & _).
  destruct (table_end_middles_spec end2 H2a H2b) as (ta2 & tb2 & -> & _).
  cbn [bind].
  pose proof (middle_point_within _ _ _ H1a H1b) as Hm1.
  pose proof (middle_point_within _ _ _ H2a H2b) as Hm2.
  set (m1 := middle_point (fst end1) (snd end1)) in *.
  set (m2 := middle_point (fst end2) (snd end2)) in *.
  unfold point_within in Hm1, Hm2.
  destruct (calculate_coordinate_addition_bounds _ 15 1000 m1 m2 inner_margin_fraction)
    as (ox & oy & -> & _); [lia | lia |].
  destruct (calculate_coordinate_addition_bounds _ 15 1000 m2 m1 inner_margin_fraction)
    as (ox' & oy' & -> & _); [lia | lia |].
  destruct (calculate_coordinate_addition_bounds _ 45 1000 m1 m2 block_length_fraction)
    as (lx & ly & -> & _); [lia | lia |].
  destruct (calculate_coordinate_addition_bounds _ 45 1000 m2 m1 block_length_fraction)
    as (lx' & ly' & -> & _); [lia | lia |].
  cbn [bind]. unfold calculate_score_box.
  do 8 eexists. reflexivity.
Qed.

(** X27. For four table corners within [2 ^ 23] pixels of the origin
    and any image, the three geometric steps that [get_score] chains all
    return: the classification gives the four corners in some order,
    [find_score_boxes] gives two boxes of four points each for them, and
    [crop_boxes] gives one crop for each box. Nothing is said of the
    steps that follow: the colour segmentation of a crop is outside the
    embedding, and it may reject a crop without pixels. *)
Theorem get_score_geometry_defined
  {pixel : Type} (img : @image pixel) (c0 c1 c2 c3 : point) :
  Forall (point_within (2 ^ 23)) [c0; c1; c2; c3] ->
  exists classified box1 box2 score1_crop score2_crop,
    classify_corners [c0; c1; c2; c3] = Ok classified
    /\ Permutation classified [c0; c1; c2; c3]
    /\ find_score_boxes classified = Ok (box1, box2)
    /\ List.length box1 = 4%nat /\ List.length box2 = 4%nat
    /\ crop_boxes img [box1; box2] = Ok [score1_crop; score2_crop].
Proof.
  intros Hin.
  destruct (classify_corners_four c0 c1 c2 c3) as (tl & bl & br & tr & Ec & HP & _).
  destruct (find_score_boxes_defined tl bl br tr)
    as (p0 & p1 & p2 & p3 & q0 & q1 & q2 & q3 & E).
  { apply (Permutation_Forall (Permutation_sym HP)), Hin. }
  destruct (find_crop_corners_four p0 p1 p2 p3) as (tl1 & br1 & E1).
  destruct (find_crop_corners_four q0 q1 q2 q3) as (tl2 & br2 & E2).
  exists [tl; bl; br; tr], [p0; p1; p2; p3], [q0; q1; q2; q3].
  eexists. eexists.
  split; [exact Ec |]. split; [exact HP |]. split; [exact E |].
  split; [reflexivity |]. split; [reflexivity |].
  unfold crop_boxes. cbn [mapM]. rewrite E1, E2. cbn [bind]. reflexivity.
Qed.

Lemma get_score_geometry_defined_witness :
  let img := List.repeat (List.repeat 0 120%nat) 50%nat in
  exists classified box1 box2 score1_crop score2_crop,
    classify_corners [(0, 0); (0, 40); (100, 40); (100, 0)] = Ok classified
    /\ Permutation classified [(0, 0); (0, 40); (100, 40); (100, 0)]
    /\ find_score_boxes classified = Ok (box1, box2)
    /\ List.length box1 = 4%nat /\ List.length box2 = 4%nat
    /\ crop_boxes img [box1; box2] = Ok [score1_crop; score2_crop].
Proof.
  intros img.
  apply (get_score_geometry_defined img (0, 0) (0, 40) (100, 40) (100, 0)).
  repeat constructor; cbn; lia.
Defined.

(** ** The crops *)

Section CropFacts.
Context {pixel : Type}.
Implicit Types (img : @image pixel) (row : list pixel).

Lemma py_slice_inside {A : Type} (l : list A) (a b : Z) :
  0 <= a <= b -> b <= Z.of_nat (List.length l) ->
  py_slice l a b = firstn (Z.to_nat b - Z.to_nat a) (skipn (Z.to_nat a) l).
Proof.
  intros Hab Hb. unfold py_slice, slice_bound.
  replace (a <? 0) with false by (symmetry; apply Z.ltb_ge; lia).
  replace (b <? 0) with false by (symmetry; apply Z.ltb_ge; lia).
  rewrite !Z.min_l by lia. f_equal. lia.
Qed.

Lemma nth_error_py_slice {A : Type} (l : list A) (a b : Z) (k : nat) :
  0 <= a <= b -> b <= Z.of_nat (List.length l) -> Z.of_nat k < b - a ->
  nth_error (py_slice l a b) k = nth_error l (Z.to_nat a + k).
Proof.
  intros Hab Hb Hk. rewrite py_slice_inside by assumption.
  rewrite nth_error_firstn, nth_error_skipn.
  replace (k <? Z.to_nat b - Z.to_nat a)%nat with true; [reflexivity |].
  symmetry. apply Nat.ltb_lt. lia.
Qed.

Lemma length_py_slice {A : Type} (l : list A) (a b : Z) :
  0 <= a <= b -> b <= Z.of_nat (List.length l) ->
  List.length (py_slice l a b) = Z.to_nat (b - a).
Proof.
  intros Hab Hb. rewrite py_slice_inside by assumption.
  rewrite length_firstn, length_skipn. lia.
Qed.

Lemma cons_column_first (col : list pixel) (m : @image pixel) (i : nat) :
  pixel_at (cons_column col m) i 0 = nth_error col i.
Proof.
  revert m i. induction col as [| x col IH]; intros m i.
  - destruct i; reflexivity.
  - destruct m as [| r m], i as [| i]; cbn [cons_column]; try reflexivity.
    + apply (IH [] i).
    + apply (IH m i).
Qed.

Lemma pixel_at_nil (i j : nat) : pixel_at ([] : @image pixel) i j = None.
Proof. unfold pixel_at. destruct i; reflexivity. Qed.

Lemma cons_column_next (col : list pixel) (m : @image pixel) (i j : nat) :
  pixel_at (cons_column col m) i (S j)
  = if (i <? List.length col)%nat then pixel_at m i j else None.
Proof.
  revert m i. induction col as [| x col IH]; intros m i.
  - destruct i; reflexivity.
  - destruct m as [| r m], i as [| i]; cbn [cons_column].
    + rewrite pixel_at_nil. unfold pixel_at. cbn [nth_error]. destruct j; reflexivity.
    + change (pixel_at ([x] :: cons_column col []) (S i) (S j))
        with (pixel_at (cons_column col []) i (S j)).
      rewrite IH, !pixel_at_nil.
      destruct (i <? List.length col)%nat, (S i <? List.length (x :: col))%nat;
        reflexivity.
    + reflexivity.
    + change (pixel_at ((x :: r) :: cons_column col m) (S i) (S j))
        with (pixel_at (cons_column col m) i (S j)).
      rewrite IH. reflexivity.
Qed.

(** In an image whose rows have the same length, transposition
    exchanges the two indices. *)
Lemma transpose_at (w : nat) (m : @image pixel) :
  Forall (fun row => List.length row = w) m ->
  forall i j, pixel_at (transpose m) i j = pixel_at m j i.
Proof.
  induction 1 as [| row m Hrow Hm IH]; intros i j.
  - unfold pixel_at. destruct i, j; reflexivity.
  - cbn [transpose]. destruct j as [| j].
    + apply cons_column_first.
    + rewrite cons_column_next, IH. rewrite Hrow.
      destruct (i <? w)%nat eqn:E; [reflexivity |].
      apply Nat.ltb_ge in E.
      change (pixel_at (row :: m) (S j) i) with (pixel_at m j i).
      unfold pixel_at. destruct (nth_error m j) as [r |] eqn:Er; [| reflexivity].
      symmetry. apply nth_error_None.
      apply nth_error_In in Er. rewrite Forall_forall in Hm.
      rewrite (Hm r Er). exact E.
Qed.

Lemma cons_column_length (col : list pixel) (m : @image pixel) :
  List.length (cons_column col m) = List.length col.
Proof.
  revert m. induction col as [| x col IH]; intros m; [reflexivity |].
  destruct m as [| r m]; cbn [cons_column List.length]; f_equal; apply IH.
Qed.

Lemma transpose_length (w : nat) (m : @image pixel) :
  Forall (fun row => List.length row = w) m -> m <> [] ->
  List.length (transpose m) = w.
Proof.
  intros H Hne. destruct H as [| row m Hrow _]; [contradiction |].
  cbn [transpose]. rewrite cons_column_length. exact Hrow.
Qed.

(** X28. For an image whose rows have the same length and a box whose crop
    corners lie inside it, the crop is the rectangle between the corners
    turned by a quarter: it has one row for each column of the rectangle,
    the last column first, and pixel [j] of row [i] is the pixel of row
    [y1 + j] and column [x2 - 1 - i] of the image. *)
Theorem crop_boxes_pixels (img : @image pixel) (b : box) (x1 y1 x2 y2 : Z) (w : nat) :
  Forall (fun row => List.length row = w) img ->
  find_crop_corners b = Ok ((x1, y1), (x2, y2)) ->
  0 <= x1 < x2 -> x2 <= Z.of_nat w ->
  0 <= y1 < y2 -> y2 <= Z.of_nat (List.length img) ->
  exists crop,
    crop_boxes img [b] = Ok [crop]
    /\ List.length crop = Z.to_nat (x2 - x1)
    /\ forall i j : nat,
        Z.of_nat i < x2 - x1 -> Z.of_nat j < y2 - y1 ->
        exists v,
          pixel_at crop i j = Some v
          /\ pixel_at img (Z.to_nat y1 + j) (Z.to_nat x2 - 1 - i) = Some v.
Proof.
  intros Hrect Ecc Hx Hxw Hy Hyh.
  unfold crop_boxes. cbn [mapM]. rewrite Ecc. cbn [bind fst snd].
  eexists. split; [reflexivity |].
  set (C := crop_slice img y1 y2 x1 x2).
  assert (HC : Forall (fun row => List.length row = Z.to_nat (x2 - x1)) C).
  { unfold C, crop_slice. apply Forall_forall. intros row Hrow.
    apply in_map_iff in Hrow as [r [<- Hr]].
    apply length_py_slice; [lia |].
    rewrite py_slice_inside in Hr by lia.
    apply in_firstn, in_skipn in Hr. rewrite Forall_forall in Hrect.
    rewrite (Hrect r Hr). exact Hxw. }
  assert (HCl : List.length C = Z.to_nat (y2 - y1)).
  { unfold C, crop_slice. rewrite length_map. apply length_py_slice; lia. }
  assert (HCne : C <> []).
  { intros E. rewrite E in HCl. cbn [List.length] in HCl. lia. }
  pose proof (transpose_length _ C HC HCne) as HTl.
  unfold flip_vertical. split.
  - rewrite length_rev. exact HTl.
  - intros i j Hi Hj.
    unfold pixel_at at 1. rewrite nth_error_rev, HTl.
    replace (i <? Z.to_nat (x2 - x1))%nat with true
      by (symmetry; apply Nat.ltb_lt; lia).
    fold (pixel_at (transpose C) (Z.to_nat (x2 - x1) - S i) j).
    rewrite (transpose_at _ C HC).
    unfold pixel_at, C, crop_slice.
    rewrite nth_error_map, nth_error_py_slice by lia.
    destruct (nth_error img (Z.to_nat y1 + j)) as [r |] eqn:Er.
    + cbn [option_map].
      apply nth_error_In in Er as Hin. rewrite Forall_forall in Hrect.
      pose proof (Hrect r Hin) as Hlen.
      rewrite nth_error_py_slice by lia.
      replace (Z.to_nat x1 + (Z.to_nat (x2 - x1) - S i))%nat
        with (Z.to_nat x2 - 1 - i)%nat by lia.
      destruct (nth_error r (Z.to_nat x2 - 1 - i)) as [v |] eqn:Ev.
      * exists v. auto.
      * apply nth_error_None in Ev. lia.
    + apply nth_error_None in Er. lia.
Qed.
End CropFacts.

Lemma crop_boxes_pixels_witness :
  let img := [[1; 2; 3]; [4; 5; 6]; [7; 8; 9]] in
  exists crop,
    crop_boxes img [[(1, 0); (1, 2); (3, 2); (3, 0)]] = Ok [crop]
    /\ List.length crop = Z.to_nat (3 - 1)
    /\ forall i j : nat,
        Z.of_nat i < 3 - 1 -> Z.of_nat j < 2 - 0 ->
        exists v,
          pixel_at crop i j = Some v
          /\ pixel_at img (Z.to_nat 0 + j) (Z.to_nat 3 - 1 - i) = Some v.
Proof.
  intros img.
  apply (crop_boxes_pixels img _ 1 0 3 2 3%nat).
  - repeat constructor.
  - reflexivity.
  - lia.
  - cbn. lia.
  - lia.
  - cbn. lia.
Defined.

(** ** One crop for each box *)

(** X29. [crop_boxes] returns crops exactly when every box has at least
    three points, and then one crop for each box; otherwise the first box
    that is too short makes it raise [ValueError]. *)
Theorem crop_boxes_one_per_box {pixel : Type} (img : @image pixel) (boxes : list box) :
  (Forall (fun b => (3 <= List.length b)%nat) boxes ->
   exists crops,
     crop_boxes img boxes = Ok crops /\ List.length crops = List.length boxes)
  /\ (~ Forall (fun b => (3 <= List.length b)%nat) boxes ->
      exists msg, crop_boxes img boxes = Raise (ValueError msg)).
Proof.
  unfold crop_boxes. induction boxes as [| b boxes [IHok IHerr]]; split.
  - intros _. exists []. split; reflexivity.
  - intros H. exfalso. apply H. constructor.
  - intros H. apply Forall_cons_iff in H as [Hb H].
    destruct (find_crop_corners_split b Hb) as (tl & br & E & _).
    destruct (IHok H) as (crops & Ec & Hl).
    cbn [mapM]. rewrite E. cbn [bind]. rewrite Ec. cbn [bind].
    eexists. split; [reflexivity |]. cbn [List.length]. rewrite Hl. reflexivity.
  - intros H. cbn [mapM].
    destruct (Nat.lt_ge_cases (List.length b) 3) as [Hb | Hb].
    + destruct (find_crop_corners_short b Hb) as [msg ->]. exists msg. reflexivity.
    + destruct (find_crop_corners_split b Hb) as (tl & br & -> & _). cbn [bind].
      destruct IHerr as [msg ->].
      * intros Hall. apply H. constructor; assumption.
      * exists msg. reflexivity.
Qed.

(** ** The order of distances *)

(** X30. Between points within [2 ^ 23] pixels of the origin, rounding
    never changes the order of two distances: the computed distances
    compare as the exact squared distances do. *)
Theorem distance_order_exact (p q r s : point) :
  point_within (2 ^ 23) p -> point_within (2 ^ 23) q ->
  point_within (2 ^ 23) r -> point_within (2 ^ 23) s ->
  PyFloat.ltb (distance_between_points (p, q)) (distance_between_points (r, s))
  = (squared_distance (p, q) <? squared_distance (r, s)).
Proof.
  intros Hp Hq Hr Hs.
  apply distance_ltb_squared; apply squared_distance_within; assumption.
Qed.

Lemma distance_order_exact_witness :
  PyFloat.ltb (distance_between_points ((0, 0), (2, 3)))
              (distance_between_points ((1, 1), (4, 3)))
  = (squared_distance ((0, 0), (2, 3)) <? squared_distance ((1, 1), (4, 3))).
Proof.
  apply distance_order_exact; unfold point_within; cbn; lia.
Defined.
